(** * BinanceBot: the fill-detection and counter-order engine

    A shallow embedding of [bot.py] and [order_storage.py].

    - Python numbers are kept behind the interface [Number]; the code is
      translated once, generically, and run at two instances:
      [float64] (IEEE 754 binary64 with round-to-nearest-even, what
      CPython's [float] is and the program computes in) and [Qc] (exact
      rationals, the reading in which the documentation states its
      formulas, kept for comparison).
    - The SQLite table [orders] is a finite map keyed by [order_id]
      (its primary key).
    - The exchange, the terminal and the clock are an abstract world [G]
      driven through the record [Env]; every interaction is recorded in the
      list of events a run emits.
    - Python exceptions are values of [Exn]; a computation is a state and
      error monad [M] in which the effects made before an exception stay.
    - [str.strip] and [str.lower], whose tables of Unicode white space and
      case belong to the interpreter, are operations of [Env] as well. *)

From Stdlib Require Import ZArith QArith Qcanon String Ascii List Bool Lia.
From Stdlib Require Import Floats.SpecFloat.
From stdpp Require Import base option list gmap.

Local Open Scope Z_scope.
Local Open Scope string_scope.

(** ** Numbers *)

(** The arithmetic the two source files use on prices, volumes and
    percentages: [+], [-], [*], [/] (true division; every divisor in the
    source is [100] or the length of a non-empty list), [<] and the
    conversion of an integer literal. [a > b] is [b < a]. *)
Class Number (T : Type) : Type := {
  of_Z : Z -> T;
  padd : T -> T -> T;
  psub : T -> T -> T;
  pmul : T -> T -> T;
  pdiv : T -> T -> T;
  plt : T -> T -> bool
}.

Declare Scope num_scope.
Delimit Scope num_scope with num.
Infix "+!" := padd (at level 50, left associativity) : num_scope.
Infix "-!" := psub (at level 50, left associativity) : num_scope.
Infix "*!" := pmul (at level 40, left associativity) : num_scope.
Infix "/!" := pdiv (at level 40, left associativity) : num_scope.
Infix "<!" := plt (at level 70, no associativity) : num_scope.
Notation "a >! b" := (plt b a) (at level 70, no associativity, only parsing) : num_scope.

(** Exact rationals in canonical form: the arithmetic in which the
    documentation states its formulas. The program does not compute in it;
    it is here to compare with. *)
Definition Qc_ltb (a b : Qc) : bool :=
  match (a ?= b)%Qc with Lt => true | _ => false end.

#[export] Instance Qc_Number : Number Qc := {
  of_Z z := Q2Qc (inject_Z z);
  padd := Qcplus;
  psub := Qcminus;
  pmul := Qcmult;
  pdiv := Qcdiv;
  plt := Qc_ltb
}.

(** IEEE 754 binary64: 53 bits of precision, exponents below 1024. *)
Definition float64 : Type := spec_float.
Definition f64_prec : Z := 53.
Definition f64_emax : Z := 1024.

(** [float(n)] for an integer [n]: the nearest double, ties to even. *)
Definition f64_of_Z (z : Z) : float64 :=
  binary_normalize f64_prec f64_emax z 0 false.

#[export] Instance float64_Number : Number float64 := {
  of_Z := f64_of_Z;
  padd := SFadd f64_prec f64_emax;
  psub := SFsub f64_prec f64_emax;
  pmul := SFmul f64_prec f64_emax;
  pdiv := SFdiv f64_prec f64_emax;
  plt := SFltb
}.

(** The number a decimal literal [n / 10^k] denotes: exact in [Qc]; in
    [float64] the correctly rounded quotient of two integers that are
    doubles themselves (for [|n| < 2^53] and [k <= 22]), which is the double
    Python reads the literal as. *)
Definition decimal {T : Type} {NT : Number T} (n : Z) (k : nat) : T :=
  pdiv (of_Z n) (of_Z (10 ^ Z.of_nat k)).

(** ** Constants of [binance.enums] and [binance.client] *)

Definition SIDE_BUY : string := "BUY".
Definition SIDE_SELL : string := "SELL".
Definition ORDER_TYPE_LIMIT : string := "LIMIT".
Definition TIME_IN_FORCE_GTC : string := "GTC".
Definition KLINE_INTERVAL_1MINUTE : string := "1m".

(** ** Exceptions *)

(** Every constructor is a subclass of Python's [Exception]; asynchronous
    interrupts are outside the model. [OtherException] stands for whatever
    else a call into a library raises (a connection error of the client,
    the [EOFError] of [input] on a closed standard input), by its name. *)
Inductive Exn : Type :=
| BinanceAPIException (message : string)
| ValueError (msg : string)
| IndexError (msg : string)
| KeyError (key : string)
| TypeError (msg : string)
| UnboundLocalError (variable : string)
| OtherException (name : string).

Set Implicit Arguments.

Section Model.

Variable T : Type.
Context {NT : Number T}.

Local Open Scope num_scope.

(** ** Data *)

(** An object of class [Order] of order_storage.py. *)
Record Order : Type := mkOrder {
  order_id : Z;
  symbol : string;
  side : string;
  price : T;
  volume : T;
  status : string;
  created_at : Z
}.

(** The columns of the table [orders] beside its primary key [order_id]:
    the table is a finite map from the key to these. *)
Record Row : Type := mkRow {
  r_symbol : string;
  r_side : string;
  r_price : T;
  r_volume : T;
  r_status : string;
  r_created_at : Z
}.

(** The object the ORM makes of the row stored under [id], and back. *)
Definition load (id : Z) (row : Row) : Order :=
  mkOrder id (r_symbol row) (r_side row) (r_price row) (r_volume row)
    (r_status row) (r_created_at row).

Definition row_of (o : Order) : Row :=
  mkRow (symbol o) (side o) (price o) (volume o) (status o) (created_at o).

Definition with_status (st : string) (row : Row) : Row :=
  mkRow (r_symbol row) (r_side row) (r_price row) (r_volume row) st
    (r_created_at row).

(** An element of the list [client.get_open_orders] returns, with the
    fields the bot reads; [o['price']] and [o['origQty']] are kept as the
    numbers [float(...)] makes of them. *)
Record LiveOrder : Type := mkLiveOrder {
  o_orderId : Z;
  o_symbol : string;
  o_side : string;
  o_price : T;
  o_origQty : T
}.

(** An entry of [settings['symbols']]; the keys read with [.get] may be
    absent. *)
Record SymbolConfig : Type := mkSymbolConfig {
  is_active : option bool;
  profit_percent : T;
  volume_buy : T;
  volume_sell : T;
  price_min : T;
  price_max : T;
  price_precision : option nat;
  volume_precision : option nat;
  adaptive_limit_percent : option T;
  moving_average_period_min : option Z
}.

Record GlobalSettings : Type := mkGlobalSettings {
  api_key : string;
  api_sec : string;
  fee_percent : T;
  confirm_order : option bool;
  poll_interval_sec : option T
}.

(** [settings.json]; a JSON object keeps the order of its keys. *)
Record Settings : Type := mkSettings {
  global : GlobalSettings;
  symbols : list (string * SymbolConfig)
}.

(** The text [f"{value:.{digits}f}"], kept as the value and the number of
    decimals it is rendered with. *)
Record FixedStr : Type := mkFixedStr {
  fs_value : T;
  fs_digits : nat
}.

(** The keyword arguments of [client.create_order]. *)
Record OrderRequest : Type := mkOrderRequest {
  req_symbol : string;
  req_side : string;
  req_type : string;
  req_quantity : T;
  req_price : FixedStr;
  req_timeInForce : string
}.

(** The lines the bot writes, one constructor per f-string of bot.py, with
    the values the f-string interpolates. *)
Inductive Message : Type :=
| MsgFetchOrdersFailed (sym emsg : string)
| MsgFetchPriceFailed (sym emsg : string)
| MsgSkippedBelowMin (sym counter_side : string) (p p_min : T)
| MsgSkippedAboveMax (sym : string) (p p_max : T)
| MsgSkippedAdaptive (sym : string) (p adaptive_limit moving_avg adaptive_percent : T)
    (digits : nat)
| MsgMovingAverageFailed (sym : string) (e : Exn)
| MsgReadyToPlace (counter_side sym : string) (vol : T) (price_str : FixedStr)
| MsgOrderCancelled
| MsgOrderPlaced (counter_side sym : string) (vol : T) (price_str : FixedStr)
| MsgPlaceFailed (emsg : string)
| MsgNoActiveSymbols
| MsgOrderExecuted (filled_side sym : string) (vol p : T)
| MsgSymbolStatus (sym : string) (current_price : T) (open_count : nat)
    (profit : T) (current_time : string)
| MsgOpenOrder (sym live_side : string) (qty : T) (digits : nat) (p : T)
| MsgBlank.

(** What a run does that the outside can see, in order. *)
Inductive Event : Type :=
| EvLogInfo (m : Message)
| EvLogError (m : Message)
| EvPrint (m : Message)
| EvClearConsole
| EvSleep (seconds : T)
| EvInput (prompt : string) (resp : Exn + string)
| EvGetKlines (sym interval : string) (limit : Z) (resp : Exn + list (list T))
| EvGetOpenOrders (sym : string) (resp : Exn + list LiveOrder)
| EvGetSymbolTicker (sym : string) (resp : Exn + T)
| EvCreateOrder (req : OrderRequest) (resp : Exn + unit).

(** ** The world outside *)

Variable G : Type.

(** The exchange client, the terminal and the clock: each operation reads
    and advances the world [G]. A kline is the list of its fields (the
    close at index 4) and a ticker is its ['price'], both as the numbers
    [float(...)] makes of them. [input] raises as well as it answers
    ([EOFError] when the standard input is closed). The last two fields are
    the methods [str.strip] and [str.lower] of the interpreter: pure
    functions, of which the bot assumes nothing. *)
Record Env : Type := mkEnv {
  client_get_klines : string -> string -> Z -> G -> (Exn + list (list T)) * G;
  client_get_open_orders : string -> G -> (Exn + list LiveOrder) * G;
  client_get_symbol_ticker : string -> G -> (Exn + T) * G;
  client_create_order : OrderRequest -> G -> (Exn + unit) * G;
  input : string -> G -> (Exn + string) * G;
  time_time : G -> Z * G;
  time_clock : G -> string * G;
  str_strip : string -> string;
  str_lower : string -> string
}.

(** ** The monad *)

Record State : Type := mkState {
  ledger : gmap Z Row;
  world : G
}.

Record Result (A : Type) : Type := mkResult {
  outcome : Exn + A;
  final : State;
  emitted : list Event
}.

Definition M (A : Type) : Type := State -> Result A.

Definition ret {A : Type} (a : A) : M A :=
  fun s => mkResult (inr a) s [].

Definition raise {A : Type} (e : Exn) : M A :=
  fun s => mkResult (inl e) s [].

Definition bind {A B : Type} (m : M A) (k : A -> M B) : M B :=
  fun s =>
    let r := m s in
    match outcome r with
    | inl e => mkResult (inl e) (final r) (emitted r)
    | inr a =>
        let r' := k a (final r) in
        mkResult (outcome r') (final r') (emitted r ++ emitted r')
    end.

(** [try: body except ...: handler]; the handler answers [None] for an
    exception its [except] clause does not name. *)
Definition try_except {A : Type} (body : M A) (handler : Exn -> option (M A)) : M A :=
  fun s =>
    let r := body s in
    match outcome r with
    | inl e =>
        match handler e with
        | Some h =>
            let r' := h (final r) in
            mkResult (outcome r') (final r') (emitted r ++ emitted r')
        | None => r
        end
    | inr _ => r
    end.

Definition emit (ev : Event) : M unit :=
  fun s => mkResult (inr tt) s [ev].

End Model.

Arguments MsgFetchOrdersFailed {T} sym emsg.
Arguments MsgFetchPriceFailed {T} sym emsg.
Arguments MsgMovingAverageFailed {T} sym e.
Arguments MsgOrderCancelled {T}.
Arguments MsgPlaceFailed {T} emsg.
Arguments MsgNoActiveSymbols {T}.
Arguments MsgBlank {T}.
Arguments EvClearConsole {T}.
Arguments EvInput {T} prompt resp.
Arguments ret {T G A} a s.
Arguments raise {T G A} e s.
Arguments emit {T G} ev s.

Notation "x <- m ;; k" := (bind m (fun x => k))
  (at level 100, m at next level, right associativity).
Notation "m ;; k" := (bind m (fun _ => k))
  (at level 100, right associativity).

Section Program.

Variable T : Type.
Context {NT : Number T}.
Variable G : Type.
Variable env : Env T G.

Local Open Scope num_scope.

Local Abbreviation M := (M T G).
Local Abbreviation State := (State T G).

(** [for x in l: body x] *)
Fixpoint for_each {A : Type} (l : list A) (body : A -> M unit) : M unit :=
  match l with
  | [] => ret tt
  | x :: l' => body x ;; for_each l' body
  end.

(** [[f x for x in l]] *)
Fixpoint map_M {A B : Type} (f : A -> M B) (l : list A) : M (list B) :=
  match l with
  | [] => ret []
  | x :: l' => y <- f x ;; ys <- map_M f l' ;; ret (y :: ys)
  end.

(** *** Calls into the world; each one is recorded. *)

Definition call_get_klines (sym interval : string) (limit : Z) : M (list (list T)) :=
  fun s =>
    let '(resp, g) := client_get_klines env sym interval limit (world s) in
    mkResult resp (mkState (ledger s) g) [EvGetKlines sym interval limit resp].

Definition call_get_open_orders (sym : string) : M (list (LiveOrder T)) :=
  fun s =>
    let '(resp, g) := client_get_open_orders env sym (world s) in
    mkResult resp (mkState (ledger s) g) [EvGetOpenOrders sym resp].

Definition call_get_symbol_ticker (sym : string) : M T :=
  fun s =>
    let '(resp, g) := client_get_symbol_ticker env sym (world s) in
    mkResult resp (mkState (ledger s) g) [EvGetSymbolTicker sym resp].

Definition call_create_order (req : OrderRequest T) : M unit :=
  fun s =>
    let '(resp, g) := client_create_order env req (world s) in
    mkResult resp (mkState (ledger s) g) [EvCreateOrder req resp].

Definition call_input (prompt : string) : M string :=
  fun s =>
    let '(resp, g) := input env prompt (world s) in
    mkResult resp (mkState (ledger s) g) [EvInput prompt resp].

(** [int(time.time())] *)
Definition call_time : M Z :=
  fun s =>
    let '(now, g) := time_time env (world s) in
    mkResult (inr now) (mkState (ledger s) g) [].

(** [time.strftime("%H:%M:%S", time.localtime())] *)
Definition call_clock : M string :=
  fun s =>
    let '(now, g) := time_clock env (world s) in
    mkResult (inr now) (mkState (ledger s) g) [].

(** ** order_storage.py *)

(** The column [order_id] is a SQLite INTEGER: 64 bits, signed. The table
    is modelled for keys in that range, which the order ids of the exchange
    are; binding a Python integer outside it makes the query raise
    [OverflowError] and the session is discarded, which the model leaves
    out. The properties that say a ledger operation returns carry the range
    as a hypothesis. *)
Definition sqlite_integer (id : Z) : Prop := (- 2 ^ 63 <= id < 2 ^ 63)%Z.

(** [session.query(Order).filter_by(order_id=id).first()] *)
Definition query_first (id : Z) : M (option (Order T)) :=
  fun s => mkResult (inr (load id <$> ledger s !! id)) s [].

(** [order.status = st] on an object the session loaded, once committed:
    the row under the object's key gets the new status. *)
Definition set_status (order : Order T) (st : string) : M unit :=
  fun s =>
    mkResult (inr tt)
      (mkState (alter (with_status st) (order_id order) (ledger s)) (world s)) [].

(** [session.add(order)], once committed. *)
Definition session_add (order : Order T) : M unit :=
  fun s =>
    mkResult (inr tt)
      (mkState (<[order_id order := row_of order]> (ledger s)) (world s)) [].

(** The body of the loop of [save_or_update_orders]. *)
Definition upsert_row (o : LiveOrder T) : M unit :=
  order <- query_first (o_orderId o) ;;
  match order with
  | Some order => set_status order "OPEN"
  | None =>
      now <- call_time ;;
      session_add (mkOrder (o_orderId o) (o_symbol o) (o_side o) (o_price o)
                     (o_origQty o) "OPEN" now)
  end.

(** The session flushes before each query, so a row added earlier in the
    loop is found by a later iteration; for order ids that are
    [sqlite_integer] nothing between the first query and [session.commit()]
    raises. *)
Definition save_or_update_orders (order_list : list (LiveOrder T)) : M unit :=
  for_each order_list upsert_row.

(** The rows come back in the order of the table scan, which SQL leaves
    unspecified; here it is the order of [map_to_list]. *)
Definition get_filled_orders (active_symbols : list string) : M (list (Order T)) :=
  fun s =>
    mkResult
      (inr (List.filter
              (fun order => String.eqb (status order) "OPEN"
                            && existsb (String.eqb (symbol order)) active_symbols)
              (map (fun entry => load (fst entry) (snd entry))
                 (map_to_list (ledger s)))))
      s [].

Definition mark_order_filled (id : Z) : M unit :=
  order <- query_first id ;;
  match order with
  | Some order => set_status order "FILLED"
  | None => ret tt
  end.

(** ** bot.py *)

Definition log_info (m : Message T) : M unit := emit (EvLogInfo m).
Definition log_error (m : Message T) : M unit := emit (EvLogError m).
Definition print_line (m : Message T) : M unit := emit (EvPrint m).

(** [sum(l)]: from the integer 0, left to right. *)
Definition py_sum (l : list T) : T := fold_left padd l (of_Z 0).

(** [len(l)], as the number the division converts it to. *)
Definition py_len (l : list T) : T := of_Z (Z.of_nat (length l)).

Definition get_moving_average (sym : string) (minutes : Z) : M T :=
  klines <- call_get_klines sym KLINE_INTERVAL_1MINUTE minutes ;;
  match klines with
  | [] => raise (ValueError ("No Kline data for " ++ sym))
  | _ :: _ =>
      close_prices <-
        map_M (fun kline : list T =>
                 match kline !! 4%nat with
                 | Some c => ret c
                 | None => raise (IndexError "list index out of range")
                 end) klines ;;
      ret (py_sum close_prices /! py_len close_prices)
  end.

Definition get_open_orders (sym : string) : M (list (LiveOrder T)) :=
  try_except (call_get_open_orders sym)
    (fun e =>
       match e with
       | BinanceAPIException message =>
           Some (log_error (MsgFetchOrdersFailed sym message) ;; ret [])
       | _ => None
       end).

Definition get_current_price (sym : string) : M (option T) :=
  try_except (p <- call_get_symbol_ticker sym ;; ret (Some p))
    (fun e =>
       match e with
       | BinanceAPIException message =>
           Some (log_error (MsgFetchPriceFailed sym message) ;; ret None)
       | _ => None
       end).

(** The three local variables of [place_opposite_order] that only the
    branches of its [if]/[elif] assign. *)
Record Locals : Type := mkLocals {
  l_volume : option T;
  l_price : option T;
  l_side : option string
}.

(** How the [if]/[elif] block of [place_opposite_order] ends: with a
    [return], or by reaching the statement after it. *)
Inductive Flow : Type :=
| Returned
| FallThrough (l : Locals).

(** Reading a local variable. *)
Definition read_local {A : Type} (name : string) (v : option A) : M A :=
  match v with
  | Some a => ret a
  | None => raise (UnboundLocalError name)
  end.

(** Lines 104-124 of [place_opposite_order]: format, announce, confirm,
    place. *)
Definition confirm_and_place (confirm : bool) (digits : nat) (sym : string)
    (l : Locals) : M unit :=
  p <- read_local "price" (l_price l) ;;
  let price_str := mkFixedStr p digits in
  sd <- read_local "side" (l_side l) ;;
  vol <- read_local "volume" (l_volume l) ;;
  log_info (MsgReadyToPlace sd sym vol price_str) ;;
  let place : M unit :=
    try_except
      (call_create_order
         (mkOrderRequest sym sd ORDER_TYPE_LIMIT vol price_str TIME_IN_FORCE_GTC) ;;
       log_info (MsgOrderPlaced sd sym vol price_str))
      (fun e =>
         match e with
         | BinanceAPIException message => Some (log_error (MsgPlaceFailed message))
         | _ => None
         end) in
  if confirm then
    user_input <- call_input "Confirm order? [y/N]: " ;;
    if negb (String.eqb (str_lower env (str_strip env user_input)) "y")
    then print_line MsgOrderCancelled
    else place
  else place.

(** The expression of line 71: the price asked after a buy was filled. *)
Definition price_after_buy (order_price profit vol fee : T) : T :=
  order_price +! (order_price *! profit) +! ((order_price *! vol) *! fee).

(** The expression of line 80: the price bid after a sell was filled. *)
Definition price_after_sell (order_price profit vol fee : T) : T :=
  order_price -! (order_price *! profit) -! ((order_price *! vol) *! fee).

(** The expression of line 96. *)
Definition adaptive_limit_of (moving_avg adaptive_percent : T) : T :=
  moving_avg *! (of_Z 1 +! adaptive_percent /! of_Z 100).

Definition place_opposite_order (original_order : Order T) (settings : Settings T)
    (symbol_config : SymbolConfig T) : M unit :=
  let order_side := side original_order in
  let order_price := price original_order in
  let sym := symbol original_order in
  let fee := fee_percent (global settings) /! of_Z 100 in
  let profit := profit_percent symbol_config /! of_Z 100 in
  let confirm := default true (confirm_order (global settings)) in
  let p_min := price_min symbol_config in
  let p_max := price_max symbol_config in
  let digits := default 2%nat (price_precision symbol_config) in
  flow <-
    (if String.eqb order_side SIDE_BUY then
       let vol := volume_sell symbol_config in
       let p := price_after_buy order_price profit vol fee in
       let sd := SIDE_SELL in
       if p <! p_min then
         log_info (MsgSkippedBelowMin sym "SELL" p p_min) ;; ret Returned
       else ret (FallThrough (mkLocals (Some vol) (Some p) (Some sd)))
     else if String.eqb order_side SIDE_SELL then
       let vol := volume_buy symbol_config in
       let p := price_after_sell order_price profit vol fee in
       let sd := SIDE_BUY in
       if p <! p_min then
         log_info (MsgSkippedBelowMin sym "BUY" p p_min) ;; ret Returned
       else if p >! p_max then
         log_info (MsgSkippedAboveMax sym p p_max) ;; ret Returned
       else
         let adaptive_percent := default (of_Z 0) (adaptive_limit_percent symbol_config) in
         let ma_period := default 0%Z (moving_average_period_min symbol_config) in
         if (adaptive_percent >! of_Z 0) && (0 <? ma_period)%Z then
           try_except
             (moving_avg <- get_moving_average sym ma_period ;;
              let adaptive_limit := adaptive_limit_of moving_avg adaptive_percent in
              if p >! adaptive_limit then
                log_info (MsgSkippedAdaptive sym p adaptive_limit moving_avg
                            adaptive_percent digits) ;;
                ret Returned
              else ret (FallThrough (mkLocals (Some vol) (Some p) (Some sd))))
             (fun e => Some (log_error (MsgMovingAverageFailed sym e) ;; ret Returned))
         else ret (FallThrough (mkLocals (Some vol) (Some p) (Some sd)))
     else ret (FallThrough (mkLocals None None None))) ;;
  match flow with
  | Returned => ret tt
  | FallThrough l => confirm_and_place confirm digits sym l
  end.

(** Lines 153-155 of [main]: what is done with an order found filled. *)
Definition handle_fill (settings : Settings T) (cfg : SymbolConfig T) (sym : string)
    (order : Order T) : M unit :=
  log_info (MsgOrderExecuted (side order) sym (volume order) (price order)) ;;
  place_opposite_order order settings cfg ;;
  mark_order_filled (order_id order).

(** Lines 151-155 of [main]. *)
Definition process_fills (settings : Settings T) (cfg : SymbolConfig T) (sym : string)
    (open_order_ids : gset Z) (existing_orders : list (Order T)) : M unit :=
  for_each existing_orders (fun order =>
    if decide (order_id order ∈ open_order_ids) then ret tt
    else handle_fill settings cfg sym order).

(** Lines 145-155 of [main]: fetch, refresh the ledger, handle the fills. *)
Definition reconcile_symbol (settings : Settings T) (cfg : SymbolConfig T)
    (sym : string) : M (option T * list (LiveOrder T)) :=
  current_price <- get_current_price sym ;;
  open_orders <- get_open_orders sym ;;
  save_or_update_orders open_orders ;;
  existing_orders <- get_filled_orders [sym] ;;
  let open_order_ids : gset Z := list_to_set (map (@o_orderId T) open_orders) in
  process_fills settings cfg sym open_order_ids existing_orders ;;
  ret (current_price, open_orders).

(** Lines 157-165 of [main]: the status line and the open orders. The
    format [:.4f] applied to [None] raises. *)
Definition render_symbol (cfg : SymbolConfig T) (sym : string)
    (current_price : option T) (open_orders : list (LiveOrder T)) : M unit :=
  current_time <- call_clock ;;
  match current_price with
  | None => raise (TypeError "unsupported format string passed to NoneType.__format__")
  | Some p =>
      print_line (MsgSymbolStatus sym p (length open_orders) (profit_percent cfg)
                    current_time)
  end ;;
  for_each open_orders (fun order =>
    let qty := o_origQty order in
    let p := o_price order in
    let precision := default 1%nat (volume_precision cfg) in
    print_line (MsgOpenOrder (o_symbol order) (o_side order) qty precision p)) ;;
  print_line MsgBlank.

(** The body of [for symbol in active_symbols], lines 144-165. *)
Definition symbol_cycle (settings : Settings T) (sym : string)
    (cfg : SymbolConfig T) : M unit :=
  fetched <- reconcile_symbol settings cfg sym ;;
  render_symbol cfg sym (fst fetched) (snd fetched).

(** [symbols_config[symbol]] *)
Fixpoint lookup_symbol (sym : string) (l : list (string * SymbolConfig T))
    : option (SymbolConfig T) :=
  match l with
  | [] => None
  | (k, cfg) :: l' => if String.eqb k sym then Some cfg else lookup_symbol sym l'
  end.

(** One turn of [while True]. *)
Definition poll_cycle (settings : Settings T) (active_symbols : list string)
    (poll_interval : T) : M unit :=
  emit EvClearConsole ;;
  for_each active_symbols (fun sym =>
    match lookup_symbol sym (symbols settings) with
    | Some cfg => symbol_cycle settings sym cfg
    | None => raise (KeyError sym)
    end) ;;
  emit (EvSleep poll_interval).

(** [main], for a given number of turns of its endless loop. *)
Definition main (settings : Settings T) (turns : nat) : M unit :=
  let poll_interval := default (of_Z 10) (poll_interval_sec (global settings)) in
  let active_symbols :=
    map fst (List.filter (fun entry => default false (is_active (snd entry)))
               (symbols settings)) in
  match active_symbols with
  | [] => print_line MsgNoActiveSymbols
  | _ :: _ =>
      for_each (repeat tt turns) (fun _ =>
        poll_cycle settings active_symbols poll_interval)
  end.

(** *** Sequences of ledger operations *)

Inductive LedgerOp : Type :=
| Upsert (order_list : list (LiveOrder T))
| MarkFilled (id : Z).

Definition run_op (op : LedgerOp) : M unit :=
  match op with
  | Upsert order_list => save_or_update_orders order_list
  | MarkFilled id => mark_order_filled id
  end.

Definition run_ops (ops : list LedgerOp) : M unit := for_each ops run_op.

(** The status column of the row with a given id. *)
Definition status_of (id : Z) (s : State) : option string :=
  @r_status T <$> ledger s !! id.

(** *** What a list of events contains *)

Definition is_create_order (ev : Event T) : bool :=
  match ev with EvCreateOrder _ _ => true | _ => false end.

Definition is_input (ev : Event T) : bool :=
  match ev with EvInput _ _ => true | _ => false end.

Definition is_get_klines (ev : Event T) : bool :=
  match ev with EvGetKlines _ _ _ _ => true | _ => false end.

Definition is_ready_to_place (ev : Event T) : bool :=
  match ev with EvLogInfo (MsgReadyToPlace _ _ _ _) => true | _ => false end.

Definition is_print_status (ev : Event T) : bool :=
  match ev with EvPrint (MsgSymbolStatus _ _ _ _ _) => true | _ => false end.

(** The four lines with which [place_opposite_order] gives up before line
    104. *)
Definition is_skip (ev : Event T) : bool :=
  match ev with
  | EvLogInfo (MsgSkippedBelowMin _ _ _ _) => true
  | EvLogInfo (MsgSkippedAboveMax _ _ _) => true
  | EvLogInfo (MsgSkippedAdaptive _ _ _ _ _ _) => true
  | EvLogError (MsgMovingAverageFailed _ _) => true
  | _ => false
  end.

(** The prompt of line 108, if it was shown and answered. *)
Definition Prompted (asked : list (Event T)) : Prop :=
  asked = [] \/ exists reply, asked = [EvInput "Confirm order? [y/N]: " (inr reply)].

(** The ways lines 107-124 end, with the outcome and the events of each:
    declined at the prompt, placed, refused by the exchange (logged and
    swallowed), left by an exception line 123 does not name, or left by an
    exception of [input] at line 108, which no [try] encloses. *)
Inductive PlacementEnd (req : OrderRequest T)
    : Exn + unit -> list (Event T) -> Prop :=
| end_cancelled :
    PlacementEnd req (inr tt) [EvPrint MsgOrderCancelled]
| end_placed :
    PlacementEnd req (inr tt)
      [EvCreateOrder req (inr tt);
       EvLogInfo (MsgOrderPlaced (req_side req) (req_symbol req) (req_quantity req)
                    (req_price req))]
| end_refused (message : string) :
    PlacementEnd req (inr tt)
      [EvCreateOrder req (inl (BinanceAPIException message));
       EvLogError (MsgPlaceFailed message)]
| end_aborted (e : Exn) :
    (forall message, e <> BinanceAPIException message) ->
    PlacementEnd req (inl e) [EvCreateOrder req (inl e)]
| end_interrupted (e : Exn) :
    PlacementEnd req (inl e) [EvInput "Confirm order? [y/N]: " (inl e)].

(** The assignments of lines 70-72 and 79-81, without the guards: the side,
    the volume and the price of the counter order, when the filled side is
    one of the two constants. *)
Definition counter_quote (original_order : Order T) (settings : Settings T)
    (symbol_config : SymbolConfig T) : option (string * T * T) :=
  let fee := fee_percent (global settings) /! of_Z 100 in
  let profit := profit_percent symbol_config /! of_Z 100 in
  if String.eqb (side original_order) SIDE_BUY then
    Some (SIDE_SELL, volume_sell symbol_config,
          price_after_buy (price original_order) profit (volume_sell symbol_config) fee)
  else if String.eqb (side original_order) SIDE_SELL then
    Some (SIDE_BUY, volume_buy symbol_config,
          price_after_sell (price original_order) profit (volume_buy symbol_config) fee)
  else None.

(** The request of lines 114-121 for a given quote. *)
Definition limit_order (sym sd : string) (vol p : T) (digits : nat) : OrderRequest T :=
  mkOrderRequest sym sd ORDER_TYPE_LIMIT vol (mkFixedStr p digits) TIME_IN_FORCE_GTC.

(** The only exceptions [client.create_order] raises in this world are
    gateway errors. *)
Definition placement_fails_softly : Prop :=
  forall (req : OrderRequest T) (g : G) (e : Exn),
    fst (client_create_order env req g) = inl e ->
    exists message, e = BinanceAPIException message.

(** [input] always answers in this world. *)
Definition prompt_is_answered : Prop :=
  forall (prompt : string) (g : G),
    exists reply, fst (input env prompt g) = inr reply.

(** The counter prices as the documentation writes them, operation by
    operation in the number type, from the filled price and the two
    percentages. *)
Definition documented_ask (filled_price profit_percent vol fee_percent : T) : T :=
  filled_price *! (of_Z 1 +! profit_percent /! of_Z 100)
  +! filled_price *! vol *! (fee_percent /! of_Z 100).

Definition documented_bid (filled_price profit_percent vol fee_percent : T) : T :=
  filled_price *! (of_Z 1 -! profit_percent /! of_Z 100)
  -! filled_price *! vol *! (fee_percent /! of_Z 100).

(** A symbol configuration with another [price_max]. *)
Definition with_price_max (p_max : T) (cfg : SymbolConfig T) : SymbolConfig T :=
  mkSymbolConfig (is_active cfg) (profit_percent cfg) (volume_buy cfg)
    (volume_sell cfg) (price_min cfg) p_max (price_precision cfg)
    (volume_precision cfg) (adaptive_limit_percent cfg)
    (moving_average_period_min cfg).

End Program.

Arguments Returned {T}.
Arguments MarkFilled {T} id.
Arguments is_create_order {T} ev.
Arguments is_input {T} ev.
Arguments is_get_klines {T} ev.
Arguments is_ready_to_place {T} ev.
Arguments is_print_status {T} ev.
Arguments is_skip {T} ev.
Arguments placement_fails_softly {T G} env.
Arguments prompt_is_answered {T G} env.
Arguments for_each {T G A} l body s.
Arguments map_M {T G A B} f l s.
Arguments read_local {T G A} name v s.
Arguments status_of {T G} id s.
Arguments get_filled_orders {T G} active_symbols s.
Arguments mark_order_filled {T G} id s.
Arguments query_first {T G} id s.
Arguments set_status {T G} order st s.
Arguments session_add {T G} order s.
Arguments log_info {T G} m s.
Arguments log_error {T G} m s.
Arguments print_line {T G} m s.


(** ** Text of the sample worlds

    In the sample worlds a text is a sequence of code points below 256, one
    to a character. On such texts the two methods of [str] are these. *)

(** [c.isspace()] for a code point below 256: the ASCII white space (tab
    to carriage return, the four separators, the blank), next line and the
    blank that does not break. *)
Definition is_space (c : ascii) : bool :=
  let n := nat_of_ascii c in
  ((9 <=? n)%nat && (n <=? 13)%nat) || ((28 <=? n)%nat && (n <=? 32)%nat)
  || (n =? 133)%nat || (n =? 160)%nat.

Fixpoint drop_spaces (l : list ascii) : list ascii :=
  match l with
  | c :: l' => if is_space c then drop_spaces l' else l
  | [] => []
  end.

(** [s.strip()] *)
Definition latin1_strip (s : string) : string :=
  string_of_list_ascii
    (rev (drop_spaces (rev (drop_spaces (list_ascii_of_string s))))).

(** [c.lower()] for a code point below 256: the letters A to Z and the
    accented capitals, of which the multiplication sign at 215 is none. *)
Definition lower_char (c : ascii) : ascii :=
  let n := nat_of_ascii c in
  if ((65 <=? n)%nat && (n <=? 90)%nat)
     || ((192 <=? n)%nat && (n <=? 222)%nat && negb (n =? 215)%nat)
  then ascii_of_nat (n + 32) else c.

(** [s.lower()] *)
Definition latin1_lower (s : string) : string :=
  string_of_list_ascii (map lower_char (list_ascii_of_string s)).

(** ** A scripted world

    The simplest instance of [Env]: every call of an operation gets the
    same canned answer, and the world has no state of its own. *)
Record Script (T : Type) : Type := mkScript {
  sc_klines : Exn + list (list T);
  sc_open_orders : Exn + list (LiveOrder T);
  sc_ticker : Exn + T;
  sc_create_order : Exn + unit;
  sc_reply : Exn + string;
  sc_now : Z;
  sc_clock : string
}.

Definition scripted {T : Type} (sc : Script T) : Env T unit :=
  mkEnv
    (fun _ _ _ g => (sc_klines sc, g))
    (fun _ g => (sc_open_orders sc, g))
    (fun _ g => (sc_ticker sc, g))
    (fun _ g => (sc_create_order sc, g))
    (fun _ g => (sc_reply sc, g))
    (fun g => (sc_now sc, g))
    (fun g => (sc_clock sc, g))
    latin1_strip latin1_lower.

Unset Implicit Arguments.

Section Samples.

Variable T : Type.
Context {NT : Number T}.

(** The settings of the documentation's examples: profit 1%, fee 0.1%,
    [volume_sell] 2, [volume_buy] 1, no confirmation prompt. *)
Definition sample_global : GlobalSettings T :=
  mkGlobalSettings "key" "secret" (decimal 1 1) (Some false) None.

Definition sample_config : SymbolConfig T :=
  mkSymbolConfig (Some true) (of_Z 1) (of_Z 1) (of_Z 2) (of_Z 50) (of_Z 150)
    None None None None.

(** The same with the adaptive guard on: 2% over the mean of 3 closes. *)
Definition adaptive_config : SymbolConfig T :=
  mkSymbolConfig (Some true) (of_Z 1) (of_Z 1) (of_Z 2) (of_Z 50) (of_Z 150)
    None None (Some (of_Z 2)) (Some 3%Z).

Definition sample_settings : Settings T :=
  mkSettings sample_global [("BTCUSDT", sample_config)].

Definition sample_order (id : Z) (sd : string) (p : Z) (st : string) : Order T :=
  mkOrder id "BTCUSDT" sd (of_Z p) (of_Z 1) st 0.

Definition sample_live (id : Z) (sd : string) (p : Z) : LiveOrder T :=
  mkLiveOrder id "BTCUSDT" sd (of_Z p) (of_Z 1).

(** A kline whose close is [c]. *)
Definition kline_closing (c : Z) : list T :=
  [of_Z 0; of_Z c; of_Z c; of_Z c; of_Z c; of_Z 0].

(** A world in which every call succeeds: no open order, price 100, the
    closes 100, 101, 102. *)
Definition calm : Script T :=
  mkScript (inr [kline_closing 100; kline_closing 101; kline_closing 102])
    (inr []) (inr (of_Z 100)) (inr tt) (inr "y") 1700000000 "12:00:00".

Definition with_klines (resp : Exn + list (list T)) (sc : Script T) : Script T :=
  mkScript resp (sc_open_orders sc) (sc_ticker sc) (sc_create_order sc)
    (sc_reply sc) (sc_now sc) (sc_clock sc).

Definition with_open_orders (resp : Exn + list (LiveOrder T)) (sc : Script T)
    : Script T :=
  mkScript (sc_klines sc) resp (sc_ticker sc) (sc_create_order sc)
    (sc_reply sc) (sc_now sc) (sc_clock sc).

Definition with_ticker (resp : Exn + T) (sc : Script T) : Script T :=
  mkScript (sc_klines sc) (sc_open_orders sc) resp (sc_create_order sc)
    (sc_reply sc) (sc_now sc) (sc_clock sc).

Definition with_create_order (resp : Exn + unit) (sc : Script T) : Script T :=
  mkScript (sc_klines sc) (sc_open_orders sc) (sc_ticker sc) resp
    (sc_reply sc) (sc_now sc) (sc_clock sc).

(** Settings without fee and a configuration without profit, with the
    adaptive guard at 2% over the mean of 3 closes: the counter price is
    the filled price. *)
Definition free_settings : Settings T :=
  mkSettings (mkGlobalSettings "key" "secret" (of_Z 0) (Some false) None)
    [("BTCUSDT", sample_config)].

Definition guard_config : SymbolConfig T :=
  mkSymbolConfig (Some true) (of_Z 0) (of_Z 1) (of_Z 2) (of_Z 50) (of_Z 150)
    None None (Some (of_Z 2)) (Some 3%Z).

(** The calm world with three closes of 100. *)
Definition flat : Script T :=
  with_klines (inr [kline_closing 100; kline_closing 100; kline_closing 100]) calm.

(** The calm world but for one operation that fails with a gateway
    error. *)
Definition no_ticker : Script T :=
  with_ticker (inl (BinanceAPIException "Too many requests")) calm.

Definition no_open_orders : Script T :=
  with_open_orders (inl (BinanceAPIException "Too many requests")) calm.

Definition no_placement : Script T :=
  with_create_order (inl (BinanceAPIException "Insufficient balance")) calm.

Definition with_reply (resp : Exn + string) (sc : Script T) : Script T :=
  mkScript (sc_klines sc) (sc_open_orders sc) (sc_ticker sc) (sc_create_order sc)
    resp (sc_now sc) (sc_clock sc).

(** The fetch of the open orders fails with a gateway error and the
    placement with an error of the connection, which is none. *)
Definition cut_off : Script T :=
  with_create_order (inl (OtherException "ConnectionError")) no_open_orders.

(** The calm world with the standard input closed. *)
Definition closed_stdin : Script T :=
  with_reply (inl (OtherException "EOFError")) calm.

(** The sample settings with [confirm_order] left out: the prompt is
    on. *)
Definition asking_settings : Settings T :=
  mkSettings (mkGlobalSettings "key" "secret" (decimal 1 1) None None)
    [("BTCUSDT", sample_config)].

(** Profit 1%, both volumes 2, and the given bounds. *)
Definition tight_config (p_min p_max : T) : SymbolConfig T :=
  mkSymbolConfig (Some true) (of_Z 1) (of_Z 2) (of_Z 2) p_min p_max
    None None None None.




(** A world that counts the fetches of open orders: the first one fails
    with a gateway error, the later ones list order 7; everything else is
    as in the calm world. *)
Definition flaky : Env T nat :=
  mkEnv
    (fun _ _ _ g => (sc_klines calm, g))
    (fun _ g =>
       (if Nat.eqb g 0 then inl (BinanceAPIException "Too many requests")
        else inr [sample_live 7 "BUY" 100],
        S g))
    (fun _ g => (sc_ticker calm, g))
    (fun _ g => (sc_create_order calm, g))
    (fun _ g => (sc_reply calm, g))
    (fun g => (sc_now calm, g))
    (fun g => (sc_clock calm, g))
    latin1_strip latin1_lower.

(** A ledger holding the given rows. *)
Definition ledger_of (rows : list (Order T)) : gmap Z (Row T) :=
  list_to_map (map (fun o => (order_id o, row_of o)) rows).

Definition state_of (rows : list (Order T)) : State T unit :=
  mkState (ledger_of rows) tt.

End Samples.

Arguments with_klines {T} resp sc.
Arguments with_open_orders {T} resp sc.
Arguments with_ticker {T} resp sc.
Arguments with_create_order {T} resp sc.
Arguments with_reply {T} resp sc.
Arguments ledger_of {T} rows.
Arguments state_of {T} rows.

(** ** What the further properties speak of *)

Section Observations.

Variable T : Type.

(** A row and what it may have become: the same columns, with the status
    it had or one of the two the code writes. *)
Definition status_step (row row' : Row T) : Prop :=
  exists st,
    (st = r_status row \/ st = "OPEN" \/ st = "FILLED") /\
    row' = with_status st row.

(** Every row of the first table is still in the second, changed in its
    status at most. *)
Definition rows_kept (l l' : gmap Z (Row T)) : Prop :=
  forall id row,
    l !! id = Some row ->
    exists row', l' !! id = Some row' /\ status_step row row'.

(** The symbol a call to the exchange is about. *)
Definition event_symbol (ev : Event T) : option string :=
  match ev with
  | EvGetKlines sym _ _ _ => Some sym
  | EvGetOpenOrders sym _ => Some sym
  | EvGetSymbolTicker sym _ => Some sym
  | EvCreateOrder req _ => Some (req_symbol req)
  | _ => None
  end.

Definition is_sleep (ev : Event T) : bool :=
  match ev with EvSleep _ => true | _ => false end.

Definition is_clear_console (ev : Event T) : bool :=
  match ev with EvClearConsole => true | _ => false end.

(** An event of the exchange, the terminal input or the log: anything but
    plain printing. *)
Definition is_call (ev : Event T) : bool :=
  match ev with
  | EvGetKlines _ _ _ _ | EvGetOpenOrders _ _ | EvGetSymbolTicker _ _
  | EvCreateOrder _ _ => true
  | _ => false
  end.

(** At most one request for one-minute klines of a symbol. *)
Definition klines_first (sym : string) (pre : list (Event T)) : Prop :=
  pre = [] \/
  exists limit resp, pre = [EvGetKlines sym KLINE_INTERVAL_1MINUTE limit resp].

(** An event of the cycle of a symbol: no clearing of the console, no
    sleep, and no call to the exchange about another symbol. *)
Definition about_symbol (sym : string) (ev : Event T) : Prop :=
  is_sleep ev = false /\ is_clear_console ev = false /\
  forall sy, event_symbol ev = Some sy -> sy = sym.

(** The first live order of a list with a given id. *)
Definition first_listed (id : Z) (order_list : list (LiveOrder T)) : option (LiveOrder T) :=
  List.find (fun o => Z.eqb (o_orderId o) id) order_list.

End Observations.

Arguments event_symbol {T} ev.
Arguments is_sleep {T} ev.
Arguments is_clear_console {T} ev.
Arguments is_call {T} ev.
Arguments first_listed {T} id order_list.
Arguments status_step {T} row row'.
Arguments rows_kept {T} l l'.
Arguments klines_first {T} sym pre.
Arguments about_symbol {T} sym ev.

(** * Properties *)

(** Splitting a conjunction into its parts, and nothing else. *)
Ltac conjuncts := repeat match goal with |- _ /\ _ => split end.

Local Open Scope list_scope.

Section Laws.

Variable T : Type.
Context {NT : Number T}.
Variable G : Type.
Variable env : Env T G.

Local Open Scope num_scope.

Local Abbreviation M := (M T G).
Local Abbreviation State := (State T G).

(** ** The monad *)

Lemma result_eta (A : Type) (r : Result T G A) :
  mkResult (outcome r) (final r) (emitted r) = r.
Proof. destruct r; reflexivity. Qed.

Lemma bind_ret_l (A B : Type) (a : A) (k : A -> M B) (s : State) :
  (x <- ret a ;; k x) s = k a s.
Proof. unfold bind, ret; simpl. apply result_eta. Qed.

Lemma bind_raise (A B : Type) (e : Exn) (k : A -> M B) (s : State) :
  (x <- raise e ;; k x) s = raise e s.
Proof. reflexivity. Qed.

Lemma bind_assoc (A B C : Type) (m : M A) (k : A -> M B) (h : B -> M C) (s : State) :
  (y <- (x <- m ;; k x) ;; h y) s = (x <- m ;; y <- k x ;; h y) s.
Proof.
  unfold bind; simpl.
  destruct (outcome (m s)) as [e | a]; simpl; [reflexivity |].
  destruct (outcome (k a (final (m s)))) as [e | b]; simpl; [reflexivity |].
  now rewrite app_assoc.
Qed.

Lemma bind_ok (A B : Type) (m : M A) (k : A -> M B) (s : State) (a : A) :
  outcome (m s) = inr a ->
  (x <- m ;; k x) s =
    mkResult (outcome (k a (final (m s)))) (final (k a (final (m s))))
      (emitted (m s) ++ emitted (k a (final (m s)))).
Proof. intros Hm. unfold bind. now rewrite Hm. Qed.

Lemma bind_fail (A B : Type) (m : M A) (k : A -> M B) (s : State) (e : Exn) :
  outcome (m s) = inl e ->
  (x <- m ;; k x) s = mkResult (inl e) (final (m s)) (emitted (m s)).
Proof. intros Hm. unfold bind. now rewrite Hm. Qed.

(** ** The moving average *)

(** Reading index 4 of every kline neither touches the state nor emits
    anything; it fails on the first kline that is too short. *)
Lemma closes_run (klines : list (list T)) (s : State) :
  map_M (fun kline : list T =>
           match kline !! 4%nat with
           | Some c => ret c
           | None => raise (IndexError "list index out of range")
           end) klines s =
  match mapM (fun kline : list T => kline !! 4%nat) klines with
  | Some close_prices => ret close_prices s
  | None => raise (IndexError "list index out of range") s
  end.
Proof.
  induction klines as [| kline klines IH]; [reflexivity |].
  cbn [map_M mapM]. unfold bind.
  destruct (kline !! 4%nat) as [c |]; simpl; [| reflexivity].
  rewrite IH.
  destruct (mapM _ klines); reflexivity.
Qed.

(** The whole of [get_moving_average]: one call for [minutes] one-minute
    klines, and what is made of the answer. *)
Lemma get_moving_average_run (sym : string) (minutes : Z) (s : State) :
  let resp := fst (client_get_klines env sym KLINE_INTERVAL_1MINUTE minutes (world s)) in
  let g := snd (client_get_klines env sym KLINE_INTERVAL_1MINUTE minutes (world s)) in
  get_moving_average env sym minutes s =
    mkResult
      (match resp with
       | inl e => inl e
       | inr [] => inl (ValueError ("No Kline data for " ++ sym)%string)
       | inr klines =>
           match mapM (fun kline : list T => kline !! 4%nat) klines with
           | Some close_prices => inr (py_sum close_prices /! py_len close_prices)
           | None => inl (IndexError "list index out of range")
           end
       end)
      (mkState (ledger s) g)
      [EvGetKlines sym KLINE_INTERVAL_1MINUTE minutes resp].
Proof.
  intros resp g. subst resp g.
  unfold get_moving_average, call_get_klines, bind at 1.
  destruct (client_get_klines env sym KLINE_INTERVAL_1MINUTE minutes (world s))
    as [[e | klines] g]; simpl; [reflexivity |].
  destruct klines as [| kline klines]; [reflexivity |].
  unfold bind. rewrite closes_run.
  destruct (mapM _ (kline :: klines)); reflexivity.
Qed.

(** ** The ledger *)

Lemma upsert_row_run (o : LiveOrder T) (s : State) :
  outcome (upsert_row env o s) = inr tt /\
  emitted (upsert_row env o s) = [] /\
  status_of (o_orderId o) (final (upsert_row env o s)) = Some "OPEN" /\
  forall id, id <> o_orderId o ->
    ledger (final (upsert_row env o s)) !! id = ledger s !! id.
Proof.
  unfold upsert_row, query_first, call_time, set_status, session_add, bind, status_of.
  simpl.
  destruct (ledger s !! o_orderId o) as [row |] eqn:Hrow; simpl.
  - conjuncts; [reflexivity | reflexivity | now rewrite lookup_alter_eq, Hrow |].
    intros id Hid. now rewrite lookup_alter_ne.
  - destruct (time_time env (world s)) as [now g]; simpl.
    conjuncts; [reflexivity | reflexivity | now rewrite lookup_insert_eq |].
    intros id Hid. now rewrite lookup_insert_ne.
Qed.

Lemma save_or_update_orders_run (order_list : list (LiveOrder T)) (s : State) :
  let r := save_or_update_orders env order_list s in
  outcome r = inr tt /\
  emitted r = [] /\
  (forall id, In id (map (@o_orderId T) order_list) -> status_of id (final r) = Some "OPEN") /\
  (forall id, ~ In id (map (@o_orderId T) order_list) -> ledger (final r) !! id = ledger s !! id).
Proof.
  revert s. induction order_list as [| o l IH]; intros s r; subst r.
  - conjuncts; [reflexivity | reflexivity | intros id [] | reflexivity].
  - change (save_or_update_orders env (o :: l) s)
      with ((upsert_row env o ;; save_or_update_orders env l) s).
    destruct (upsert_row_run o s) as (Hout & Hev & Hnew & Hold).
    rewrite (bind_ok _ _ _ _ _ _ Hout). cbn [outcome final emitted]. rewrite Hev. cbn [app].
    destruct (IH (final (upsert_row env o s))) as (Hout' & Hev' & Hin & Hnot).
    conjuncts; try assumption.
    + intros id [Hid | Hid].
      * subst id.
        destruct (in_dec Z.eq_dec (o_orderId o) (map (@o_orderId T) l)) as [Hi | Hn].
        -- now apply Hin.
        -- unfold status_of in *. rewrite (Hnot _ Hn). exact Hnew.
      * now apply Hin.
    + intros id Hid. simpl in Hid.
      rewrite Hnot by tauto. apply Hold. intros ->. tauto.
Qed.

Lemma mark_order_filled_run (id : Z) (s : State) :
  let r := mark_order_filled id s in
  outcome r = inr tt /\
  emitted r = [] /\
  world (final r) = world s /\
  (is_Some (ledger s !! id) -> status_of id (final r) = Some "FILLED") /\
  (forall id', id' <> id -> ledger (final r) !! id' = ledger s !! id') /\
  (forall id', status_of id' s = Some "FILLED" -> status_of id' (final r) = Some "FILLED").
Proof.
  unfold mark_order_filled, query_first, set_status, bind, status_of. simpl.
  destruct (ledger s !! id) as [row |] eqn:Hrow; simpl.
  - conjuncts; try reflexivity.
    + intros _. now rewrite lookup_alter_eq, Hrow.
    + intros id' Hid. now rewrite lookup_alter_ne.
    + intros id' Hst. destruct (decide (id = id')) as [<- | Hne].
      * now rewrite lookup_alter_eq, Hrow.
      * now rewrite lookup_alter_ne.
  - conjuncts; try tauto. intros [? ?]; discriminate.
Qed.

(** ** The pricing engine, branch by branch *)

(** After a BUY was filled: one comparison, then the placement. *)
Lemma place_after_buy (o : Order T) (settings : Settings T) (cfg : SymbolConfig T)
    (s : State) :
  side o = SIDE_BUY ->
  let p := price_after_buy (price o) (profit_percent cfg /! of_Z 100)
             (volume_sell cfg) (fee_percent (global settings) /! of_Z 100) in
  place_opposite_order env o settings cfg s =
    if p <! price_min cfg then
      mkResult (inr tt) s [EvLogInfo (MsgSkippedBelowMin (symbol o) "SELL" p (price_min cfg))]
    else
      confirm_and_place env (default true (confirm_order (global settings)))
        (default 2%nat (price_precision cfg)) (symbol o)
        (mkLocals (Some (volume_sell cfg)) (Some p) (Some SIDE_SELL)) s.
Proof.
  intros Hside p. unfold place_opposite_order. rewrite Hside. simpl String.eqb.
  fold p. destruct (p <! price_min cfg).
  - reflexivity.
  - apply bind_ret_l.
Qed.

(** After a SELL was filled: two comparisons, the adaptive guard when it
    is switched on, then the placement. *)
Lemma place_after_sell (o : Order T) (settings : Settings T) (cfg : SymbolConfig T)
    (s : State) :
  side o = SIDE_SELL ->
  let p := price_after_sell (price o) (profit_percent cfg /! of_Z 100)
             (volume_buy cfg) (fee_percent (global settings) /! of_Z 100) in
  let confirm := default true (confirm_order (global settings)) in
  let digits := default 2%nat (price_precision cfg) in
  let adaptive_percent := default (of_Z 0) (adaptive_limit_percent cfg) in
  let ma_period := default 0%Z (moving_average_period_min cfg) in
  let bound := mkLocals (Some (volume_buy cfg)) (Some p) (Some SIDE_BUY) in
  place_opposite_order env o settings cfg s =
    if p <! price_min cfg then
      mkResult (inr tt) s [EvLogInfo (MsgSkippedBelowMin (symbol o) "BUY" p (price_min cfg))]
    else if p >! price_max cfg then
      mkResult (inr tt) s [EvLogInfo (MsgSkippedAboveMax (symbol o) p (price_max cfg))]
    else if (adaptive_percent >! of_Z 0) && (0 <? ma_period)%Z then
      let r := get_moving_average env (symbol o) ma_period s in
      match outcome r with
      | inl e =>
          mkResult (inr tt) (final r)
            (emitted r ++ [EvLogError (MsgMovingAverageFailed (symbol o) e)])
      | inr moving_avg =>
          let adaptive_limit := adaptive_limit_of moving_avg adaptive_percent in
          if p >! adaptive_limit then
            mkResult (inr tt) (final r)
              (emitted r ++
               [EvLogInfo (MsgSkippedAdaptive (symbol o) p adaptive_limit moving_avg
                             adaptive_percent digits)])
          else
            let r' := confirm_and_place env confirm digits (symbol o) bound (final r) in
            mkResult (outcome r') (final r') (emitted r ++ emitted r')
      end
    else confirm_and_place env confirm digits (symbol o) bound s.
Proof.
  intros Hside p confirm digits adaptive_percent ma_period bound.
  unfold place_opposite_order. rewrite Hside. simpl String.eqb.
  fold p confirm digits adaptive_percent ma_period bound.
  destruct (p <! price_min cfg); [reflexivity |].
  destruct (p >! price_max cfg); [reflexivity |].
  destruct ((adaptive_percent >! of_Z 0) && (0 <? ma_period)%Z);
    [| apply bind_ret_l].
  unfold bind, try_except. cbv zeta.
  destruct (get_moving_average env (symbol o) ma_period s) as [[e | moving_avg] s1 evs];
    simpl.
  - now rewrite app_nil_r.
  - destruct (p >! adaptive_limit_of moving_avg adaptive_percent); simpl.
    + now rewrite !app_nil_r.
    + now rewrite !app_nil_r.
Qed.

(** A side that is neither constant leaves the three locals unbound, and
    line 104 reads [price] first. *)
Lemma place_after_other (o : Order T) (settings : Settings T) (cfg : SymbolConfig T)
    (s : State) :
  side o <> SIDE_BUY -> side o <> SIDE_SELL ->
  place_opposite_order env o settings cfg s = raise (UnboundLocalError "price") s.
Proof.
  intros Hb Hs. unfold place_opposite_order.
  apply String.eqb_neq in Hb, Hs. rewrite Hb, Hs.
  reflexivity.
Qed.

(** ** Lines 104-124, once the three locals are bound

    The ledger is not touched, the announcement comes first, the prompt (if
    any) second, and then one of the five endings. *)
Lemma confirm_and_place_cases (confirm : bool) (digits : nat) (sym sd : string)
    (vol p : T) (s : State) :
  let r := confirm_and_place env confirm digits sym
             (mkLocals (Some vol) (Some p) (Some sd)) s in
  ledger (final r) = ledger s /\
  exists asked tail : list (Event T),
    Prompted asked /\
    emitted r =
      EvLogInfo (MsgReadyToPlace sd sym vol (mkFixedStr p digits)) :: asked ++ tail /\
    PlacementEnd (limit_order sym sd vol p digits) (outcome r) tail.
Proof.
  intros r. subst r.
  unfold confirm_and_place, read_local, call_input, call_create_order,
    log_info, log_error, print_line, bind, try_except, emit, ret, raise.
  simpl.
  destruct confirm; simpl.
  - destruct (input env "Confirm order? [y/N]: " (world s)) as [[e | reply] g] eqn:Hin;
      simpl.
    { split; [reflexivity |]. exists []. eexists. split; [left; reflexivity |].
      split; [reflexivity |]. apply end_interrupted. }
    destruct (negb (String.eqb (str_lower env (str_strip env reply)) "y")); simpl.
    + split; [reflexivity |]. exists [EvInput "Confirm order? [y/N]: " (inr reply)].
      eexists. split; [right; eauto |]. split; [reflexivity | constructor].
    + destruct (client_create_order env _ g) as [[e | []] g'] eqn:Hcr; simpl.
      * destruct e; simpl;
          (split; [reflexivity |];
           exists [EvInput "Confirm order? [y/N]: " (inr reply)];
           eexists; split; [right; eauto |]; split; [reflexivity |]);
          first [ apply end_refused | apply end_aborted; discriminate ].
      * split; [reflexivity |]. exists [EvInput "Confirm order? [y/N]: " (inr reply)].
        eexists. split; [right; eauto |]. split; [reflexivity |]. apply end_placed.
  - destruct (client_create_order env _ (world s)) as [[e | []] g'] eqn:Hcr; simpl.
    + destruct e; simpl;
        (split; [reflexivity |]; exists []; eexists; split; [left; reflexivity |];
         split; [reflexivity |]);
        first [ apply end_refused | apply end_aborted; discriminate ].
    + split; [reflexivity |]. exists []. eexists. split; [left; reflexivity |].
      split; [reflexivity |]. apply end_placed.
Qed.

(** Lines 104-124 are left by an exception only when the exchange raised
    one that is no gateway error, or when the prompt was on and [input]
    raised. *)
Lemma confirm_and_place_abort (confirm : bool) (digits : nat) (sym sd : string)
    (vol p : T) (s : State) (e : Exn) :
  outcome (confirm_and_place env confirm digits sym
             (mkLocals (Some vol) (Some p) (Some sd)) s) = inl e ->
  (exists g,
     fst (client_create_order env (limit_order sym sd vol p digits) g) = inl e /\
     forall message, e <> BinanceAPIException message) \/
  (confirm = true /\ exists prompt g, fst (input env prompt g) = inl e).
Proof.
  unfold confirm_and_place, read_local, call_input, call_create_order,
    log_info, log_error, print_line, bind, try_except, emit, ret, raise, limit_order.
  simpl.
  destruct confirm; simpl.
  - destruct (input env "Confirm order? [y/N]: " (world s)) as [[e0 | reply] g] eqn:Hin;
      simpl.
    { intros [= <-]. right. split; [reflexivity |].
      exists "Confirm order? [y/N]: ", (world s). now rewrite Hin. }
    destruct (negb (String.eqb (str_lower env (str_strip env reply)) "y")); simpl;
      [discriminate |].
    destruct (client_create_order env _ g) as [[e' | []] g'] eqn:Hcr; simpl;
      [| discriminate].
    destruct e'; simpl; try discriminate;
      intros [= <-]; left; exists g; rewrite Hcr; (split; [reflexivity | discriminate]).
  - destruct (client_create_order env _ (world s)) as [[e' | []] g'] eqn:Hcr; simpl;
      [| discriminate].
    destruct e'; simpl; try discriminate;
      intros [= <-]; left; exists (world s); rewrite Hcr;
      (split; [reflexivity | discriminate]).
Qed.

(** ** The whole of [place_opposite_order] for a side it knows

    The ledger is left as it was. At most one call for klines comes first;
    then either a single line that gives up, or the announcement of the
    quoted order followed by the prompt and one of the five endings. *)
Lemma place_opposite_order_cases (o : Order T) (settings : Settings T)
    (cfg : SymbolConfig T) (s : State) (sd : string) (vol p : T) :
  counter_quote o settings cfg = Some (sd, vol, p) ->
  let r := place_opposite_order env o settings cfg s in
  let digits := default 2%nat (price_precision cfg) in
  ledger (final r) = ledger s /\
  exists pre : list (Event T),
    (pre = [] \/
     exists limit resp, pre = [EvGetKlines (symbol o) KLINE_INTERVAL_1MINUTE limit resp]) /\
    ((exists ev, is_skip ev = true /\ outcome r = inr tt /\ emitted r = pre ++ [ev]) \/
     (exists asked tail : list (Event T),
        Prompted asked /\
        emitted r =
          pre ++ EvLogInfo (MsgReadyToPlace sd (symbol o) vol (mkFixedStr p digits))
                 :: asked ++ tail /\
        PlacementEnd (limit_order (symbol o) sd vol p digits) (outcome r) tail)).
Proof.
  intros Hq r digits. subst r digits. unfold counter_quote in Hq.
  destruct (String.eqb (side o) SIDE_BUY) eqn:Hb.
  - apply String.eqb_eq in Hb. injection Hq as <- <- <-.
    rewrite (place_after_buy o settings cfg s Hb). cbv zeta.
    destruct (_ <! price_min cfg).
    + split; [reflexivity |]. exists []. split; [now left |]. left.
      eexists. split; [| split; reflexivity]. reflexivity.
    + destruct (confirm_and_place_cases
                  (default true (confirm_order (global settings)))
                  (default 2%nat (price_precision cfg))
                  (symbol o) SIDE_SELL (volume_sell cfg)
                  (price_after_buy (price o) (profit_percent cfg /! of_Z 100)
                     (volume_sell cfg) (fee_percent (global settings) /! of_Z 100)) s)
        as (Hl & asked & tail & Hasked & Hev & Hend).
      split; [exact Hl |]. exists []. split; [now left |]. right.
      exists asked, tail. auto.
  - destruct (String.eqb (side o) SIDE_SELL) eqn:Hs; [| discriminate].
    apply String.eqb_eq in Hs. injection Hq as <- <- <-.
    rewrite (place_after_sell o settings cfg s Hs). cbv zeta.
    destruct (_ <! price_min cfg).
    { split; [reflexivity |]. exists []. split; [now left |]. left.
      eexists. split; [| split; reflexivity]. reflexivity. }
    destruct (price_max cfg <! _).
    { split; [reflexivity |]. exists []. split; [now left |]. left.
      eexists. split; [| split; reflexivity]. reflexivity. }
    destruct (_ && _).
    + rewrite get_moving_average_run. cbn [outcome final emitted].
      set (resp := fst (client_get_klines env (symbol o) KLINE_INTERVAL_1MINUTE _ (world s))).
      set (g := snd (client_get_klines env (symbol o) KLINE_INTERVAL_1MINUTE _ (world s))).
      match goal with
      | |- context [match ?x with inl _ => _ | inr _ => _ end] =>
          destruct x as [e | moving_avg] eqn:Hma
      end.
      * split; [reflexivity |]. eexists. split; [right; eauto |]. left.
        eexists. split; [| split; reflexivity]. reflexivity.
      * destruct (adaptive_limit_of moving_avg _ <! _).
        -- split; [reflexivity |]. eexists. split; [right; eauto |]. left.
           eexists. split; [| split; reflexivity]. reflexivity.
        -- destruct (confirm_and_place_cases
                       (default true (confirm_order (global settings)))
                  (default 2%nat (price_precision cfg))
                       (symbol o) SIDE_BUY (volume_buy cfg)
                       (price_after_sell (price o) (profit_percent cfg /! of_Z 100)
                          (volume_buy cfg) (fee_percent (global settings) /! of_Z 100))
                       (mkState (ledger s) g))
             as (Hl & asked & tail & Hasked & Hev & Hend).
           cbn [outcome final emitted]. split; [exact Hl |].
           eexists. split; [right; eauto |]. right. exists asked, tail.
           split; [exact Hasked |]. split; [| exact Hend].
           rewrite Hev. reflexivity.
    + destruct (confirm_and_place_cases
                  (default true (confirm_order (global settings)))
                  (default 2%nat (price_precision cfg))
                  (symbol o) SIDE_BUY (volume_buy cfg)
                  (price_after_sell (price o) (profit_percent cfg /! of_Z 100)
                     (volume_buy cfg) (fee_percent (global settings) /! of_Z 100)) s)
        as (Hl & asked & tail & Hasked & Hev & Hend).
      split; [exact Hl |]. exists []. split; [now left |]. right.
      exists asked, tail. auto.
Qed.

Lemma counter_quote_known (o : Order T) (settings : Settings T) (cfg : SymbolConfig T) :
  side o = SIDE_BUY \/ side o = SIDE_SELL ->
  exists sd vol p, counter_quote o settings cfg = Some (sd, vol, p).
Proof.
  intros [H | H]; unfold counter_quote; rewrite H; simpl; eauto.
Qed.

Lemma skip_is_no_call (ev : Event T) :
  is_skip ev = true ->
  is_create_order ev = false /\ is_input ev = false /\
  is_ready_to_place ev = false /\ is_print_status ev = false.
Proof.
  destruct ev as [m | m | m | | | | | | |]; try discriminate;
    destruct m; try discriminate; auto.
Qed.

(** The prompt and the endings are no call for klines and no status line. *)
Lemma placement_events_kinds (req : OrderRequest T) (out : Exn + unit)
    (asked tail : list (Event T)) :
  Prompted asked -> PlacementEnd req out tail ->
  existsb is_get_klines (asked ++ tail) = false /\
  existsb is_print_status (asked ++ tail) = false.
Proof.
  intros [-> | [reply ->]] Hend; inversion Hend; subst; auto.
Qed.

(** C10: [place_opposite_order] is well defined exactly for a filled side
    that is BUY or SELL. For such a side every run leaves the ledger as it
    was and, after at most one request for klines, either gives up (it
    returns normally having written one skip line: no prompt, nothing sent
    to the exchange) or reaches line 105 and announces the counter order
    with its side, volume and price all bound. For any other side the run
    reaches line 104 with [price] unbound and raises there, before anything
    was done. *)
Theorem place_opposite_order_needs_known_side (known other : Order T)
    (settings : Settings T) (cfg : SymbolConfig T) (s : State) :
  side known = SIDE_BUY \/ side known = SIDE_SELL ->
  side other <> SIDE_BUY -> side other <> SIDE_SELL ->
  (let r := place_opposite_order env known settings cfg s in
   ledger (final r) = ledger s /\
   exists pre : list (Event T),
     (pre = [] \/
      exists limit resp,
        pre = [EvGetKlines (symbol known) KLINE_INTERVAL_1MINUTE limit resp]) /\
     ((exists ev, is_skip ev = true /\ outcome r = inr tt /\ emitted r = pre ++ [ev]) \/
      (exists sd vol p rest,
         counter_quote known settings cfg = Some (sd, vol, p) /\
         emitted r =
           pre ++ EvLogInfo (MsgReadyToPlace sd (symbol known) vol
                               (mkFixedStr p (default 2%nat (price_precision cfg))))
                  :: rest))) /\
  place_opposite_order env other settings cfg s = raise (UnboundLocalError "price") s.
Proof.
  intros Hknown Hb Hs. split; [| now apply place_after_other].
  destruct (counter_quote_known known settings cfg Hknown) as (sd & vol & p & Hq).
  destruct (place_opposite_order_cases known settings cfg s sd vol p Hq)
    as (Hl & pre & Hpre & [Hskip | (asked & tail & _ & Hev & _)]).
  - split; [exact Hl |]. exists pre. split; [exact Hpre |]. now left.
  - split; [exact Hl |]. exists pre. split; [exact Hpre |]. right.
    exists sd, vol, p, (asked ++ tail). split; [exact Hq | exact Hev].
Qed.

(** C6: the price-bounds guard compares the computed price as it is, not
    its rendering. After a BUY was filled (SELL counter order) the run is
    the one skip line, with neither prompt nor call, exactly when the price
    is below [price_min], and [price_max] plays no part whatever its value.
    After a SELL was filled (BUY counter order) the run is the one skip line
    when the price is below [price_min], and when it is not but is above
    [price_max]. *)
Theorem price_bounds_guard (bought sold : Order T) (settings : Settings T)
    (cfg : SymbolConfig T) (s : State) :
  side bought = SIDE_BUY -> side sold = SIDE_SELL ->
  let profit := profit_percent cfg /! of_Z 100 in
  let fee := fee_percent (global settings) /! of_Z 100 in
  let ask := price_after_buy (price bought) profit (volume_sell cfg) fee in
  let bid := price_after_sell (price sold) profit (volume_buy cfg) fee in
  (((ask <! price_min cfg) = true <->
    place_opposite_order env bought settings cfg s =
      mkResult (inr tt) s
        [EvLogInfo (MsgSkippedBelowMin (symbol bought) "SELL" ask (price_min cfg))]) /\
   (forall p_max,
      place_opposite_order env bought settings (with_price_max p_max cfg) s =
      place_opposite_order env bought settings cfg s)) /\
  (((bid <! price_min cfg) = true ->
    place_opposite_order env sold settings cfg s =
      mkResult (inr tt) s
        [EvLogInfo (MsgSkippedBelowMin (symbol sold) "BUY" bid (price_min cfg))]) /\
   ((bid <! price_min cfg) = false -> (bid >! price_max cfg) = true ->
    place_opposite_order env sold settings cfg s =
      mkResult (inr tt) s
        [EvLogInfo (MsgSkippedAboveMax (symbol sold) bid (price_max cfg))])).
Proof.
  intros Hb Hs profit fee ask bid. split; [split |].
  - rewrite (place_after_buy bought settings cfg s Hb). cbv zeta.
    fold profit fee ask.
    destruct (ask <! price_min cfg); (split; [auto; discriminate |]); [auto |].
    intros Heq. exfalso.
    destruct (confirm_and_place_cases
                (default true (confirm_order (global settings)))
                (default 2%nat (price_precision cfg)) (symbol bought) SIDE_SELL
                (volume_sell cfg) ask s) as (_ & asked & tail & _ & Hev & _).
    rewrite Heq in Hev. discriminate Hev.
  - intros p_max.
    rewrite !(place_after_buy bought settings _ s Hb). reflexivity.
  - split.
    + intros Hlt. rewrite (place_after_sell sold settings cfg s Hs). cbv zeta.
      fold profit fee bid. now rewrite Hlt.
    + intros Hge Hgt. rewrite (place_after_sell sold settings cfg s Hs). cbv zeta.
      fold profit fee bid. now rewrite Hge, Hgt.
Qed.

(** C5: after a SELL was filled (BUY counter order), with
    [adaptive_limit_percent] and [moving_average_period_min] both positive
    and the price within [price_min] and [price_max], the engine asks for
    the moving average of that many one-minute klines and takes
    moving_average * (1 + adaptive_limit_percent / 100) as the limit. A
    price above the limit ends the run with one line that carries the
    price, the limit and the moving average, and nothing is placed; a price
    that is not above it goes on to the placement. When the moving average
    cannot be had, whatever the exception, the run logs it and returns
    normally, nothing placed. After a BUY was filled no klines are ever
    asked for. *)
Theorem adaptive_guard (bought sold : Order T) (settings : Settings T)
    (cfg : SymbolConfig T) (s : State) (percent : T) (period : Z) :
  side bought = SIDE_BUY -> side sold = SIDE_SELL ->
  adaptive_limit_percent cfg = Some percent ->
  moving_average_period_min cfg = Some period ->
  (percent >! of_Z 0) = true -> (0 < period)%Z ->
  let bid := price_after_sell (price sold) (profit_percent cfg /! of_Z 100)
               (volume_buy cfg) (fee_percent (global settings) /! of_Z 100) in
  (bid <! price_min cfg) = false -> (bid >! price_max cfg) = false ->
  let confirm := default true (confirm_order (global settings)) in
  let digits := default 2%nat (price_precision cfg) in
  let ma := get_moving_average env (symbol sold) period s in
  let r := place_opposite_order env sold settings cfg s in
  (exists resp,
     emitted ma = [EvGetKlines (symbol sold) KLINE_INTERVAL_1MINUTE period resp]) /\
  (forall moving_avg, outcome ma = inr moving_avg ->
     let adaptive_limit := moving_avg *! (of_Z 1 +! percent /! of_Z 100) in
     ((bid >! adaptive_limit) = true ->
      r = mkResult (inr tt) (final ma)
            (emitted ma ++
             [EvLogInfo (MsgSkippedAdaptive (symbol sold) bid adaptive_limit
                           moving_avg percent digits)])) /\
     ((bid >! adaptive_limit) = false ->
      let rest := confirm_and_place env confirm digits (symbol sold)
                    (mkLocals (Some (volume_buy cfg)) (Some bid) (Some SIDE_BUY))
                    (final ma) in
      r = mkResult (outcome rest) (final rest) (emitted ma ++ emitted rest))) /\
  (forall e, outcome ma = inl e ->
     r = mkResult (inr tt) (final ma)
           (emitted ma ++ [EvLogError (MsgMovingAverageFailed (symbol sold) e)])) /\
  (forall cfg' s',
     existsb is_get_klines
       (emitted (place_opposite_order env bought settings cfg' s')) = false).
Proof.
  intros Hb Hs Hpercent Hperiod Hpos Hper bid Hmin Hmax confirm digits ma r.
  assert (Hrun : r =
    match outcome ma with
    | inl e =>
        mkResult (inr tt) (final ma)
          (emitted ma ++ [EvLogError (MsgMovingAverageFailed (symbol sold) e)])
    | inr moving_avg =>
        if bid >! adaptive_limit_of moving_avg percent then
          mkResult (inr tt) (final ma)
            (emitted ma ++
             [EvLogInfo (MsgSkippedAdaptive (symbol sold) bid
                           (adaptive_limit_of moving_avg percent) moving_avg percent
                           digits)])
        else
          let rest := confirm_and_place env confirm digits (symbol sold)
                        (mkLocals (Some (volume_buy cfg)) (Some bid) (Some SIDE_BUY))
                        (final ma) in
          mkResult (outcome rest) (final rest) (emitted ma ++ emitted rest)
    end).
  { subst r. rewrite (place_after_sell sold settings cfg s Hs). cbv zeta.
    fold bid confirm digits. rewrite Hmin, Hmax, Hpercent, Hperiod. simpl default.
    rewrite Hpos. apply Z.ltb_lt in Hper. rewrite Hper. reflexivity. }
  conjuncts.
  - subst ma. rewrite get_moving_average_run. eexists. reflexivity.
  - intros moving_avg Hma adaptive_limit. rewrite Hrun, Hma.
    fold (adaptive_limit_of moving_avg percent). fold adaptive_limit.
    split; intros Hcmp; unfold adaptive_limit in *;
      unfold adaptive_limit_of in *; now rewrite Hcmp.
  - intros e Hma. now rewrite Hrun, Hma.
  - intros cfg' s'. rewrite (place_after_buy bought settings cfg' s' Hb). cbv zeta.
    destruct (_ <! price_min cfg'); [reflexivity |].
    match goal with
    | |- context [confirm_and_place env ?c ?d ?sy (mkLocals (Some ?v) (Some ?p) (Some ?sd)) ?st] =>
        destruct (confirm_and_place_cases c d sy sd v p st)
          as (_ & asked & tail & Hasked & Hev & Hend)
    end.
    rewrite Hev. cbn [existsb is_get_klines orb].
    now destruct (placement_events_kinds _ _ _ _ Hasked Hend).
Qed.

(** Whatever [place_opposite_order] announces or sends to the exchange is
    the quoted counter order: its side, its volume, and its price rendered
    with [price_precision] decimals. *)
Lemma placed_orders_are_quoted (o : Order T) (settings : Settings T)
    (cfg : SymbolConfig T) (s : State) (sd : string) (vol p : T) :
  counter_quote o settings cfg = Some (sd, vol, p) ->
  let r := place_opposite_order env o settings cfg s in
  let digits := default 2%nat (price_precision cfg) in
  (forall req resp, In (EvCreateOrder req resp) (emitted r) ->
     req = limit_order (symbol o) sd vol p digits) /\
  (forall sd' sym' vol' price_str,
     In (EvLogInfo (MsgReadyToPlace sd' sym' vol' price_str)) (emitted r) ->
     sd' = sd /\ sym' = symbol o /\ vol' = vol /\ price_str = mkFixedStr p digits).
Proof.
  intros Hq r digits.
  destruct (place_opposite_order_cases o settings cfg s sd vol p Hq)
    as (_ & pre & Hpre & Hcases).
  fold r digits in Hcases.
  assert (Hpre_c : forall req resp, ~ In (EvCreateOrder req resp) pre).
  { intros req resp Hin.
    destruct Hpre as [-> | (limit & kl & ->)]; simpl in Hin; intuition discriminate. }
  assert (Hpre_r : forall m, ~ In (EvLogInfo m) pre).
  { intros m Hin.
    destruct Hpre as [-> | (limit & kl & ->)]; simpl in Hin; intuition discriminate. }
  destruct Hcases as [(ev & Hskip & _ & Hev) | (asked & tail & Hasked & Hev & Hend)].
  - destruct (skip_is_no_call ev Hskip) as (Hc & _ & Hr & _). split.
    + intros req resp Hin. rewrite Hev in Hin. apply in_app_or in Hin.
      destruct Hin as [Hin | [Heq | []]]; [now apply Hpre_c in Hin |].
      subst ev. discriminate Hc.
    + intros sd' sym' vol' ps Hin. rewrite Hev in Hin. apply in_app_or in Hin.
      destruct Hin as [Hin | [Heq | []]]; [now apply Hpre_r in Hin |].
      subst ev. discriminate Hr.
  - split.
    + intros req resp Hin. rewrite Hev in Hin. apply in_app_or in Hin.
      destruct Hin as [Hin | [Hin | Hin]];
        [now apply Hpre_c in Hin | discriminate Hin |].
      apply in_app_or in Hin. destruct Hin as [Hin | Hin].
      * destruct Hasked as [-> | (reply & ->)]; simpl in Hin; intuition discriminate.
      * destruct Hend; simpl in Hin;
          repeat match goal with
                 | H : _ \/ _ |- _ => destruct H
                 | H : False |- _ => destruct H
                 | H : EvCreateOrder _ _ = EvCreateOrder _ _ |- _ =>
                     injection H as <- _; reflexivity
                 | H : _ = EvCreateOrder _ _ |- _ => discriminate H
                 end.
    + intros sd' sym' vol' ps Hin. rewrite Hev in Hin. apply in_app_or in Hin.
      destruct Hin as [Hin | [Hin | Hin]]; [now apply Hpre_r in Hin | |].
      * injection Hin as <- <- <- <-. auto.
      * apply in_app_or in Hin. destruct Hin as [Hin | Hin].
        -- destruct Hasked as [-> | (reply & ->)]; simpl in Hin; intuition discriminate.
        -- destruct Hend; simpl in Hin; intuition discriminate.
Qed.

(** For a side it knows, [place_opposite_order] is left by an exception
    only when [client.create_order] raised one that is no gateway error, or
    when the prompt was on and [input] raised. *)
Lemma place_opposite_order_abort (o : Order T) (settings : Settings T)
    (cfg : SymbolConfig T) (s : State) (e : Exn) :
  side o = SIDE_BUY \/ side o = SIDE_SELL ->
  outcome (place_opposite_order env o settings cfg s) = inl e ->
  (exists req g,
     fst (client_create_order env req g) = inl e /\
     forall message, e <> BinanceAPIException message) \/
  (default true (confirm_order (global settings)) = true /\
   exists prompt g, fst (input env prompt g) = inl e).
Proof.
  intros [Hb | Hs].
  - rewrite (place_after_buy o settings cfg s Hb). cbv zeta.
    destruct (_ <! price_min cfg); [discriminate |].
    intros Hout. apply confirm_and_place_abort in Hout.
    destruct Hout as [(g & Hg) | Hin]; eauto.
  - rewrite (place_after_sell o settings cfg s Hs). cbv zeta.
    destruct (_ <! price_min cfg); [discriminate |].
    destruct (price_max cfg <! _); [discriminate |].
    destruct (_ && _).
    + destruct (outcome (get_moving_average env (symbol o) _ s)) as [e' | moving_avg];
        [discriminate |].
      destruct (adaptive_limit_of moving_avg _ <! _); [discriminate |].
      cbn [outcome]. intros Hout. apply confirm_and_place_abort in Hout.
      destruct Hout as [(g & Hg) | Hin]; eauto.
    + intros Hout. apply confirm_and_place_abort in Hout.
      destruct Hout as [(g & Hg) | Hin]; eauto.
Qed.

(** ** Handling one fill *)

Lemma counter_quote_cases (o : Order T) (settings : Settings T) (cfg : SymbolConfig T) :
  (exists sd vol p, counter_quote o settings cfg = Some (sd, vol, p)) \/
  (side o <> SIDE_BUY /\ side o <> SIDE_SELL).
Proof.
  unfold counter_quote.
  destruct (String.eqb (side o) SIDE_BUY) eqn:Hb; [left; eauto |].
  destruct (String.eqb (side o) SIDE_SELL) eqn:Hs; [left; eauto |].
  right. split; now apply String.eqb_neq.
Qed.

Lemma place_opposite_order_ledger (o : Order T) (settings : Settings T)
    (cfg : SymbolConfig T) (s : State) :
  ledger (final (place_opposite_order env o settings cfg s)) = ledger s.
Proof.
  destruct (counter_quote_cases o settings cfg) as [(sd & vol & p & Hq) | [Hb Hs]].
  - now destruct (place_opposite_order_cases o settings cfg s sd vol p Hq).
  - now rewrite place_after_other.
Qed.

Lemma handle_fill_run (settings : Settings T) (cfg : SymbolConfig T) (sym : string)
    (o : Order T) (s : State) :
  let placed := place_opposite_order env o settings cfg s in
  let executed := EvLogInfo (MsgOrderExecuted (side o) sym (volume o) (price o)) in
  handle_fill env settings cfg sym o s =
    match outcome placed with
    | inl e => mkResult (inl e) (final placed) (executed :: emitted placed)
    | inr _ =>
        mkResult (inr tt) (final (mark_order_filled (order_id o) (final placed)))
          (executed :: emitted placed)
    end.
Proof.
  intros placed executed. unfold handle_fill, log_info, emit, bind.
  cbn [outcome final emitted]. fold placed.
  destruct (outcome placed) as [e | u]; [reflexivity |].
  destruct (mark_order_filled_run (order_id o) (final placed))
    as (Hout & Hev & _).
  cbn [outcome final emitted]. rewrite Hout, Hev, app_nil_r. reflexivity.
Qed.

(** A status FILLED survives the handling of any fill. *)
Lemma handle_fill_keeps_filled (settings : Settings T) (cfg : SymbolConfig T)
    (sym : string) (o : Order T) (s : State) (id : Z) :
  status_of id s = Some "FILLED" ->
  status_of id (final (handle_fill env settings cfg sym o s)) = Some "FILLED".
Proof.
  intros Hst. rewrite handle_fill_run. cbv zeta.
  assert (Hpl : status_of id (final (place_opposite_order env o settings cfg s))
                = Some "FILLED").
  { unfold status_of in *. now rewrite place_opposite_order_ledger. }
  destruct (outcome (place_opposite_order env o settings cfg s)); [exact Hpl |].
  cbn [final].
  now apply (mark_order_filled_run (order_id o)
               (final (place_opposite_order env o settings cfg s))).
Qed.

(** Rows are never deleted by the handling of a fill. *)
Lemma handle_fill_keeps_rows (settings : Settings T) (cfg : SymbolConfig T)
    (sym : string) (o : Order T) (s : State) (id : Z) :
  is_Some (ledger s !! id) ->
  is_Some (ledger (final (handle_fill env settings cfg sym o s)) !! id).
Proof.
  intros Hrow. rewrite handle_fill_run. cbv zeta.
  assert (Hpl : is_Some (ledger (final (place_opposite_order env o settings cfg s)) !! id))
    by now rewrite place_opposite_order_ledger.
  destruct (outcome (place_opposite_order env o settings cfg s)); [exact Hpl |].
  cbn [final]. unfold mark_order_filled, query_first, set_status, bind. simpl.
  destruct (ledger (final (place_opposite_order env o settings cfg s)) !! order_id o)
    as [row |] eqn:Hrow'; simpl; [| exact Hpl].
  destruct (decide (order_id o = id)) as [<- | Hne].
  - rewrite lookup_alter_eq, Hrow'. simpl. eauto.
  - now rewrite lookup_alter_ne.
Qed.

Lemma process_fills_keeps_filled (settings : Settings T) (cfg : SymbolConfig T)
    (sym : string) (ids : gset Z) (orders : list (Order T)) (s : State) (id : Z) :
  status_of id s = Some "FILLED" ->
  status_of id (final (process_fills env settings cfg sym ids orders s)) = Some "FILLED".
Proof.
  revert s. induction orders as [| o orders IH]; intros s Hst; [exact Hst |].
  unfold process_fills in *. cbn [for_each]. unfold bind at 1.
  destruct (decide (order_id o ∈ ids)).
  - cbn [outcome final emitted ret]. now apply IH.
  - pose proof (handle_fill_keeps_filled settings cfg sym o s id Hst) as Hh.
    destruct (outcome (handle_fill env settings cfg sym o s)); cbn [final].
    + exact Hh.
    + now apply IH.
Qed.

(** Printing a list of lines changes nothing. *)
Lemma for_each_print (A : Type) (line : A -> Message T) (l : list A) (s : State) :
  for_each l (fun x => print_line (line x)) s =
    mkResult (inr tt) s (map (fun x => EvPrint (line x)) l).
Proof.
  revert s. induction l as [| x l IH]; intros s; [reflexivity |].
  cbn [for_each]. unfold bind. unfold print_line at 1, emit at 1.
  cbn [outcome final emitted]. now rewrite IH.
Qed.

Lemma render_symbol_ledger (cfg : SymbolConfig T) (sym : string)
    (current_price : option T) (open_orders : list (LiveOrder T)) (s : State) :
  ledger (final (render_symbol env cfg sym current_price open_orders s)) = ledger s.
Proof.
  unfold render_symbol, call_clock, bind at 1.
  destruct (time_clock env (world s)) as [now g]. cbn [outcome final emitted].
  unfold bind at 1.
  destruct current_price as [p |]; [| reflexivity].
  unfold print_line at 1, emit at 1. cbn [outcome final emitted].
  unfold bind. rewrite for_each_print. reflexivity.
Qed.

(** C7: when the exchange refuses the counter order of a fill with a
    gateway error, the handling of that fill still returns normally (the
    error is logged and swallowed, no order was placed) and it goes on to
    mark the filled order: its row has status FILLED afterwards, and keeps
    it through the fills handled later in the cycle and the rendering that
    ends the cycle. *)
Theorem placement_failure_keeps_fill_mark (settings : Settings T)
    (cfg : SymbolConfig T) (sym : string) (o : Order T) (s : State)
    (req : OrderRequest T) (message : string) :
  is_Some (ledger s !! order_id o) ->
  In (EvCreateOrder req (inl (BinanceAPIException message)))
     (emitted (handle_fill env settings cfg sym o s)) ->
  let r := handle_fill env settings cfg sym o s in
  outcome r = inr tt /\
  In (EvLogError (MsgPlaceFailed message)) (emitted r) /\
  (forall req', ~ In (EvCreateOrder req' (inr tt)) (emitted r)) /\
  status_of (order_id o) (final r) = Some "FILLED" /\
  (forall ids later current_price open_orders,
     let after_fills := final (process_fills env settings cfg sym ids later (final r)) in
     status_of (order_id o) after_fills = Some "FILLED" /\
     status_of (order_id o)
       (final (render_symbol env cfg sym current_price open_orders after_fills))
     = Some "FILLED").
Proof.
  intros Hrow Hin r.
  assert (Hmain : outcome r = inr tt /\
                  In (EvLogError (MsgPlaceFailed message)) (emitted r) /\
                  (forall req', ~ In (EvCreateOrder req' (inr tt)) (emitted r)) /\
                  status_of (order_id o) (final r) = Some "FILLED").
  { subst r. rewrite handle_fill_run in *. cbv zeta in *.
    set (placed := place_opposite_order env o settings cfg s) in *.
    assert (Hin' : In (EvCreateOrder req (inl (BinanceAPIException message)))
                      (emitted placed)).
    { destruct (outcome placed); cbn [emitted] in Hin;
        destruct Hin as [Hin | Hin]; (discriminate Hin || exact Hin). }
    clear Hin.
    destruct (counter_quote_cases o settings cfg) as [(sd & vol & p & Hq) | [Hb Hs]].
    2:{ subst placed. rewrite place_after_other in Hin' by assumption.
        destruct Hin'. }
    destruct (place_opposite_order_cases o settings cfg s sd vol p Hq)
      as (Hl & pre & Hpre & Hcases).
    fold placed in Hl, Hcases.
    assert (Hmark : status_of (order_id o)
                      (final (mark_order_filled (order_id o) (final placed)))
                    = Some "FILLED").
    { rewrite <- Hl in Hrow.
      destruct (mark_order_filled_run (order_id o) (final placed))
        as (_ & _ & _ & Hm & _).
      exact (Hm Hrow). }
    destruct Hcases as [(ev & Hskip & Hout & Hev) | (asked & tail & Hasked & Hev & Hend)].
    - exfalso. rewrite Hev in Hin'. apply in_app_or in Hin'.
      destruct (skip_is_no_call ev Hskip) as (Hc & _).
      destruct Hin' as [Hin' | [Heq | []]]; [| subst ev; discriminate Hc].
      destruct Hpre as [-> | (limit & resp & ->)]; simpl in Hin'; intuition discriminate.
    - rewrite Hev in Hin'.
      assert (Htail : In (EvCreateOrder req (inl (BinanceAPIException message))) tail).
      { apply in_app_or in Hin'. destruct Hin' as [Hin' | [Hin' | Hin']].
        - destruct Hpre as [-> | (limit & resp & ->)]; simpl in Hin'; intuition discriminate.
        - discriminate Hin'.
        - apply in_app_or in Hin'. destruct Hin' as [Hin' | Hin']; [| exact Hin'].
          destruct Hasked as [-> | (reply & ->)]; simpl in Hin'; intuition discriminate. }
      destruct Hend as [| | message' | e Hother | e]; simpl in Htail.
      + intuition discriminate.
      + intuition discriminate.
      + destruct Htail as [Heq | [Heq | []]]; [| discriminate Heq].
        injection Heq as Hreq Hmsg. subst message'.
        cbn [outcome final emitted]. conjuncts.
        * reflexivity.
        * right. rewrite Hev. apply in_or_app. right. right.
          apply in_or_app. right. simpl. auto.
        * intros req' [Hx | Hx]; [discriminate Hx |].
          rewrite Hev in Hx. apply in_app_or in Hx. destruct Hx as [Hx | [Hx | Hx]].
          -- destruct Hpre as [-> | (limit & resp & ->)]; simpl in Hx; intuition discriminate.
          -- discriminate Hx.
          -- apply in_app_or in Hx. destruct Hx as [Hx | Hx].
             ++ destruct Hasked as [-> | (reply & ->)]; simpl in Hx; intuition discriminate.
             ++ simpl in Hx. intuition discriminate.
        * exact Hmark.
      + destruct Htail as [Heq | []]. injection Heq as Hreq He.
        exfalso. now apply (Hother message).
      + intuition discriminate. }
  destruct Hmain as (Hout & Hlog & Hnone & Hst).
  conjuncts; try assumption.
  intros ids later current_price open_orders after_fills.
  assert (Hafter : status_of (order_id o) after_fills = Some "FILLED")
    by now apply process_fills_keeps_filled.
  split; [exact Hafter |].
  unfold status_of in *. now rewrite render_symbol_ledger.
Qed.

(** ** The reconciliation of one symbol *)

Lemma get_current_price_ledger (sym : string) (s : State) :
  ledger (final (get_current_price env sym s)) = ledger s.
Proof.
  unfold get_current_price, try_except, bind, call_get_symbol_ticker, log_error, emit.
  destruct (client_get_symbol_ticker env sym (world s)) as [[e | p] g]; simpl;
    [destruct e |]; reflexivity.
Qed.

(** [get_open_orders] when the exchange answers with a gateway error. *)
Lemma get_open_orders_failed (sym message : string) (s : State) :
  fst (client_get_open_orders env sym (world s)) = inl (BinanceAPIException message) ->
  get_open_orders env sym s =
    mkResult (inr [])
      (mkState (ledger s) (snd (client_get_open_orders env sym (world s))))
      [EvGetOpenOrders sym (inl (BinanceAPIException message));
       EvLogError (MsgFetchOrdersFailed sym message)].
Proof.
  intros Hfail.
  unfold get_open_orders, try_except, bind, call_get_open_orders, log_error, emit.
  destruct (client_get_open_orders env sym (world s)) as [resp g].
  simpl in Hfail. subst resp. reflexivity.
Qed.

(** The orders [get_filled_orders] lists: every row that is OPEN for one
    of the symbols. *)
Lemma get_filled_orders_lists (active_symbols : list string) (s : State)
    (id : Z) (row : Row T) :
  ledger s !! id = Some row -> r_status row = "OPEN" ->
  In (r_symbol row) active_symbols ->
  exists orders,
    get_filled_orders active_symbols s = mkResult (inr orders) s [] /\
    In (load id row) orders.
Proof.
  intros Hrow Hst Hsym. eexists. split; [reflexivity |].
  apply List.filter_In. split.
  - apply in_map_iff. exists (id, row). split; [reflexivity |].
    apply list_elem_of_In. now apply elem_of_map_to_list.
  - simpl. rewrite Hst. simpl.
    apply existsb_exists. exists (r_symbol row). split; [exact Hsym |].
    apply String.eqb_refl.
Qed.

(** Every order of the list is a row of the table. *)
Lemma get_filled_orders_rows (active_symbols : list string) (s : State)
    (orders : list (Order T)) (o : Order T) :
  outcome (get_filled_orders active_symbols s) = inr orders -> In o orders ->
  is_Some (ledger s !! order_id o).
Proof.
  unfold get_filled_orders. cbn [outcome]. intros [= <-] Hin.
  apply List.filter_In in Hin. destruct Hin as [Hin _].
  apply in_map_iff in Hin. destruct Hin as ([id row] & <- & Hin).
  apply list_elem_of_In, elem_of_map_to_list in Hin. simpl. rewrite Hin. eauto.
Qed.

Lemma load_eq (id : Z) (row : Row T) (o : Order T) :
  load id row = o <-> id = order_id o /\ row = row_of o.
Proof.
  destruct o, row; unfold load, row_of; simpl.
  split; [intros [= -> -> -> -> -> -> ->]; auto | intros [-> [= -> -> -> -> -> ->]]; auto].
Qed.

Lemma existsb_eqb_In (x : string) (l : list string) :
  existsb (String.eqb x) l = true <-> In x l.
Proof.
  rewrite existsb_exists. split.
  - intros (y & Hin & Heq). apply String.eqb_eq in Heq. now subst.
  - intros Hin. exists x. split; [exact Hin | apply String.eqb_refl].
Qed.

(** The list is made of the rows that are OPEN for one of the symbols, all
    of them and nothing else; the table and the world stay as they were. *)
Lemma get_filled_orders_spec (active_symbols : list string) (s : State) :
  exists orders,
    get_filled_orders active_symbols s = mkResult (inr orders) s [] /\
    forall o,
      In o orders <->
      ledger s !! order_id o = Some (row_of o) /\ status o = "OPEN" /\
      In (symbol o) active_symbols.
Proof.
  eexists. split; [reflexivity |]. intros o.
  rewrite List.filter_In, in_map_iff, andb_true_iff, String.eqb_eq, existsb_eqb_In.
  split.
  - intros [([id row] & Hload & Hin) [Hst Hsym]]. simpl in Hload.
    apply load_eq in Hload. destruct Hload as [-> ->].
    apply list_elem_of_In, elem_of_map_to_list in Hin. auto.
  - intros (Hrow & Hst & Hsym). split; [| auto].
    exists (order_id o, row_of o). split.
    + simpl. now apply load_eq.
    + apply list_elem_of_In. now apply elem_of_map_to_list.
Qed.

Lemma NoDup_map_filter (A B : Type) (g : A -> B) (f : A -> bool) (l : list A) :
  NoDup (map g l) -> NoDup (map g (List.filter f l)).
Proof.
  induction l as [| x l IH]; simpl; [auto |].
  intros Hnd. inversion Hnd as [| ? ? Hx Hnd']; subst.
  destruct (f x); simpl; [| auto].
  constructor; [| auto].
  intros Hin. apply Hx. apply list_elem_of_In. apply list_elem_of_In in Hin.
  apply in_map_iff in Hin. destruct Hin as (y & Hy & Hin).
  apply List.filter_In in Hin. apply in_map_iff. exists y. tauto.
Qed.

(** No order id comes twice in the list. *)
Lemma get_filled_orders_NoDup (active_symbols : list string) (s : State)
    (orders : list (Order T)) :
  outcome (get_filled_orders active_symbols s) = inr orders ->
  NoDup (map (@order_id T) orders).
Proof.
  unfold get_filled_orders. cbn [outcome]. intros [= <-].
  apply NoDup_map_filter. rewrite map_map. simpl.
  apply (NoDup_fst_map_to_list (ledger s)).
Qed.

(** When the handling of the fills runs to its end, every listed order that
    is not open on the exchange was announced as executed and its row, if
    the table has it, is FILLED. *)
Lemma process_fills_marks (settings : Settings T) (cfg : SymbolConfig T)
    (sym : string) (ids : gset Z) (orders : list (Order T)) (s : State) (o : Order T) :
  outcome (process_fills env settings cfg sym ids orders s) = inr tt ->
  In o orders -> order_id o ∉ ids -> is_Some (ledger s !! order_id o) ->
  In (EvLogInfo (MsgOrderExecuted (side o) sym (volume o) (price o)))
     (emitted (process_fills env settings cfg sym ids orders s)) /\
  status_of (order_id o) (final (process_fills env settings cfg sym ids orders s))
  = Some "FILLED".
Proof.
  revert s. induction orders as [| o' orders IH]; intros s Hout Hin Hid Hrow;
    [destruct Hin |].
  unfold process_fills in *. cbn [for_each] in *. unfold bind at 1 in Hout.
  unfold bind at 1. unfold bind at 1.
  destruct (decide (order_id o' ∈ ids)) as [Hopen | Hgone].
  - cbn [outcome final emitted ret app] in *.
    destruct Hin as [-> | Hin]; [contradiction |].
    now apply IH.
  - pose proof (handle_fill_run settings cfg sym o' s) as Hrun. cbv zeta in Hrun.
    destruct (outcome (handle_fill env settings cfg sym o' s)) as [e | []] eqn:Hh;
      [discriminate Hout |].
    cbn [outcome final emitted] in *.
    destruct Hin as [-> | Hin].
    + split.
      * apply in_or_app. left. rewrite Hrun.
        destruct (outcome (place_opposite_order env o settings cfg s)); now left.
      * apply process_fills_keeps_filled.
        rewrite Hrun in Hh |- *.
        destruct (outcome (place_opposite_order env o settings cfg s));
          [discriminate Hh |].
        cbn [final].
        destruct (mark_order_filled_run (order_id o)
                    (final (place_opposite_order env o settings cfg s)))
          as (_ & _ & _ & Hm & _).
        apply Hm. now rewrite place_opposite_order_ledger.
    + destruct (IH (final (handle_fill env settings cfg sym o' s)) Hout Hin Hid)
        as [Hev Hst].
      * now apply handle_fill_keeps_rows.
      * split; [| exact Hst]. apply in_or_app. now right.
Qed.

(** In a world whose placements fail softly and whose prompt, if it is on,
    is answered, the handling of orders whose sides are BUY or SELL runs to
    its end. *)
Lemma handle_fills_complete (settings : Settings T) (cfg : SymbolConfig T)
    (sym : string) (orders : list (Order T)) (s : State) :
  placement_fails_softly env ->
  default true (confirm_order (global settings)) = false \/ prompt_is_answered env ->
  (forall o, In o orders -> side o = SIDE_BUY \/ side o = SIDE_SELL) ->
  outcome (for_each orders (handle_fill env settings cfg sym) s) = inr tt.
Proof.
  intros Hsoft Hprompt. revert s. induction orders as [| o orders IH]; intros s Hsides;
    [reflexivity |].
  cbn [for_each]. unfold bind.
  assert (Hdone : outcome (handle_fill env settings cfg sym o s) = inr tt).
  { rewrite handle_fill_run. cbv zeta.
    destruct (outcome (place_opposite_order env o settings cfg s)) as [e | u] eqn:Hout;
      [| reflexivity].
    exfalso.
    destruct (place_opposite_order_abort o settings cfg s e)
      as [(req & g & Hg & Hne) | (Hon & prompt & g & Hg)];
      [apply Hsides; now left | exact Hout | |].
    - destruct (Hsoft req g e Hg) as [message ->]. now apply (Hne message).
    - destruct Hprompt as [Hoff | Hanswered]; [congruence |].
      destruct (Hanswered prompt g) as [reply Hreply]. congruence. }
  rewrite Hdone. cbn [outcome]. apply IH. intros o' Hin. apply Hsides. now right.
Qed.

(** With no order open on the exchange every listed order is handled. *)
Lemma process_fills_all (settings : Settings T) (cfg : SymbolConfig T) (sym : string)
    (orders : list (Order T)) (s : State) :
  process_fills env settings cfg sym ∅ orders s =
  for_each orders (handle_fill env settings cfg sym) s.
Proof.
  revert s. induction orders as [| o orders IH]; intros s; [reflexivity |].
  unfold process_fills in *. cbn [for_each]. unfold bind.
  destruct (decide (order_id o ∈ (∅ : gset Z))) as [Hin | _]; [set_solver |].
  destruct (outcome (handle_fill env settings cfg sym o s)); [reflexivity |].
  now rewrite IH.
Qed.

(** The handling of one fill touches the row of that order only. *)
Lemma handle_fill_others (settings : Settings T) (cfg : SymbolConfig T) (sym : string)
    (o : Order T) (s : State) (id : Z) :
  id <> order_id o ->
  ledger (final (handle_fill env settings cfg sym o s)) !! id = ledger s !! id.
Proof.
  intros Hne. rewrite handle_fill_run. cbv zeta.
  pose proof (place_opposite_order_ledger o settings cfg s) as Hl.
  destruct (outcome (place_opposite_order env o settings cfg s)); cbn [final].
  - now rewrite Hl.
  - destruct (mark_order_filled_run (order_id o)
                (final (place_opposite_order env o settings cfg s)))
      as (_ & _ & _ & _ & Hother & _).
    rewrite (Hother id Hne). now rewrite Hl.
Qed.

(** The handling of fills that an exception cuts short: the orders before
    the one whose handling raised are FILLED; that one and the ones after
    it are OPEN as they were. *)
Lemma handle_fills_stop (settings : Settings T) (cfg : SymbolConfig T) (sym : string)
    (orders : list (Order T)) (s : State) (e : Exn) :
  NoDup (map (@order_id T) orders) ->
  (forall o, In o orders -> status_of (order_id o) s = Some "OPEN") ->
  outcome (for_each orders (handle_fill env settings cfg sym) s) = inl e ->
  exists handled o later,
    orders = handled ++ o :: later /\
    (forall o', In o' handled ->
       status_of (order_id o')
         (final (for_each orders (handle_fill env settings cfg sym) s))
       = Some "FILLED") /\
    (forall o', In o' (o :: later) ->
       status_of (order_id o')
         (final (for_each orders (handle_fill env settings cfg sym) s))
       = Some "OPEN").
Proof.
  revert s. induction orders as [| o1 rest IH]; intros s Hnd Hopen Hout;
    [discriminate Hout |].
  inversion Hnd as [| ? ? Hfresh Hnd']; subst.
  cbn [for_each] in *. unfold bind in *.
  pose proof (handle_fill_run settings cfg sym o1 s) as Hrun. cbv zeta in Hrun.
  pose proof (place_opposite_order_ledger o1 settings cfg s) as Hl.
  destruct (outcome (handle_fill env settings cfg sym o1 s)) as [e1 | []] eqn:Hh;
    cbn [outcome final] in *.
  - exists [], o1, rest. conjuncts; [reflexivity | intros o' [] |].
    intros o' Hin. rewrite <- (Hopen o' Hin). unfold status_of. f_equal.
    rewrite Hrun in Hh |- *.
    destruct (outcome (place_opposite_order env o1 settings cfg s));
      [| discriminate Hh].
    cbn [final]. now rewrite Hl.
  - assert (Hrest : forall o, In o rest ->
              status_of (order_id o) (final (handle_fill env settings cfg sym o1 s))
              = Some "OPEN").
    { intros o Hin. rewrite <- (Hopen o (or_intror Hin)). unfold status_of. f_equal.
      apply handle_fill_others. intros Heq. apply Hfresh.
      apply list_elem_of_In, in_map_iff. exists o. auto. }
    destruct (IH (final (handle_fill env settings cfg sym o1 s)) Hnd' Hrest Hout)
      as (handled & o & later & -> & Hdone & Hleft).
    exists (o1 :: handled), o, later. conjuncts; [reflexivity | | exact Hleft].
    intros o' [<- | Hin]; [| now apply Hdone].
    rewrite <- process_fills_all. apply process_fills_keeps_filled.
    rewrite Hrun in Hh |- *.
    destruct (outcome (place_opposite_order env o1 settings cfg s));
      [discriminate Hh |].
    cbn [final].
    destruct (mark_order_filled_run (order_id o1)
                (final (place_opposite_order env o1 settings cfg s)))
      as (_ & _ & _ & Hm & _).
    apply Hm. rewrite Hl.
    specialize (Hopen o1 (or_introl eq_refl)). unfold status_of in Hopen.
    destruct (ledger s !! order_id o1); [eauto | discriminate Hopen].
Qed.

(** C9, as the code has it: in a cycle in which the fetch of the open
    orders of a symbol fails with a gateway error, the error is logged, the
    list of open orders is empty, the ledger is not refreshed, and the
    handling of fills is run on every order the ledger lists as OPEN for
    that symbol, in the order of the listing: for each of them the fill is
    announced, the pricing engine is called and then the order is marked.
    The first exception that leaves the engine ends the handling and the
    cycle with it: the rows handled before are FILLED, the row whose
    handling raised and the ones not reached are still OPEN. Only when the
    handling runs to its end has every row that was OPEN for the symbol
    been announced as executed and marked FILLED, whatever its state on the
    exchange; and it does run to its end when the sides of those rows are
    BUY or SELL, the placements raise nothing but gateway errors, and the
    prompt is off or is answered. *)
Theorem failed_fetch_fills_every_open_order (settings : Settings T)
    (cfg : SymbolConfig T) (sym : string) (s : State) (current_price : option T)
    (message : string) (existing : list (Order T)) :
  outcome (get_current_price env sym s) = inr current_price ->
  let s1 := final (get_current_price env sym s) in
  fst (client_get_open_orders env sym (world s1)) = inl (BinanceAPIException message) ->
  outcome (get_filled_orders [sym] s) = inr existing ->
  let s2 := mkState (ledger s) (snd (client_get_open_orders env sym (world s1))) in
  let fills := for_each existing (handle_fill env settings cfg sym) s2 in
  let r := reconcile_symbol env settings cfg sym s in
  r = mkResult
        (match outcome fills with
         | inl e => inl e
         | inr _ => inr (current_price, [])
         end)
        (final fills)
        (emitted (get_current_price env sym s) ++
         [EvGetOpenOrders sym (inl (BinanceAPIException message));
          EvLogError (MsgFetchOrdersFailed sym message)] ++
         emitted fills) /\
  (forall id row,
     ledger s !! id = Some row -> r_status row = "OPEN" -> r_symbol row = sym ->
     In (load id row) existing /\
     (forall fetched, outcome r = inr fetched ->
        In (EvLogInfo (MsgOrderExecuted (r_side row) sym (r_volume row) (r_price row)))
           (emitted r) /\
        status_of id (final r) = Some "FILLED")) /\
  (forall e, outcome r = inl e ->
     exists handled o later,
       existing = handled ++ o :: later /\
       (forall o', In o' handled ->
          status_of (order_id o') (final r) = Some "FILLED") /\
       (forall o', In o' (o :: later) ->
          status_of (order_id o') (final r) = Some "OPEN")) /\
  (placement_fails_softly env ->
   default true (confirm_order (global settings)) = false \/ prompt_is_answered env ->
   (forall o, In o existing -> side o = SIDE_BUY \/ side o = SIDE_SELL) ->
   outcome r = inr (current_price, [])).
Proof.
  intros Hprice s1 Hfail Hex s2 fills r.
  assert (Hs1 : mkState (ledger s1) (snd (client_get_open_orders env sym (world s1))) = s2).
  { subst s1 s2. now rewrite get_current_price_ledger. }
  assert (Hlist : get_filled_orders [sym] s2 = mkResult (inr existing) s2 []).
  { unfold get_filled_orders in *. cbn [outcome ledger] in *.
    injection Hex as <-. reflexivity. }
  assert (Hrun : r = mkResult
        (match outcome fills with
         | inl e => inl e
         | inr _ => inr (current_price, [])
         end)
        (final fills)
        (emitted (get_current_price env sym s) ++
         [EvGetOpenOrders sym (inl (BinanceAPIException message));
          EvLogError (MsgFetchOrdersFailed sym message)] ++
         emitted fills)).
  { subst r. unfold reconcile_symbol. rewrite (bind_ok _ _ _ _ _ _ Hprice).
    fold s1. rewrite (bind_ok _ _ (get_open_orders env sym) _ s1 [])
      by now rewrite (get_open_orders_failed sym message s1 Hfail).
    rewrite (get_open_orders_failed sym message s1 Hfail). cbn [outcome final emitted].
    rewrite Hs1. unfold save_or_update_orders. cbn [for_each map list_to_set].
    unfold bind. cbn [ret outcome final emitted]. rewrite Hlist.
    cbn [outcome final emitted]. rewrite process_fills_all. fold fills.
    destruct (outcome fills); cbn [outcome final emitted app];
      rewrite ?app_nil_r; reflexivity. }
  split; [exact Hrun |]. split; [| split].
  3:{ intros Hsoft Hprompt Hsides. rewrite Hrun. cbn [outcome]. subst fills.
      now rewrite (handle_fills_complete settings cfg sym existing s2 Hsoft Hprompt
                     Hsides). }
  2:{ intros e Hout. rewrite Hrun in Hout |- *. cbn [outcome final] in *.
      assert (Hfills : outcome fills = inl e).
      { destruct (outcome fills); [now injection Hout as -> | discriminate Hout]. }
      subst fills. apply (handle_fills_stop settings cfg sym existing s2 e);
        [| | exact Hfills].
      - exact (get_filled_orders_NoDup [sym] s existing Hex).
      - intros o Hin.
        destruct (get_filled_orders_spec [sym] s) as (orders & Horders & Hspec).
        rewrite Horders in Hex. injection Hex as ->.
        apply Hspec in Hin. destruct Hin as (Hrow & Hst & _).
        unfold status_of. subst s2. cbn [ledger]. rewrite Hrow. simpl.
        destruct o; simpl in *. now rewrite Hst. }
  intros id row Hrow Hst Hsym.
  destruct (get_filled_orders_lists [sym] s id row Hrow Hst) as (orders & Horders & Hin).
  { rewrite Hsym. now left. }
  rewrite Horders in Hex. injection Hex as ->.
  split; [exact Hin |].
  intros fetched Hout. rewrite Hrun in Hout |- *. cbn [outcome final emitted] in *.
  assert (Hfills : outcome fills = inr tt).
  { destruct (outcome fills) as [e | []]; [discriminate Hout | reflexivity]. }
  subst fills. rewrite <- process_fills_all in *.
  destruct (process_fills_marks settings cfg sym ∅ existing s2 (load id row) Hfills Hin)
    as [Hev Hfilled].
  - set_solver.
  - simpl. rewrite Hrow. eauto.
  - split; [| exact Hfilled].
    apply in_or_app. right. right. right. exact Hev.
Qed.

(** ** The cycle when the price is not to be had *)

Lemma bind_inr_inv (A B : Type) (m : M A) (k : A -> M B) (s : State) (b : B) :
  outcome ((x <- m ;; k x) s) = inr b ->
  exists a, outcome (m s) = inr a /\ outcome (k a (final (m s))) = inr b.
Proof.
  unfold bind. destruct (outcome (m s)) as [e | a]; cbn [outcome]; [discriminate |].
  eauto.
Qed.

(** [get_current_price] when the exchange answers with a gateway error. *)
Lemma get_current_price_failed (sym message : string) (s : State) :
  fst (client_get_symbol_ticker env sym (world s)) = inl (BinanceAPIException message) ->
  get_current_price env sym s =
    mkResult (inr None)
      (mkState (ledger s) (snd (client_get_symbol_ticker env sym (world s))))
      [EvGetSymbolTicker sym (inl (BinanceAPIException message));
       EvLogError (MsgFetchPriceFailed sym message)].
Proof.
  intros Hfail.
  unfold get_current_price, try_except, bind, call_get_symbol_ticker, log_error, emit.
  destruct (client_get_symbol_ticker env sym (world s)) as [resp g].
  simpl in Hfail. subst resp. reflexivity.
Qed.

(** Rendering with no price raises at the status line, having printed
    nothing. *)
Lemma render_symbol_none (cfg : SymbolConfig T) (sym : string)
    (open_orders : list (LiveOrder T)) (s : State) :
  outcome (render_symbol env cfg sym None open_orders s) =
    inl (TypeError "unsupported format string passed to NoneType.__format__") /\
  emitted (render_symbol env cfg sym None open_orders s) = [].
Proof.
  unfold render_symbol, call_clock, bind.
  destruct (time_clock env (world s)) as [now g]. split; reflexivity.
Qed.

(** C4, as the code has it: when the fetch of the current price fails
    with a gateway error, the error is logged and the price is [None], but
    the cycle of that symbol never runs to completion. Whenever the
    reconciliation and the handling of fills come to their end, the
    rendering raises a [TypeError] at the status line (the format [.4f]
    applied to [None]) before it has printed anything, and nothing in
    [main] catches it. *)
Theorem failed_price_fetch_aborts_cycle (settings : Settings T) (sym : string)
    (cfg : SymbolConfig T) (s : State) (message : string) :
  fst (client_get_symbol_ticker env sym (world s)) = inl (BinanceAPIException message) ->
  let reconciled := reconcile_symbol env settings cfg sym s in
  let r := symbol_cycle env settings sym cfg s in
  outcome (get_current_price env sym s) = inr None /\
  In (EvLogError (MsgFetchPriceFailed sym message)) (emitted r) /\
  (exists e, outcome r = inl e) /\
  (forall fetched, outcome reconciled = inr fetched ->
     fst fetched = None /\
     outcome r =
       inl (TypeError "unsupported format string passed to NoneType.__format__") /\
     emitted r = emitted reconciled).
Proof.
  intros Hfail reconciled r.
  pose proof (get_current_price_failed sym message s Hfail) as Hprice.
  assert (Hnone : forall fetched, outcome reconciled = inr fetched -> fst fetched = None).
  { intros fetched Hout. subst reconciled. unfold reconcile_symbol in Hout.
    apply bind_inr_inv in Hout. destruct Hout as (cp & Hcp & Hout).
    rewrite Hprice in Hcp. injection Hcp as <-.
    apply bind_inr_inv in Hout. destruct Hout as (oo & _ & Hout).
    apply bind_inr_inv in Hout. destruct Hout as (? & _ & Hout).
    apply bind_inr_inv in Hout. destruct Hout as (ex & _ & Hout).
    apply bind_inr_inv in Hout. destruct Hout as (? & _ & Hout).
    cbn [ret outcome] in Hout. now injection Hout as <-. }
  assert (Hlog : In (EvLogError (MsgFetchPriceFailed sym message)) (emitted reconciled)).
  { subst reconciled. unfold reconcile_symbol.
    rewrite (bind_ok _ _ _ _ _ None) by now rewrite Hprice.
    cbn [emitted]. apply in_or_app. left. rewrite Hprice. simpl. auto. }
  assert (Hdone : forall fetched, outcome reconciled = inr fetched ->
            outcome r =
              inl (TypeError "unsupported format string passed to NoneType.__format__") /\
            emitted r = emitted reconciled).
  { intros fetched Hout. pose proof (Hnone fetched Hout) as Hfst.
    subst r reconciled. unfold symbol_cycle.
    rewrite (bind_ok _ _ _ _ _ fetched Hout). cbn [outcome emitted]. rewrite Hfst.
    destruct (render_symbol_none cfg sym (snd fetched)
                (final (reconcile_symbol env settings cfg sym s))) as [Ho He].
    rewrite Ho, He, app_nil_r. split; reflexivity. }
  conjuncts.
  - now rewrite Hprice.
  - subst r. unfold symbol_cycle. fold reconciled.
    destruct (outcome reconciled) as [e | fetched] eqn:Hout.
    + now rewrite (bind_fail _ _ _ _ _ e Hout).
    + rewrite (bind_ok _ _ _ _ _ fetched Hout). cbn [emitted].
      apply in_or_app. now left.
  - destruct (outcome reconciled) as [e | fetched] eqn:Hout.
    + exists e. subst r. unfold symbol_cycle. fold reconciled.
      now rewrite (bind_fail _ _ _ _ _ e Hout).
    + eexists. now apply (Hdone fetched).
  - intros fetched Hout. split; [now apply Hnone | now apply (Hdone fetched)].
Qed.

(** ** Sequences of ledger operations *)

Lemma run_op_ok (op : LedgerOp T) (s : State) :
  outcome (run_op env op s) = inr tt.
Proof.
  destruct op as [order_list | id]; cbn [run_op].
  - apply (save_or_update_orders_run order_list s).
  - apply (mark_order_filled_run id s).
Qed.

(** C3, as the code has it: [mark_order_filled] never takes a status from
    FILLED back to OPEN, and [save_or_update_orders] does so only for the
    order ids in the list it is given, each of which it sets to OPEN
    whatever it was. So in every sequence of the two operations whose
    upserts do not list an order id, a row with that id that is FILLED stays
    FILLED to the end. *)
Theorem filled_stays_filled_unless_listed (ops : list (LedgerOp T)) (s : State) (id : Z) :
  status_of id s = Some "FILLED" ->
  (forall order_list, In (Upsert order_list) ops ->
     ~ In id (map (@o_orderId T) order_list)) ->
  status_of id (final (run_ops env ops s)) = Some "FILLED" /\
  (forall order_list,
     In id (map (@o_orderId T) order_list) ->
     status_of id (final (run_op env (Upsert order_list) s)) = Some "OPEN").
Proof.
  intros Hst Hops. split.
  - revert s Hst. induction ops as [| op ops IH]; intros s Hst; [exact Hst |].
    unfold run_ops in *. cbn [for_each].
    rewrite (bind_ok _ _ _ _ _ tt (run_op_ok op s)). cbn [final].
    apply IH.
    + intros order_list Hin. apply Hops. now right.
    + destruct op as [order_list | id']; cbn [run_op].
      * unfold status_of in *.
        destruct (save_or_update_orders_run order_list s) as (_ & _ & _ & Hsame).
        rewrite Hsame; [exact Hst |]. apply Hops. now left.
      * now apply (mark_order_filled_run id' s).
  - intros order_list Hin. cbn [run_op].
    now apply (save_or_update_orders_run order_list s).
Qed.

End Laws.

(** * The formulas: as computed, and as documented *)

Local Open Scope num_scope.

(** In exact arithmetic the expressions of lines 71 and 80 are the
    documented formulas. *)
Lemma Qc_price_after_buy (p profit_pc vol fee_pc : Qc) :
  p +! p *! (profit_pc /! of_Z 100) +! p *! vol *! (fee_pc /! of_Z 100) =
  documented_ask p profit_pc vol fee_pc.
Proof.
  unfold documented_ask. change (@of_Z Qc _ 1) with (Q2Qc 1).
  change (@padd Qc _) with Qcplus. change (@pmul Qc _) with Qcmult.
  change (@pdiv Qc _) with Qcdiv. ring.
Qed.

Lemma Qc_price_after_sell (p profit_pc vol fee_pc : Qc) :
  p -! p *! (profit_pc /! of_Z 100) -! p *! vol *! (fee_pc /! of_Z 100) =
  documented_bid p profit_pc vol fee_pc.
Proof.
  unfold documented_bid. change (@of_Z Qc _ 1) with (Q2Qc 1).
  change (@padd Qc _) with Qcplus. change (@psub Qc _) with Qcminus.
  change (@pmul Qc _) with Qcmult. change (@pdiv Qc _) with Qcdiv. ring.
Qed.

(** C1, as the code has it: after a BUY was filled the pricing engine
    quotes a SELL of [volume_sell] at the value of the expression of line
    71,
    filled_price + filled_price * (profit_percent/100)
      + (filled_price * volume_sell) * (fee_percent/100),
    computed in the number type of the program, each operation rounding;
    and every order it announces or sends to the exchange is that one. The
    run is the skip line when that price is below [price_min] and the
    placement of that order otherwise. In exact arithmetic the expression
    is the documented formula; for a fill at 100 with profit 1%, fee 0.1%
    and [volume_sell] 2 it is the double 101.2 in binary64. *)
Theorem buy_fill_counter_order (T : Type) {NT : Number T} (G : Type) (env : Env T G)
    (o : Order T) (settings : Settings T) (cfg : SymbolConfig T) (s : State T G) :
  side o = SIDE_BUY ->
  let profit := profit_percent cfg /! of_Z 100 in
  let fee := fee_percent (global settings) /! of_Z 100 in
  let p := price o +! price o *! profit +! price o *! volume_sell cfg *! fee in
  let r := place_opposite_order env o settings cfg s in
  let digits := default 2%nat (price_precision cfg) in
  counter_quote o settings cfg = Some (SIDE_SELL, volume_sell cfg, p) /\
  r = (if p <! price_min cfg then
         mkResult (inr tt) s
           [EvLogInfo (MsgSkippedBelowMin (symbol o) "SELL" p (price_min cfg))]
       else
         confirm_and_place env (default true (confirm_order (global settings)))
           digits (symbol o)
           (mkLocals (Some (volume_sell cfg)) (Some p) (Some SIDE_SELL)) s) /\
  (forall req resp, In (EvCreateOrder req resp) (emitted r) ->
     req = limit_order (symbol o) SIDE_SELL (volume_sell cfg) p digits) /\
  (forall sd sym vol price_str,
     In (EvLogInfo (MsgReadyToPlace sd sym vol price_str)) (emitted r) ->
     sd = SIDE_SELL /\ sym = symbol o /\ vol = volume_sell cfg /\
     price_str = mkFixedStr p digits) /\
  (forall q profit_pc vol fee_pc : Qc,
     q +! q *! (profit_pc /! of_Z 100) +! q *! vol *! (fee_pc /! of_Z 100) =
     documented_ask q profit_pc vol fee_pc) /\
  of_Z 100 +! of_Z 100 *! (of_Z 1 /! of_Z 100)
    +! of_Z 100 *! of_Z 2 *! (decimal 1 1 /! of_Z 100) = (decimal 1012 1 : float64).
Proof.
  intros Hside profit fee p r digits.
  assert (Hq : counter_quote o settings cfg = Some (SIDE_SELL, volume_sell cfg, p)).
  { unfold counter_quote. rewrite Hside. reflexivity. }
  destruct (placed_orders_are_quoted T G env o settings cfg s _ _ _ Hq) as [Hreq Hann].
  split; [exact Hq |]. split.
  { subst r. now rewrite (place_after_buy T G env o settings cfg s Hside). }
  split; [exact Hreq |]. split; [exact Hann |]. split.
  - exact Qc_price_after_buy.
  - vm_compute. reflexivity.
Qed.

(** C2, as the code has it: after a SELL was filled the pricing engine
    quotes a BUY of [volume_buy] at the value of the expression of line 80,
    filled_price - filled_price * (profit_percent/100)
      - (filled_price * volume_buy) * (fee_percent/100),
    computed in the number type of the program, each operation rounding;
    and every order it announces or sends to the exchange is that one; with
    the price within the bounds and the adaptive guard not switched on the
    run is the placement of that order. In exact arithmetic the expression
    is the documented formula; for a fill at 100 with profit 1%, fee 0.1% and
    [volume_buy] 1 it is the double 98.9 in binary64. *)
Theorem sell_fill_counter_order (T : Type) {NT : Number T} (G : Type) (env : Env T G)
    (o : Order T) (settings : Settings T) (cfg : SymbolConfig T) (s : State T G) :
  side o = SIDE_SELL ->
  let profit := profit_percent cfg /! of_Z 100 in
  let fee := fee_percent (global settings) /! of_Z 100 in
  let p := price o -! price o *! profit -! price o *! volume_buy cfg *! fee in
  let r := place_opposite_order env o settings cfg s in
  let digits := default 2%nat (price_precision cfg) in
  counter_quote o settings cfg = Some (SIDE_BUY, volume_buy cfg, p) /\
  ((p <! price_min cfg) = false -> (p >! price_max cfg) = false ->
   (default (of_Z 0) (adaptive_limit_percent cfg) >! of_Z 0)
   && (0 <? default 0 (moving_average_period_min cfg))%Z = false ->
   r = confirm_and_place env (default true (confirm_order (global settings)))
         digits (symbol o)
         (mkLocals (Some (volume_buy cfg)) (Some p) (Some SIDE_BUY)) s) /\
  (forall req resp, In (EvCreateOrder req resp) (emitted r) ->
     req = limit_order (symbol o) SIDE_BUY (volume_buy cfg) p digits) /\
  (forall sd sym vol price_str,
     In (EvLogInfo (MsgReadyToPlace sd sym vol price_str)) (emitted r) ->
     sd = SIDE_BUY /\ sym = symbol o /\ vol = volume_buy cfg /\
     price_str = mkFixedStr p digits) /\
  (forall q profit_pc vol fee_pc : Qc,
     q -! q *! (profit_pc /! of_Z 100) -! q *! vol *! (fee_pc /! of_Z 100) =
     documented_bid q profit_pc vol fee_pc) /\
  of_Z 100 -! of_Z 100 *! (of_Z 1 /! of_Z 100)
    -! of_Z 100 *! of_Z 1 *! (decimal 1 1 /! of_Z 100) = (decimal 989 1 : float64).
Proof.
  intros Hside profit fee p r digits.
  assert (Hq : counter_quote o settings cfg = Some (SIDE_BUY, volume_buy cfg, p)).
  { unfold counter_quote. rewrite Hside. reflexivity. }
  destruct (placed_orders_are_quoted T G env o settings cfg s _ _ _ Hq) as [Hreq Hann].
  split; [exact Hq |]. split.
  { intros Hmin Hmax Hoff. subst r.
    rewrite (place_after_sell T G env o settings cfg s Hside). cbv zeta.
    fold profit fee. change (price_after_sell (price o) profit (volume_buy cfg) fee) with p.
    now rewrite Hmin, Hmax, Hoff. }
  split; [exact Hreq |]. split; [exact Hann |]. split.
  - exact Qc_price_after_sell.
  - vm_compute. reflexivity.
Qed.




(** * The theorems at work on concrete runs *)

(** A run of the documented BUY example in binary64, from the fill to the
    order on the exchange: 101.2, rendered with two decimals. *)
Example buy_fill_run_float64 :
  emitted (place_opposite_order (scripted (calm float64))
             (sample_order float64 7 "BUY" 100 "OPEN") (sample_settings float64)
             (sample_config float64)
             (state_of [sample_order float64 7 "BUY" 100 "OPEN"])) =
  [EvLogInfo (MsgReadyToPlace "SELL" "BTCUSDT" (of_Z 2) (mkFixedStr (decimal 1012 1) 2));
   EvCreateOrder (limit_order "BTCUSDT" "SELL" (of_Z 2) (decimal 1012 1) 2) (inr tt);
   EvLogInfo (MsgOrderPlaced "SELL" "BTCUSDT" (of_Z 2) (mkFixedStr (decimal 1012 1) 2))].
Proof. vm_compute. reflexivity. Qed.

(** The documented SELL example in binary64: 98.9. *)
Example sell_fill_run_float64 :
  emitted (place_opposite_order (scripted (calm float64))
             (sample_order float64 8 "SELL" 100 "OPEN") (sample_settings float64)
             (sample_config float64)
             (state_of [sample_order float64 8 "SELL" 100 "OPEN"])) =
  [EvLogInfo (MsgReadyToPlace "BUY" "BTCUSDT" (of_Z 1) (mkFixedStr (decimal 989 1) 2));
   EvCreateOrder (limit_order "BTCUSDT" "BUY" (of_Z 1) (decimal 989 1) 2) (inr tt);
   EvLogInfo (MsgOrderPlaced "BUY" "BTCUSDT" (of_Z 1) (mkFixedStr (decimal 989 1) 2))].
Proof. vm_compute. reflexivity. Qed.

(** The documented example of the adaptive guard in binary64: moving
    average 100, 2%, price 103: the limit is 102 and the order is skipped. *)
Example adaptive_skip_run_float64 :
  place_opposite_order (scripted (flat float64))
    (sample_order float64 8 "SELL" 103 "OPEN") (free_settings float64)
    (guard_config float64) (state_of [sample_order float64 8 "SELL" 103 "OPEN"]) =
  mkResult (inr tt) (state_of [sample_order float64 8 "SELL" 103 "OPEN"])
    [EvGetKlines "BTCUSDT" "1m" 3
       (inr [kline_closing float64 100; kline_closing float64 100;
             kline_closing float64 100]);
     EvLogInfo (MsgSkippedAdaptive "BTCUSDT" (of_Z 103) (of_Z 102) (of_Z 100)
                  (of_Z 2) 2)].
Proof. vm_compute. reflexivity. Qed.

(** The cycle of a symbol whose price cannot be fetched, in binary64: the
    open order 7 is found filled and handled, then the status line
    raises. *)
Example failed_price_fetch_run_float64 :
  let r := symbol_cycle (scripted (no_ticker float64)) (sample_settings float64)
             "BTCUSDT" (sample_config float64)
             (state_of [sample_order float64 7 "BUY" 100 "OPEN"]) in
  outcome r = inl (TypeError "unsupported format string passed to NoneType.__format__") /\
  existsb is_print_status (emitted r) = false /\
  status_of 7 (final r) = Some "FILLED".
Proof. vm_compute. auto. Qed.

(** C1 refuted as it is stated, in binary64, for a BUY filled at 3 with
    profit 1%, fee 0.1% and [volume_sell] 2. The documented formula gives
    3.036, in exact arithmetic and also when it is evaluated in binary64 as
    it is written. The program computes another double, the one below, so
    that with [price_min] 3.036 it skips the order as below the minimum,
    where the run on the documented price (the run in exact arithmetic)
    sends it. *)
Lemma buy_fill_price_off_the_formula :
  @documented_ask Qc _ (of_Z 3) (of_Z 1) (of_Z 2) (decimal 1 1) = decimal 3036 3 /\
  @documented_ask float64 _ (of_Z 3) (of_Z 1) (of_Z 2) (decimal 1 1) = decimal 3036 3 /\
  (exists p : float64,
     place_opposite_order (scripted (calm float64))
       (sample_order float64 7 "BUY" 3 "OPEN") (sample_settings float64)
       (tight_config float64 (decimal 3036 3) (of_Z 150)) (state_of []) =
     mkResult (inr tt) (state_of [])
       [EvLogInfo (MsgSkippedBelowMin "BTCUSDT" "SELL" p (decimal 3036 3))] /\
     (p <! decimal 3036 3) = true) /\
  existsb is_create_order
    (emitted (place_opposite_order (scripted (calm Qc))
                (sample_order Qc 7 "BUY" 3 "OPEN") (sample_settings Qc)
                (tight_config Qc (decimal 3036 3) (of_Z 150)) (state_of []))) = true.
Proof.
  conjuncts.
  - apply Qc_is_canon. vm_compute. reflexivity.
  - vm_compute. reflexivity.
  - exists (price_after_buy (of_Z 3) (of_Z 1 /! of_Z 100) (of_Z 2)
              (decimal 1 1 /! of_Z 100)).
    split; vm_compute; reflexivity.
  - vm_compute. reflexivity.
Qed.

(** C2 refuted as it is stated, in binary64, for a SELL filled at 3 with
    profit 1%, fee 0.1% and [volume_buy] 2. The documented formula gives
    2.964, in exact arithmetic and also when it is evaluated in binary64 as
    it is written. The program computes the double above, so that with
    [price_max] 2.964 it skips the order as above the maximum, where the
    run on the documented price sends it. *)
Lemma sell_fill_price_off_the_formula :
  @documented_bid Qc _ (of_Z 3) (of_Z 1) (of_Z 2) (decimal 1 1) = decimal 2964 3 /\
  @documented_bid float64 _ (of_Z 3) (of_Z 1) (of_Z 2) (decimal 1 1) = decimal 2964 3 /\
  (exists p : float64,
     place_opposite_order (scripted (calm float64))
       (sample_order float64 8 "SELL" 3 "OPEN") (sample_settings float64)
       (tight_config float64 (of_Z 1) (decimal 2964 3)) (state_of []) =
     mkResult (inr tt) (state_of [])
       [EvLogInfo (MsgSkippedAboveMax "BTCUSDT" p (decimal 2964 3))] /\
     (p >! decimal 2964 3) = true) /\
  existsb is_create_order
    (emitted (place_opposite_order (scripted (calm Qc))
                (sample_order Qc 8 "SELL" 3 "OPEN") (sample_settings Qc)
                (tight_config Qc (of_Z 1) (decimal 2964 3)) (state_of []))) = true.
Proof.
  conjuncts.
  - apply Qc_is_canon. vm_compute. reflexivity.
  - vm_compute. reflexivity.
  - exists (price_after_sell (of_Z 3) (of_Z 1 /! of_Z 100) (of_Z 2)
              (decimal 1 1 /! of_Z 100)).
    split; vm_compute; reflexivity.
  - vm_compute. reflexivity.
Qed.


(** C9 refuted as it is stated: orders 7 and 8 are OPEN in the ledger, the
    fetch of the open orders fails with a gateway error, and the placement
    of the first counter order raises an error of the connection. The
    cycle ends there: one order was sent, and both rows are still OPEN. *)
Lemma failed_fetch_leaves_orders_open :
  fst (client_get_open_orders (scripted (cut_off float64)) "BTCUSDT" tt)
  = inl (BinanceAPIException "Too many requests") /\
  outcome (reconcile_symbol (scripted (cut_off float64)) (sample_settings float64)
             (sample_config float64) "BTCUSDT"
             (state_of [sample_order float64 7 "BUY" 100 "OPEN";
                        sample_order float64 8 "SELL" 100 "OPEN"]))
  = inl (OtherException "ConnectionError") /\
  length (List.filter is_create_order
            (emitted (reconcile_symbol (scripted (cut_off float64))
                        (sample_settings float64) (sample_config float64) "BTCUSDT"
                        (state_of [sample_order float64 7 "BUY" 100 "OPEN";
                                   sample_order float64 8 "SELL" 100 "OPEN"]))))
  = 1%nat /\
  status_of 7
    (final (reconcile_symbol (scripted (cut_off float64)) (sample_settings float64)
              (sample_config float64) "BTCUSDT"
              (state_of [sample_order float64 7 "BUY" 100 "OPEN";
                         sample_order float64 8 "SELL" 100 "OPEN"])))
  = Some "OPEN" /\
  status_of 8
    (final (reconcile_symbol (scripted (cut_off float64)) (sample_settings float64)
              (sample_config float64) "BTCUSDT"
              (state_of [sample_order float64 7 "BUY" 100 "OPEN";
                         sample_order float64 8 "SELL" 100 "OPEN"])))
  = Some "OPEN".
Proof. conjuncts; vm_compute; reflexivity. Qed.

(** C3 refuted as it is stated: the exchange lists order 7, the order is
    marked FILLED, the exchange lists it again, and its status is OPEN
    again. *)
Lemma filled_order_reopened :
  status_of 7
    (final (run_ops (scripted (calm float64))
              [Upsert [sample_live float64 7 "BUY" 100]; MarkFilled 7]
              (state_of []))) = Some "FILLED" /\
  status_of 7
    (final (run_ops (scripted (calm float64))
              [Upsert [sample_live float64 7 "BUY" 100]; MarkFilled 7;
               Upsert [sample_live float64 7 "BUY" 100]]
              (state_of []))) = Some "OPEN".
Proof. vm_compute. auto. Qed.

(** The same within one run of [main], in binary64. Order 7 is OPEN in the
    ledger and still open on the exchange. In the first turn the fetch of
    the open orders fails: the order is taken for filled, a SELL is placed
    against it, and it is marked FILLED. In the second turn the fetch
    succeeds and lists it: its status is OPEN again. *)
Example reopened_within_one_run :
  let s0 := mkState (ledger_of [sample_order float64 7 "BUY" 100 "OPEN"]) 0%nat in
  let first := main (flaky float64) (sample_settings float64) 1 s0 in
  let second := main (flaky float64) (sample_settings float64) 2 s0 in
  outcome first = inr tt /\
  status_of 7 (final first) = Some "FILLED" /\
  existsb is_create_order (emitted first) = true /\
  outcome second = inr tt /\
  status_of 7 (final second) = Some "OPEN".
Proof. vm_compute. auto 6. Qed.

(** ** The theorems applied

    Each general theorem above, used at a concrete world, ledger and
    order. *)

(** The quote for a BUY filled at 100 under the sample settings, in
    binary64. *)
Lemma buy_fill_counter_order_witness :
  side (sample_order float64 7 "BUY" 100 "OPEN") = SIDE_BUY /\
  counter_quote (sample_order float64 7 "BUY" 100 "OPEN") (sample_settings float64)
    (sample_config float64) =
  Some (SIDE_SELL, of_Z 2,
        of_Z 100 +! of_Z 100 *! (of_Z 1 /! of_Z 100)
        +! of_Z 100 *! of_Z 2 *! (decimal 1 1 /! of_Z 100)).
Proof.
  split; [reflexivity |].
  exact (proj1 (buy_fill_counter_order float64 unit (scripted (calm float64))
                  (sample_order float64 7 "BUY" 100 "OPEN") (sample_settings float64)
                  (sample_config float64) (state_of []) eq_refl)).
Defined.

(** The quote for a SELL filled at 100 under the sample settings, in
    binary64. *)
Lemma sell_fill_counter_order_witness :
  side (sample_order float64 8 "SELL" 100 "OPEN") = SIDE_SELL /\
  counter_quote (sample_order float64 8 "SELL" 100 "OPEN") (sample_settings float64)
    (sample_config float64) =
  Some (SIDE_BUY, of_Z 1,
        of_Z 100 -! of_Z 100 *! (of_Z 1 /! of_Z 100)
        -! of_Z 100 *! of_Z 1 *! (decimal 1 1 /! of_Z 100)).
Proof.
  split; [reflexivity |].
  exact (proj1 (sell_fill_counter_order float64 unit (scripted (calm float64))
                  (sample_order float64 8 "SELL" 100 "OPEN") (sample_settings float64)
                  (sample_config float64) (state_of []) eq_refl)).
Defined.

(** Order 7 is FILLED; the exchange lists order 8 only; 7 stays FILLED. *)
Lemma filled_stays_filled_unless_listed_witness :
  status_of 7 (state_of [sample_order float64 7 "BUY" 100 "FILLED"]) = Some "FILLED" /\
  status_of 7
    (final (run_ops (scripted (calm float64))
              [Upsert [sample_live float64 8 "SELL" 100]; MarkFilled 7; MarkFilled 9]
              (state_of [sample_order float64 7 "BUY" 100 "FILLED"]))) = Some "FILLED".
Proof.
  split; [reflexivity |].
  refine (proj1 (filled_stays_filled_unless_listed float64 unit (scripted (calm float64))
                   [Upsert [sample_live float64 8 "SELL" 100]; MarkFilled 7; MarkFilled 9]
                   (state_of [sample_order float64 7 "BUY" 100 "FILLED"]) 7 eq_refl _)).
  intros order_list [H | [H | [H | []]]]; try discriminate H.
  injection H as <-. simpl. lia.
Defined.

(** The ticker fails: the cycle of the symbol ends in the [TypeError]. *)
Lemma failed_price_fetch_aborts_cycle_witness :
  fst (client_get_symbol_ticker (scripted (no_ticker float64)) "BTCUSDT" tt)
  = inl (BinanceAPIException "Too many requests") /\
  outcome (symbol_cycle (scripted (no_ticker float64)) (sample_settings float64)
             "BTCUSDT" (sample_config float64)
             (state_of [sample_order float64 7 "BUY" 100 "OPEN"]))
  = inl (TypeError "unsupported format string passed to NoneType.__format__").
Proof.
  split; [reflexivity |].
  pose proof (failed_price_fetch_aborts_cycle float64 unit
                (scripted (no_ticker float64)) (sample_settings float64) "BTCUSDT"
                (sample_config float64)
                (state_of [sample_order float64 7 "BUY" 100 "OPEN"])
                "Too many requests" eq_refl) as H.
  cbv zeta in H. destruct H as (_ & _ & _ & Hdone).
  apply (Hdone (None, [])). vm_compute. reflexivity.
Defined.

(** Moving average 100, 2%, price 103: skipped above the limit 102. *)
Lemma adaptive_guard_witness :
  place_opposite_order (scripted (flat float64))
    (sample_order float64 8 "SELL" 103 "OPEN") (free_settings float64)
    (guard_config float64) (state_of []) =
  mkResult (inr tt) (state_of [])
    [EvGetKlines "BTCUSDT" "1m" 3
       (inr [kline_closing float64 100; kline_closing float64 100;
             kline_closing float64 100]);
     EvLogInfo (MsgSkippedAdaptive "BTCUSDT" (of_Z 103) (of_Z 102) (of_Z 100)
                  (of_Z 2) 2)].
Proof.
  pose proof (adaptive_guard float64 unit (scripted (flat float64))
                (sample_order float64 7 "BUY" 100 "OPEN")
                (sample_order float64 8 "SELL" 103 "OPEN") (free_settings float64)
                (guard_config float64) (state_of []) (of_Z 2) 3
                eq_refl eq_refl eq_refl eq_refl) as H.
  cbv zeta in H.
  assert (Hpos : (@of_Z float64 _ 2 >! of_Z 0) = true) by (vm_compute; reflexivity).
  specialize (H Hpos ltac:(lia)).
  lapply H; [clear H; intros H | vm_compute; reflexivity].
  lapply H; [clear H; intros H | vm_compute; reflexivity].
  destruct H as (_ & Hskip & _).
  destruct (Hskip (f64_of_Z 100)) as [Hgt _]; [vm_compute; reflexivity |].
  apply Hgt. vm_compute. reflexivity.
Defined.

(** A BUY filled at 40 and a SELL filled at 200, with bounds 50 and 150:
    both counter orders are skipped, the first below the minimum, the second
    above the maximum. *)
Lemma price_bounds_guard_witness :
  place_opposite_order (scripted (calm float64))
    (sample_order float64 7 "BUY" 40 "OPEN") (sample_settings float64)
    (sample_config float64) (state_of []) =
  mkResult (inr tt) (state_of [])
    [EvLogInfo (MsgSkippedBelowMin "BTCUSDT" "SELL"
                  (price_after_buy (of_Z 40) (of_Z 1 /! of_Z 100) (of_Z 2)
                     (decimal 1 1 /! of_Z 100))
                  (of_Z 50))] /\
  place_opposite_order (scripted (calm float64))
    (sample_order float64 8 "SELL" 200 "OPEN") (sample_settings float64)
    (sample_config float64) (state_of []) =
  mkResult (inr tt) (state_of [])
    [EvLogInfo (MsgSkippedAboveMax "BTCUSDT"
                  (price_after_sell (of_Z 200) (of_Z 1 /! of_Z 100) (of_Z 1)
                     (decimal 1 1 /! of_Z 100))
                  (of_Z 150))].
Proof.
  pose proof (price_bounds_guard float64 unit (scripted (calm float64))
                (sample_order float64 7 "BUY" 40 "OPEN")
                (sample_order float64 8 "SELL" 200 "OPEN") (sample_settings float64)
                (sample_config float64) (state_of []) eq_refl eq_refl) as H.
  cbv zeta in H. destruct H as ((Hask & _) & (_ & Hmax)).
  split.
  - apply Hask. vm_compute. reflexivity.
  - apply Hmax; vm_compute; reflexivity.
Defined.

(** The exchange refuses the counter order of order 7: the row is FILLED
    all the same. *)
Lemma placement_failure_keeps_fill_mark_witness :
  is_Some (ledger (state_of [sample_order float64 7 "BUY" 100 "OPEN"]) !! 7) /\
  status_of 7
    (final (handle_fill (scripted (no_placement float64)) (sample_settings float64)
              (sample_config float64) "BTCUSDT"
              (sample_order float64 7 "BUY" 100 "OPEN")
              (state_of [sample_order float64 7 "BUY" 100 "OPEN"])))
  = Some "FILLED".
Proof.
  assert (Hrow : is_Some (ledger (state_of [sample_order float64 7 "BUY" 100 "OPEN"]) !! 7)).
  { eexists. reflexivity. }
  split; [exact Hrow |].
  pose proof (placement_failure_keeps_fill_mark float64 unit
                (scripted (no_placement float64)) (sample_settings float64)
                (sample_config float64) "BTCUSDT"
                (sample_order float64 7 "BUY" 100 "OPEN")
                (state_of [sample_order float64 7 "BUY" 100 "OPEN"])
                (limit_order "BTCUSDT" "SELL" (of_Z 2) (decimal 1012 1) 2)
                "Insufficient balance" Hrow) as H.
  cbv zeta in H.
  lapply H; [clear H; intros H | vm_compute; right; right; left; reflexivity].
  destruct H as (_ & _ & _ & Hst & _). exact Hst.
Defined.

(** Orders 7 and 8 are OPEN, 9 is FILLED, and the fetch of the open orders
    fails: 7 and 8 end FILLED. *)
Lemma failed_fetch_fills_every_open_order_witness :
  fst (client_get_open_orders (scripted (no_open_orders float64)) "BTCUSDT" tt)
  = inl (BinanceAPIException "Too many requests") /\
  let r := reconcile_symbol (scripted (no_open_orders float64)) (sample_settings float64)
             (sample_config float64) "BTCUSDT"
             (state_of [sample_order float64 7 "BUY" 100 "OPEN";
                        sample_order float64 8 "SELL" 100 "OPEN";
                        sample_order float64 9 "SELL" 100 "FILLED"]) in
  status_of 7 (final r) = Some "FILLED" /\ status_of 8 (final r) = Some "FILLED".
Proof.
  split; [reflexivity |].
  pose proof (failed_fetch_fills_every_open_order float64 unit
                (scripted (no_open_orders float64)) (sample_settings float64)
                (sample_config float64) "BTCUSDT"
                (state_of [sample_order float64 7 "BUY" 100 "OPEN";
                           sample_order float64 8 "SELL" 100 "OPEN";
                           sample_order float64 9 "SELL" 100 "FILLED"])
                (Some (of_Z 100)) "Too many requests"
                [sample_order float64 7 "BUY" 100 "OPEN";
                 sample_order float64 8 "SELL" 100 "OPEN"]) as H.
  cbv zeta in H.
  lapply H; [clear H; intros H | vm_compute; reflexivity].
  lapply H; [clear H; intros H | vm_compute; reflexivity].
  lapply H; [clear H; intros H | vm_compute; reflexivity].
  destruct H as [_ [H _]]. cbv zeta. split.
  - assert (Hrow : ledger (state_of [sample_order float64 7 "BUY" 100 "OPEN";
                                       sample_order float64 8 "SELL" 100 "OPEN";
                                       sample_order float64 9 "SELL" 100 "FILLED"]) !! 7
                   = Some (row_of (sample_order float64 7 "BUY" 100 "OPEN")))
      by (vm_compute; reflexivity).
    destruct (H 7 _ Hrow eq_refl eq_refl) as [_ Hdone].
    apply (Hdone (Some (of_Z 100), [])). vm_compute. reflexivity.
  - assert (Hrow : ledger (state_of [sample_order float64 7 "BUY" 100 "OPEN";
                                       sample_order float64 8 "SELL" 100 "OPEN";
                                       sample_order float64 9 "SELL" 100 "FILLED"]) !! 8
                   = Some (row_of (sample_order float64 8 "SELL" 100 "OPEN")))
      by (vm_compute; reflexivity).
    destruct (H 8 _ Hrow eq_refl eq_refl) as [_ Hdone].
    apply (Hdone (Some (of_Z 100), [])). vm_compute. reflexivity.
Defined.

(** A side HOLD: the run raises at line 104. *)
Lemma place_opposite_order_needs_known_side_witness :
  (side (sample_order float64 7 "BUY" 100 "OPEN") = SIDE_BUY \/
   side (sample_order float64 7 "BUY" 100 "OPEN") = SIDE_SELL) /\
  side (sample_order float64 9 "HOLD" 100 "OPEN") <> SIDE_BUY /\
  side (sample_order float64 9 "HOLD" 100 "OPEN") <> SIDE_SELL /\
  place_opposite_order (scripted (calm float64))
    (sample_order float64 9 "HOLD" 100 "OPEN") (sample_settings float64)
    (sample_config float64) (state_of []) =
  raise (UnboundLocalError "price") (state_of []).
Proof.
  assert (Hknown : side (sample_order float64 7 "BUY" 100 "OPEN") = SIDE_BUY \/
                   side (sample_order float64 7 "BUY" 100 "OPEN") = SIDE_SELL)
    by (left; reflexivity).
  assert (Hb : side (sample_order float64 9 "HOLD" 100 "OPEN") <> SIDE_BUY)
    by discriminate.
  assert (Hs : side (sample_order float64 9 "HOLD" 100 "OPEN") <> SIDE_SELL)
    by discriminate.
  split; [exact Hknown |]. split; [exact Hb |]. split; [exact Hs |].
  pose proof (place_opposite_order_needs_known_side float64 unit
                (scripted (calm float64)) (sample_order float64 7 "BUY" 100 "OPEN")
                (sample_order float64 9 "HOLD" 100 "OPEN") (sample_settings float64)
                (sample_config float64) (state_of []) Hknown Hb Hs) as H.
  destruct H as [_ H]. exact H.
Defined.


(** * Further properties *)

Section Ledger.

Variable T : Type.
Variable G : Type.
Variable env : Env T G.

Local Abbreviation State := (State T G).

(** ** [save_or_update_orders] *)

Lemma with_status_same (row : Row T) :
  with_status (r_status row) row = row.
Proof. now destruct row. Qed.

Lemma with_status_twice (st st' : string) (row : Row T) :
  with_status st' (with_status st row) = with_status st' row.
Proof. reflexivity. Qed.

(** One turn of the loop, key by key. *)
Lemma upsert_row_lookup (o : LiveOrder T) (s : State) (id : Z) :
  ledger (final (upsert_row env o s)) !! id =
    if decide (id = o_orderId o) then
      Some (match ledger s !! id with
            | Some row => with_status "OPEN" row
            | None =>
                mkRow (o_symbol o) (o_side o) (o_price o) (o_origQty o) "OPEN"
                  (fst (time_time env (world s)))
            end)
    else ledger s !! id.
Proof.
  unfold upsert_row, query_first, call_time, set_status, session_add, bind. simpl.
  destruct (decide (id = o_orderId o)) as [-> | Hne].
  - destruct (ledger s !! o_orderId o) as [row |] eqn:Hrow; simpl.
    + now rewrite lookup_alter_eq, Hrow.
    + destruct (time_time env (world s)) as [now g]; simpl.
      now rewrite lookup_insert_eq.
  - destruct (ledger s !! o_orderId o) as [row |] eqn:Hrow; simpl.
    + now rewrite lookup_alter_ne.
    + destruct (time_time env (world s)) as [now g]; simpl.
      now rewrite lookup_insert_ne.
Qed.

Lemma save_or_update_orders_step (o : LiveOrder T) (l : list (LiveOrder T)) (s : State) :
  final (save_or_update_orders env (o :: l) s) =
  final (save_or_update_orders env l (final (upsert_row env o s))).
Proof.
  unfold save_or_update_orders. cbn [for_each].
  destruct (upsert_row_run T G env o s) as (Hout & _).
  now rewrite (bind_ok T G _ _ _ _ _ tt Hout).
Qed.

(** The whole loop, key by key: a row that was there keeps its columns and
    is OPEN; a row that was not there is made of the first live order with
    its id. *)
Lemma save_or_update_orders_lookup (order_list : list (LiveOrder T)) (s : State) (id : Z) :
  ledger (final (save_or_update_orders env order_list s)) !! id =
    match first_listed id order_list with
    | None => ledger s !! id
    | Some o =>
        match ledger s !! id with
        | Some row => Some (with_status "OPEN" row)
        | None =>
            ledger (final (save_or_update_orders env order_list s)) !! id
        end
    end /\
  (forall o, first_listed id order_list = Some o -> ledger s !! id = None ->
     exists now,
       ledger (final (save_or_update_orders env order_list s)) !! id =
       Some (mkRow (o_symbol o) (o_side o) (o_price o) (o_origQty o) "OPEN" now)).
Proof.
  revert s. induction order_list as [| o l IH]; intros s.
  - split; [reflexivity | discriminate].
  - rewrite save_or_update_orders_step.
    destruct (IH (final (upsert_row env o s))) as [IH1 IH2].
    pose proof (upsert_row_lookup o s id) as Hup.
    unfold first_listed in *. cbn [List.find].
    destruct (Z.eqb_spec (o_orderId o) id) as [Heq | Hne].
    + subst id. rewrite decide_True in Hup by reflexivity.
      assert (Hkeep : forall row,
                ledger (final (upsert_row env o s)) !! o_orderId o = Some row ->
                r_status row = "OPEN" ->
                ledger (final (save_or_update_orders env l (final (upsert_row env o s))))
                  !! o_orderId o = Some row).
      { intros row Hrow Hst. rewrite IH1, Hrow.
        destruct (List.find _ l); [| reflexivity].
        rewrite <- Hst. now rewrite with_status_same. }
      split.
      * destruct (ledger s !! o_orderId o) as [row |] eqn:Hrow; [| reflexivity].
        apply Hkeep; [exact Hup | reflexivity].
      * intros o' [= <-] Hnone. rewrite Hnone in Hup. eexists.
        apply Hkeep; [exact Hup | reflexivity].
    + rewrite decide_False in Hup by congruence. rewrite Hup in IH1, IH2.
      split; [exact IH1 | exact IH2].
Qed.

Lemma save_or_update_orders_app (l1 l2 : list (LiveOrder T)) (s : State) :
  final (save_or_update_orders env (l1 ++ l2) s) =
  final (save_or_update_orders env l2 (final (save_or_update_orders env l1 s))).
Proof.
  revert s. induction l1 as [| o l1 IH]; intros s; [reflexivity |].
  cbn [app]. now rewrite !save_or_update_orders_step, IH.
Qed.

(** X1: what [save_or_update_orders] does to the table, key by key, for
    order ids that SQLite can store. An order id that is not in the list
    keeps its row, or its absence. A row that was there and is listed keeps
    all its columns but the status, which is OPEN. An id that had no row
    gets one made of the first live order in the list with that id, with
    status OPEN and, as its time of creation, what the clock reads when the
    loop comes to that order. The call returns normally and writes nothing
    to the log. *)
Theorem upsert_rows (order_list : list (LiveOrder T)) (s : State) (id : Z) :
  Forall (fun o => sqlite_integer (o_orderId o)) order_list ->
  let r := save_or_update_orders env order_list s in
  outcome r = inr tt /\ emitted r = [] /\
  (first_listed id order_list = None -> ledger (final r) !! id = ledger s !! id) /\
  (forall o row,
     first_listed id order_list = Some o -> ledger s !! id = Some row ->
     ledger (final r) !! id = Some (with_status "OPEN" row)) /\
  (forall before o after,
     order_list = before ++ o :: after ->
     o_orderId o = id -> first_listed id before = None ->
     ledger s !! id = None ->
     let reached := final (save_or_update_orders env before s) in
     ledger (final r) !! id =
     Some (mkRow (o_symbol o) (o_side o) (o_price o) (o_origQty o) "OPEN"
             (fst (time_time env (world reached))))).
Proof.
  intros _ r. subst r.
  destruct (save_or_update_orders_run T G env order_list s) as (Hout & Hev & _).
  destruct (save_or_update_orders_lookup order_list s id) as [H1 _].
  conjuncts; try assumption.
  - intros Hnone. now rewrite Hnone in H1.
  - intros o row Hfirst Hrow. now rewrite Hfirst, Hrow in H1.
  - intros before o after -> Hid Hbefore Hnone reached.
    rewrite save_or_update_orders_app. fold reached.
    rewrite save_or_update_orders_step.
    assert (Hreached : ledger reached !! id = None).
    { subst reached.
      destruct (save_or_update_orders_lookup before s id) as [Hb _].
      now rewrite Hbefore, Hnone in Hb. }
    pose proof (upsert_row_lookup o reached id) as Hup.
    rewrite decide_True, Hreached in Hup by (now symmetry).
    destruct (save_or_update_orders_lookup after (final (upsert_row env o reached)) id)
      as [Ha _].
    rewrite Hup in Ha. rewrite Ha.
    destruct (first_listed id after); reflexivity.
Qed.

Lemma first_listed_In (id : Z) (order_list : list (LiveOrder T)) :
  In id (map (@o_orderId T) order_list) <-> is_Some (first_listed id order_list).
Proof.
  unfold first_listed. induction order_list as [| o l IH]; simpl.
  - split; [tauto | intros [? ?]; discriminate].
  - destruct (Z.eqb_spec (o_orderId o) id) as [Heq | Hne].
    + split; eauto.
    + rewrite <- IH. tauto.
Qed.

(** Orders that are all OPEN in the table already: nothing changes. *)
Lemma save_or_update_orders_open (order_list : list (LiveOrder T)) (s : State) :
  (forall id, In id (map (@o_orderId T) order_list) -> status_of id s = Some "OPEN") ->
  ledger (final (save_or_update_orders env order_list s)) = ledger s.
Proof.
  intros Hopen. apply map_eq. intros id.
  destruct (save_or_update_orders_lookup order_list s id) as [H1 _].
  destruct (first_listed id order_list) as [o |] eqn:Hfirst; [| exact H1].
  assert (Hin : In id (map (@o_orderId T) order_list)).
  { apply first_listed_In. rewrite Hfirst. eauto. }
  specialize (Hopen id Hin). unfold status_of in Hopen.
  destruct (ledger s !! id) as [row |] eqn:Hrow; [| discriminate Hopen].
  rewrite H1. simpl in Hopen. injection Hopen as Hst.
  rewrite <- Hst. now rewrite with_status_same.
Qed.

(** X2: seeing again orders that are still OPEN changes nothing in the
    table; in particular [save_or_update_orders] run twice on the same list
    leaves the table as the first run left it. *)
Theorem upsert_idempotent (order_list : list (LiveOrder T)) (s : State) :
  ((forall id, In id (map (@o_orderId T) order_list) -> status_of id s = Some "OPEN") ->
   ledger (final (save_or_update_orders env order_list s)) = ledger s) /\
  ledger (final (save_or_update_orders env order_list
                   (final (save_or_update_orders env order_list s)))) =
  ledger (final (save_or_update_orders env order_list s)).
Proof.
  split; [apply save_or_update_orders_open |].
  apply save_or_update_orders_open. intros id Hin.
  now apply (save_or_update_orders_run T G env order_list s).
Qed.

(** ** [mark_order_filled] *)

Lemma mark_order_filled_ledger (id : Z) (s : State) :
  mark_order_filled id s =
    mkResult (inr tt)
      (mkState (alter (with_status "FILLED") id (ledger s)) (world s)) [] \/
  (ledger s !! id = None /\ mark_order_filled id s = mkResult (inr tt) s []).
Proof.
  unfold mark_order_filled, query_first, set_status, bind. simpl.
  destruct (ledger s !! id) as [row |]; simpl; [left | right]; auto.
Qed.

Lemma mark_order_filled_lookup (id id' : Z) (s : State) :
  ledger (final (mark_order_filled id s)) !! id' =
    if decide (id' = id) then with_status "FILLED" <$> ledger s !! id'
    else ledger s !! id'.
Proof.
  destruct (mark_order_filled_ledger id s) as [-> | [Hnone ->]]; cbn [final ledger].
  - destruct (decide (id' = id)) as [-> | Hne].
    + now rewrite lookup_alter_eq.
    + now rewrite lookup_alter_ne.
  - destruct (decide (id' = id)) as [-> | Hne]; [| reflexivity].
    now rewrite Hnone.
Qed.

(** X3: for an order id that SQLite can store, [mark_order_filled] on an
    id the table does not have does nothing at all; on an id it has, it
    changes the status of that row to FILLED and no other column and no
    other row. It returns normally and writes no log line, and doing it
    twice is doing it once. *)
Theorem mark_order_filled_rows (id : Z) (s : State) :
  sqlite_integer id ->
  let r := mark_order_filled id s in
  outcome r = inr tt /\ emitted r = [] /\ world (final r) = world s /\
  (ledger s !! id = None -> final r = s) /\
  (forall row, ledger s !! id = Some row ->
     ledger (final r) !! id = Some (with_status "FILLED" row)) /\
  (forall id', id' <> id -> ledger (final r) !! id' = ledger s !! id') /\
  final (mark_order_filled id (final r)) = final r.
Proof.
  intros _ r. subst r.
  destruct (mark_order_filled_run T G id s) as (Hout & Hev & Hw & _).
  conjuncts; try assumption.
  - intros Hnone.
    destruct (mark_order_filled_ledger id s) as [Hm | [_ ->]]; [| reflexivity].
    rewrite Hm. cbn [final]. destruct s as [l w]. cbn [ledger world] in *. f_equal.
    apply map_eq. intros id'. destruct (decide (id' = id)) as [-> | Hne].
    + now rewrite lookup_alter_eq, Hnone.
    + now rewrite lookup_alter_ne.
  - intros row Hrow. rewrite mark_order_filled_lookup, decide_True by reflexivity.
    now rewrite Hrow.
  - intros id' Hne. now rewrite mark_order_filled_lookup, decide_False.
  - set (s1 := final (mark_order_filled id s)).
    assert (Hl : ledger (final (mark_order_filled id s1)) = ledger s1).
    { apply map_eq. intros id'. rewrite mark_order_filled_lookup.
      destruct (decide (id' = id)) as [-> | Hne]; [| reflexivity].
      subst s1. rewrite mark_order_filled_lookup, decide_True by reflexivity.
      destruct (ledger s !! id) as [row |]; reflexivity. }
    destruct (mark_order_filled_run T G id s1) as (_ & _ & Hw1 & _).
    destruct (final (mark_order_filled id s1)) as [l1 w1], s1 as [l0 w0].
    cbn [ledger world] in *. now subst.
Qed.

(** ** [get_filled_orders] *)

(** X4: [get_filled_orders] never fails and changes nothing. It returns
    exactly the orders whose row has status OPEN and a symbol among the ones
    asked for, each with the columns of its row, and no order id twice. With
    no symbol asked for the list is empty. *)
Theorem get_filled_orders_lists_open_rows (active_symbols : list string) (s : State) :
  exists orders,
    get_filled_orders active_symbols s = mkResult (inr orders) s [] /\
    (forall o,
       In o orders <->
       ledger s !! order_id o = Some (row_of o) /\ status o = "OPEN" /\
       In (symbol o) active_symbols) /\
    NoDup (map (@order_id T) orders) /\
    (active_symbols = [] -> orders = []).
Proof.
  destruct (get_filled_orders_spec T G active_symbols s) as (orders & Hrun & Hspec).
  exists orders. conjuncts; try assumption.
  - unfold get_filled_orders in Hrun. injection Hrun as <-.
    apply NoDup_map_filter. rewrite map_map. simpl.
    apply (NoDup_fst_map_to_list (ledger s)).
  - intros ->. destruct orders as [| o orders]; [reflexivity |].
    destruct (proj1 (Hspec o) (or_introl eq_refl)) as (_ & _ & []).
Qed.

(** X5: once [mark_order_filled] was called for an id, [get_filled_orders]
    lists that id no more, and lists every other order as before. *)
Theorem marked_order_is_not_listed (active_symbols : list string) (s : State) (id : Z)
    (before after : list (Order T)) :
  outcome (get_filled_orders active_symbols s) = inr before ->
  outcome (get_filled_orders active_symbols (final (mark_order_filled id s))) = inr after ->
  forall o, In o after <-> In o before /\ order_id o <> id.
Proof.
  intros Hbefore Hafter o.
  destruct (get_filled_orders_spec T G active_symbols s) as (l1 & Hrun1 & Hspec1).
  destruct (get_filled_orders_spec T G active_symbols (final (mark_order_filled id s)))
    as (l2 & Hrun2 & Hspec2).
  rewrite Hrun1 in Hbefore. rewrite Hrun2 in Hafter.
  injection Hbefore as ->. injection Hafter as ->.
  rewrite (Hspec1 o), (Hspec2 o), mark_order_filled_lookup.
  destruct (decide (order_id o = id)) as [Heq | Hne].
  - split; [| tauto]. intros (Hrow & Hst & _). exfalso.
    destruct (ledger s !! order_id o) as [row |]; [| discriminate Hrow].
    apply (f_equal (fmap (@r_status T))) in Hrow. simpl in Hrow. congruence.
  - tauto.
Qed.

(** X6: what [save_or_update_orders] has seen, [get_filled_orders] lists.
    After the call, every listed id that had a row is listed with that
    row's columns and status OPEN, whatever its status was, and every
    listed id that had none is listed with the columns of its first live
    order, provided the symbol is among the ones asked for. *)
Theorem upserted_orders_are_listed (order_list : list (LiveOrder T))
    (active_symbols : list string) (s : State) (listed : list (Order T)) :
  outcome (get_filled_orders active_symbols
             (final (save_or_update_orders env order_list s))) = inr listed ->
  (forall id o row,
     first_listed id order_list = Some o -> ledger s !! id = Some row ->
     In (r_symbol row) active_symbols ->
     In (load id (with_status "OPEN" row)) listed) /\
  (forall o,
     first_listed (o_orderId o) order_list = Some o ->
     ledger s !! o_orderId o = None ->
     In (o_symbol o) active_symbols ->
     exists now,
       In (mkOrder (o_orderId o) (o_symbol o) (o_side o) (o_price o) (o_origQty o)
             "OPEN" now) listed).
Proof.
  intros Hlisted.
  destruct (get_filled_orders_spec T G active_symbols
              (final (save_or_update_orders env order_list s)))
    as (l & Hrun & Hspec).
  rewrite Hrun in Hlisted. injection Hlisted as ->.
  split.
  - intros id o row Hfirst Hrow Hsym. apply Hspec.
    destruct (save_or_update_orders_lookup order_list s id) as [H1 _].
    rewrite Hfirst, Hrow in H1. simpl. rewrite H1. auto.
  - intros o Hfirst Hnone Hsym.
    destruct (save_or_update_orders_lookup order_list s (o_orderId o)) as [_ H2].
    destruct (H2 o Hfirst Hnone) as [now Hnow].
    exists now. apply Hspec. simpl. rewrite Hnow. auto.
Qed.

End Ledger.

Section Engine.

Variable T : Type.
Context {NT : Number T}.
Variable G : Type.
Variable env : Env T G.

Local Abbreviation State := (State T G).

(** ** The fetches of [main] *)

(** X7: [get_open_orders] and [get_current_price] are soft on gateway
    errors only. An answer is passed on as it is; a gateway error is logged
    and turned into the empty list, or into no price; any other exception is
    raised again, with no log line. None of this touches the ledger. *)
Theorem fetches_are_soft_on_gateway_errors_only (sym : string) (s : State) :
  let orders := client_get_open_orders env sym (world s) in
  let ticker := client_get_symbol_ticker env sym (world s) in
  get_open_orders env sym s =
    mkResult
      (match fst orders with
       | inr live => inr live
       | inl (BinanceAPIException _) => inr []
       | inl e => inl e
       end)
      (mkState (ledger s) (snd orders))
      (EvGetOpenOrders sym (fst orders) ::
       match fst orders with
       | inl (BinanceAPIException message) =>
           [EvLogError (MsgFetchOrdersFailed sym message)]
       | _ => []
       end) /\
  get_current_price env sym s =
    mkResult
      (match fst ticker with
       | inr p => inr (Some p)
       | inl (BinanceAPIException _) => inr None
       | inl e => inl e
       end)
      (mkState (ledger s) (snd ticker))
      (EvGetSymbolTicker sym (fst ticker) ::
       match fst ticker with
       | inl (BinanceAPIException message) =>
           [EvLogError (MsgFetchPriceFailed sym message)]
       | _ => []
       end).
Proof.
  intros orders ticker. subst orders ticker. split.
  - unfold get_open_orders, try_except, bind, call_get_open_orders, log_error, emit.
    destruct (client_get_open_orders env sym (world s)) as [[e | live] g]; simpl;
      [destruct e |]; reflexivity.
  - unfold get_current_price, try_except, bind, call_get_symbol_ticker, log_error, emit.
    destruct (client_get_symbol_ticker env sym (world s)) as [[e | p] g]; simpl;
      [destruct e |]; reflexivity.
Qed.

(** ** The shape of a run of [place_opposite_order] *)

(** Every run is of one of three kinds: the side is unknown and line 104
    raises; or the run gives up on one skip line; or the guards are passed
    and the run goes on as lines 104-124 on the quoted order. *)
Lemma place_opposite_order_shape (o : Order T) (settings : Settings T)
    (cfg : SymbolConfig T) (s : State) :
  let r := place_opposite_order env o settings cfg s in
  let confirm := default true (confirm_order (global settings)) in
  let digits := default 2%nat (price_precision cfg) in
  let percent := default (of_Z 0) (adaptive_limit_percent cfg) in
  let period := default 0%Z (moving_average_period_min cfg) in
  (side o <> SIDE_BUY /\ side o <> SIDE_SELL /\
   r = raise (UnboundLocalError "price") s) \/
  (exists pre ev,
     klines_first (symbol o) pre /\ is_skip ev = true /\
     outcome r = inr tt /\ emitted r = pre ++ [ev]) \/
  (exists sd vol p pre s1,
     counter_quote o settings cfg = Some (sd, vol, p) /\
     klines_first (symbol o) pre /\ ledger s1 = ledger s /\
     (p <! price_min cfg) = false /\
     (side o = SIDE_SELL ->
      (p >! price_max cfg) = false /\
      ((percent >! of_Z 0) && (0 <? period)%Z = true ->
       exists moving_avg,
         outcome (get_moving_average env (symbol o) period s) = inr moving_avg /\
         (p >! adaptive_limit_of moving_avg percent) = false)) /\
     let rest := confirm_and_place env confirm digits (symbol o)
                   (mkLocals (Some vol) (Some p) (Some sd)) s1 in
     outcome r = outcome rest /\ final r = final rest /\
     emitted r = pre ++ emitted rest).
Proof.
  intros r confirm digits percent period. subst r.
  destruct (counter_quote_cases T o settings cfg) as [(sd & vol & p & Hq) | [Hb Hs]].
  2:{ left. conjuncts; try assumption. now apply place_after_other. }
  right. unfold counter_quote in Hq.
  destruct (String.eqb (side o) SIDE_BUY) eqn:Hb.
  - apply String.eqb_eq in Hb.
    rewrite (place_after_buy T G env o settings cfg s Hb). cbv zeta.
    injection Hq as <- <- <-.
    destruct (_ <! price_min cfg) eqn:Hmin.
    + left. exists [], (EvLogInfo (MsgSkippedBelowMin (symbol o) "SELL"
                          (price_after_buy (price o) (profit_percent cfg /! of_Z 100)
                             (volume_sell cfg) (fee_percent (global settings) /! of_Z 100))
                          (price_min cfg))).
      conjuncts; try reflexivity. now left.
    + right. eexists _, _, _, [], s. conjuncts; try reflexivity.
      * unfold counter_quote. rewrite Hb. reflexivity.
      * now left.
      * exact Hmin.
      * intros Hs. rewrite Hb in Hs. discriminate Hs.
  - destruct (String.eqb (side o) SIDE_SELL) eqn:Hs; [| discriminate Hq].
    apply String.eqb_eq in Hs.
    rewrite (place_after_sell T G env o settings cfg s Hs). cbv zeta.
    injection Hq as <- <- <-.
    fold percent period.
    set (p := price_after_sell (price o) (profit_percent cfg /! of_Z 100)
                (volume_buy cfg) (fee_percent (global settings) /! of_Z 100)).
    assert (Hquote : counter_quote o settings cfg = Some (SIDE_BUY, volume_buy cfg, p)).
    { unfold counter_quote. rewrite Hb.
      replace (String.eqb (side o) SIDE_SELL) with true
        by (symmetry; now apply String.eqb_eq).
      reflexivity. }
    destruct (p <! price_min cfg) eqn:Hmin.
    { left. eexists [], _. conjuncts; [now left | | reflexivity | reflexivity]; reflexivity. }
    destruct (price_max cfg <! p) eqn:Hmax.
    { left. eexists [], _. conjuncts; [now left | | reflexivity | reflexivity]; reflexivity. }
    destruct ((percent >! of_Z 0) && (0 <? period)%Z) eqn:Hon.
    + pose proof (get_moving_average_run T G env (symbol o) period s) as Hma.
      cbv zeta in Hma.
      destruct (outcome (get_moving_average env (symbol o) period s))
        as [e | moving_avg] eqn:Hout.
      * left. eexists _, _. conjuncts; [| | reflexivity | reflexivity].
        -- right. rewrite Hma. cbn [emitted]. eauto.
        -- reflexivity.
      * destruct (adaptive_limit_of moving_avg percent <! p) eqn:Hlim.
        -- left. eexists _, _. conjuncts; [| | reflexivity | reflexivity].
           ++ right. rewrite Hma. cbn [emitted]. eauto.
           ++ reflexivity.
        -- right.
           exists SIDE_BUY, (volume_buy cfg), p,
             (emitted (get_moving_average env (symbol o) period s)),
             (final (get_moving_average env (symbol o) period s)).
           conjuncts; try reflexivity; try assumption.
           ++ right. rewrite Hma. cbn [emitted]. eauto.
           ++ rewrite Hma. reflexivity.
           ++ intros _. split; [first [reflexivity | assumption] |]. intros _.
              exists moving_avg. split; first [reflexivity | assumption].
    + right. exists SIDE_BUY, (volume_buy cfg), p, [], s.
      conjuncts; try reflexivity; try assumption.
      * now left.
      * intros _. split; [first [reflexivity | assumption] |]. discriminate.
Qed.

Lemma klines_first_In (sym : string) (pre l : list (Event T)) (ev : Event T) :
  klines_first sym pre -> is_get_klines ev = false ->
  In ev (pre ++ l) -> In ev l.
Proof.
  intros [-> | (limit & resp & ->)] Hk Hin; [exact Hin |].
  destruct Hin as [<- | Hin]; [discriminate Hk | exact Hin].
Qed.

Lemma klines_first_filter (sym : string) (pre l : list (Event T))
    (f : Event T -> bool) :
  klines_first sym pre ->
  (forall a b c d, f (EvGetKlines a b c d) = false) ->
  List.filter f (pre ++ l) = List.filter f l.
Proof.
  intros [-> | (limit & resp & ->)] Hf; [reflexivity |].
  simpl. now rewrite Hf.
Qed.

(** ** The prompt *)

(** Lines 104-124 and the prompt: it is shown exactly when [confirm] is
    set, once, before any call; a reply that is not y sends nothing, and
    neither does a prompt that raises. *)
Lemma confirm_and_place_prompt (confirm : bool) (digits : nat) (sym sd : string)
    (vol p : T) (s : State) :
  let r := confirm_and_place env confirm digits sym
             (mkLocals (Some vol) (Some p) (Some sd)) s in
  let resp := fst (input env "Confirm order? [y/N]: " (world s)) in
  List.filter is_input (emitted r) =
    (if confirm then [EvInput "Confirm order? [y/N]: " resp] else []) /\
  (length (List.filter is_create_order (emitted r)) <= 1)%nat /\
  (confirm = true ->
   forall reply, resp = inr reply -> str_lower env (str_strip env reply) <> "y" ->
   outcome r = inr tt /\ List.filter is_create_order (emitted r) = [] /\
   In (EvPrint MsgOrderCancelled) (emitted r)) /\
  (confirm = true ->
   forall e, resp = inl e ->
   outcome r = inl e /\ List.filter is_create_order (emitted r) = []) /\
  (List.filter is_create_order (emitted r) <> [] -> confirm = true ->
   exists reply, resp = inr reply /\ str_lower env (str_strip env reply) = "y").
Proof.
  intros r resp. subst r resp.
  unfold confirm_and_place, read_local, call_input, call_create_order,
    log_info, log_error, print_line, bind, try_except, emit, ret, raise.
  simpl.
  destruct confirm; simpl.
  - destruct (input env "Confirm order? [y/N]: " (world s)) as [[e0 | reply] g]; simpl.
    { conjuncts; auto.
      - intros _ reply [=].
      - intros _ e [= <-]. auto.
      - intros H. now contradiction H. }
    destruct (String.eqb_spec (str_lower env (str_strip env reply)) "y") as [Hy | Hn];
      simpl.
    + destruct (client_create_order env _ g) as [[e | []] g']; simpl;
        [destruct e |]; simpl; conjuncts; auto;
        try (intros _ reply' [= <-] Hn; now contradiction Hn);
        try (intros _ e' [=]);
        intros _ _; exists reply; auto.
    + conjuncts; auto.
      * intros _ reply' [= <-] _. simpl. auto 6.
      * intros _ e [=].
      * intros H. now contradiction H.
  - destruct (client_create_order env _ (world s)) as [[e | []] g']; simpl;
      [destruct e |]; simpl; conjuncts; auto; discriminate.
Qed.

(** X8: the confirmation prompt of [place_opposite_order]. With
    [confirm_order] false no prompt is ever shown. Otherwise (true, or
    absent from the settings) an order is sent to the exchange only after
    the prompt was answered with a reply that [strip] and [lower] turn into
    y; any other reply ends the run normally with the cancellation printed
    and nothing sent; and when [input] raises, the run is left by that
    exception and nothing is sent. A run prompts at most once and sends at
    most one order. *)
Theorem confirmation_gates_placement (o : Order T) (settings : Settings T)
    (cfg : SymbolConfig T) (s : State) :
  let r := place_opposite_order env o settings cfg s in
  let confirm := default true (confirm_order (global settings)) in
  (confirm = false -> List.filter is_input (emitted r) = []) /\
  (confirm = true ->
   List.filter is_create_order (emitted r) <> [] ->
   exists reply,
     List.filter is_input (emitted r) =
       [EvInput "Confirm order? [y/N]: " (inr reply)] /\
     str_lower env (str_strip env reply) = "y") /\
  (forall prompt reply,
     In (EvInput prompt (inr reply)) (emitted r) ->
     str_lower env (str_strip env reply) <> "y" ->
     outcome r = inr tt /\ List.filter is_create_order (emitted r) = [] /\
     In (EvPrint MsgOrderCancelled) (emitted r)) /\
  (forall prompt e,
     In (EvInput prompt (inl e)) (emitted r) ->
     outcome r = inl e /\ List.filter is_create_order (emitted r) = []) /\
  (length (List.filter is_input (emitted r)) <= 1)%nat /\
  (length (List.filter is_create_order (emitted r)) <= 1)%nat.
Proof.
  intros r confirm.
  destruct (place_opposite_order_shape o settings cfg s)
    as [(_ & _ & Hr) | [(pre & ev & Hpre & Hskip & Hout & Hev) |
         (sd & vol & p & pre & s1 & _ & Hpre & _ & _ & _ & Hrest)]];
    fold r in Hr || fold r in Hout, Hev || fold r confirm in Hrest.
  - rewrite Hr. cbn [raise emitted List.filter length]. conjuncts; auto.
    + intros _ H. now contradiction H.
    + intros prompt reply [].
    + intros prompt e [].
  - destruct (skip_is_no_call T ev Hskip) as (Hc & Hi & _).
    assert (Hfi : List.filter is_input (emitted r) = []).
    { rewrite Hev, (klines_first_filter _ _ _ _ Hpre) by reflexivity.
      simpl. now rewrite Hi. }
    assert (Hfc : List.filter is_create_order (emitted r) = []).
    { rewrite Hev, (klines_first_filter _ _ _ _ Hpre) by reflexivity.
      simpl. now rewrite Hc. }
    assert (Hnone : forall prompt resp, ~ In (EvInput prompt resp) (emitted r)).
    { intros prompt resp Hin.
      assert (Hin' : In (EvInput prompt resp) (List.filter is_input (emitted r)))
        by (apply List.filter_In; auto).
      rewrite Hfi in Hin'. destruct Hin'. }
    rewrite Hfi, Hfc. cbn [length]. conjuncts; auto.
    + intros _ H. now contradiction H.
    + intros prompt reply Hin. now apply Hnone in Hin.
    + intros prompt e Hin. now apply Hnone in Hin.
  - cbv zeta in Hrest. destruct Hrest as (Hout & _ & Hev).
    destruct (confirm_and_place_prompt confirm (default 2%nat (price_precision cfg))
                (symbol o) sd vol p s1) as (Hfi & Hlen & Hno & Hraise & Hyes).
    cbv zeta in Hfi, Hlen, Hno, Hraise, Hyes.
    set (resp0 := fst (input env "Confirm order? [y/N]: " (world s1))) in *.
    set (rest := confirm_and_place env confirm (default 2%nat (price_precision cfg))
                   (symbol o) (mkLocals (Some vol) (Some p) (Some sd)) s1) in *.
    assert (Hfi' : List.filter is_input (emitted r) = List.filter is_input (emitted rest)).
    { rewrite Hev. now apply (klines_first_filter (symbol o)). }
    assert (Hfc' : List.filter is_create_order (emitted r)
                   = List.filter is_create_order (emitted rest)).
    { rewrite Hev. now apply (klines_first_filter (symbol o)). }
    assert (Hone : forall prompt resp, In (EvInput prompt resp) (emitted r) ->
              confirm = true /\ resp = resp0).
    { intros prompt resp Hin.
      assert (Hin' : In (EvInput prompt resp) (List.filter is_input (emitted r)))
        by (apply List.filter_In; auto).
      rewrite Hfi', Hfi in Hin'.
      destruct confirm; [| destruct Hin'].
      destruct Hin' as [[= _ <-] | []]. auto. }
    rewrite Hfi', Hfc', Hfi. conjuncts.
    + intros Hc. now rewrite Hc.
    + intros Hc Hsent. destruct (Hyes Hsent Hc) as (reply & Hreply & Hy).
      exists reply. rewrite Hc, Hreply. auto.
    + intros prompt reply Hin Hn. destruct (Hone _ _ Hin) as [Hc Hreply].
      destruct (Hno Hc reply (eq_sym Hreply) Hn) as (Ho & Hc' & Hp).
      rewrite Hout. conjuncts; auto.
      rewrite Hev. apply in_or_app. now right.
    + intros prompt e Hin. destruct (Hone _ _ Hin) as [Hc Hresp].
      destruct (Hraise Hc e (eq_sym Hresp)) as (Ho & Hc').
      rewrite Hout. auto.
    + destruct confirm; simpl; lia.
    + exact Hlen.
Qed.

(** ** What is sent to the exchange *)

Lemma confirm_and_place_request (confirm : bool) (digits : nat) (sym sd : string)
    (vol p : T) (s : State) (req : OrderRequest T) (resp : Exn + unit) :
  In (EvCreateOrder req resp)
     (emitted (confirm_and_place env confirm digits sym
                 (mkLocals (Some vol) (Some p) (Some sd)) s)) ->
  req = limit_order sym sd vol p digits.
Proof.
  destruct (confirm_and_place_cases T G env confirm digits sym sd vol p s)
    as (_ & asked & tail & Hasked & Hev & Hend).
  cbv zeta in Hev, Hend. rewrite Hev. intros [Hin | Hin]; [discriminate Hin |].
  apply in_app_or in Hin. destruct Hin as [Hin | Hin].
  - destruct Hasked as [-> | (reply & ->)]; simpl in Hin; intuition discriminate.
  - destruct Hend; simpl in Hin;
      repeat match goal with
             | H : _ \/ _ |- _ => destruct H
             | H : False |- _ => destruct H
             | H : EvCreateOrder _ _ = EvCreateOrder _ _ |- _ =>
                 injection H as <- _; reflexivity
             | H : _ = EvCreateOrder _ _ |- _ => discriminate H
             end.
Qed.

(** X9: whatever [place_opposite_order] sends to the exchange has passed
    the guards. The filled side is BUY or SELL; the order is a limit order,
    good till cancelled, for the symbol of the filled order, with the side,
    volume and price of the quote; its price, unrounded, is not below
    [price_min]; and for a BUY counter order it is not above [price_max]
    and, when the adaptive guard is on, the moving average was obtained and
    the price is not above the adaptive limit. *)
Theorem sent_orders_passed_the_guards (o : Order T) (settings : Settings T)
    (cfg : SymbolConfig T) (s : State) (req : OrderRequest T) (resp : Exn + unit) :
  In (EvCreateOrder req resp) (emitted (place_opposite_order env o settings cfg s)) ->
  let p := fs_value (req_price req) in
  let percent := default (of_Z 0) (adaptive_limit_percent cfg) in
  let period := default 0%Z (moving_average_period_min cfg) in
  (side o = SIDE_BUY \/ side o = SIDE_SELL) /\
  counter_quote o settings cfg = Some (req_side req, req_quantity req, p) /\
  req_symbol req = symbol o /\ req_type req = ORDER_TYPE_LIMIT /\
  req_timeInForce req = TIME_IN_FORCE_GTC /\
  fs_digits (req_price req) = default 2%nat (price_precision cfg) /\
  (p <! price_min cfg) = false /\
  (side o = SIDE_SELL ->
   (p >! price_max cfg) = false /\
   ((percent >! of_Z 0) && (0 <? period)%Z = true ->
    exists moving_avg,
      outcome (get_moving_average env (symbol o) period s) = inr moving_avg /\
      (p >! adaptive_limit_of moving_avg percent) = false)).
Proof.
  intros Hin p percent period.
  destruct (place_opposite_order_shape o settings cfg s)
    as [(_ & _ & Hr) | [(pre & ev & Hpre & Hskip & Hout & Hev) |
         (sd & vol & q & pre & s1 & Hq & Hpre & _ & Hmin & Hsell & Hrest)]].
  - rewrite Hr in Hin. destruct Hin.
  - exfalso. rewrite Hev in Hin.
    apply (klines_first_In _ _ _ _ Hpre) in Hin; [| reflexivity].
    destruct Hin as [Heq | []]. subst ev.
    destruct (skip_is_no_call T _ Hskip) as (Hc & _). discriminate Hc.
  - cbv zeta in Hrest. destruct Hrest as (_ & _ & Hev). rewrite Hev in Hin.
    apply (klines_first_In _ _ _ _ Hpre) in Hin; [| reflexivity].
    apply confirm_and_place_request in Hin. subst p. rewrite Hin. simpl.
    conjuncts; try reflexivity; try assumption.
    unfold counter_quote in Hq.
    destruct (String.eqb_spec (side o) SIDE_BUY); [now left |].
    destruct (String.eqb_spec (side o) SIDE_SELL); [now right | discriminate Hq].
Qed.

(** ** One fill *)

(** X10: [mark_order_filled] comes after the pricing engine and only when
    the engine returned. The handling of a fill ends as the engine ends. If
    the engine raised, the ledger is as it was, so the order is still OPEN
    and is found again in the next cycle. If it returned, for whatever
    reason, the row of the order has status FILLED and its other columns
    unchanged. No other row is ever touched. *)
Theorem handle_fill_marks_after_the_engine (settings : Settings T)
    (cfg : SymbolConfig T) (sym : string) (o : Order T) (s : State) :
  let placed := place_opposite_order env o settings cfg s in
  let r := handle_fill env settings cfg sym o s in
  outcome r = outcome placed /\
  (forall e, outcome placed = inl e -> ledger (final r) = ledger s) /\
  (outcome placed = inr tt ->
   forall row, ledger s !! order_id o = Some row ->
     ledger (final r) !! order_id o = Some (with_status "FILLED" row)) /\
  (forall id, id <> order_id o -> ledger (final r) !! id = ledger s !! id).
Proof.
  intros placed r. subst r. rewrite handle_fill_run. cbv zeta. fold placed.
  pose proof (place_opposite_order_ledger T G env o settings cfg s) as Hl.
  fold placed in Hl.
  destruct (outcome placed) as [e | []] eqn:Hout; cbn [outcome final]; conjuncts.
  - reflexivity.
  - intros e' _. exact Hl.
  - discriminate.
  - intros id _. now rewrite Hl.
  - reflexivity.
  - discriminate.
  - intros _ row Hrow. rewrite mark_order_filled_lookup, decide_True by reflexivity.
    now rewrite Hl, Hrow.
  - intros id Hne. rewrite mark_order_filled_lookup, decide_False by exact Hne.
    now rewrite Hl.
Qed.

(** X11: a fill whose counter order was skipped by a guard, or declined at
    the prompt, is marked FILLED all the same: its handling returns
    normally, nothing was sent to the exchange, and the row is FILLED. *)
Theorem skipped_or_declined_fill_is_marked (settings : Settings T)
    (cfg : SymbolConfig T) (sym : string) (o : Order T) (s : State)
    (ev : Event T) (row : Row T) :
  ledger s !! order_id o = Some row ->
  In ev (emitted (place_opposite_order env o settings cfg s)) ->
  is_skip ev = true \/ ev = EvPrint MsgOrderCancelled ->
  let r := handle_fill env settings cfg sym o s in
  outcome r = inr tt /\
  List.filter is_create_order (emitted r) = [] /\
  ledger (final r) !! order_id o = Some (with_status "FILLED" row).
Proof.
  intros Hrow Hin Hkind r.
  set (placed := place_opposite_order env o settings cfg s) in *.
  assert (Hplaced : outcome placed = inr tt /\
                    List.filter is_create_order (emitted placed) = []).
  { assert (Hk : is_get_klines ev = false /\ is_input ev = false /\
                 is_ready_to_place ev = false /\ is_create_order ev = false).
    { destruct Hkind as [Hskip | ->]; [| auto].
      destruct ev as [m | m | m | | | | | | |]; try discriminate Hskip;
        destruct m; try discriminate Hskip; auto. }
    destruct Hk as (Hk1 & Hk2 & Hk3 & Hk4).
    destruct (place_opposite_order_shape o settings cfg s)
      as [(_ & _ & Hr) | [(pre & ev0 & Hpre & Hskip & Hout & Hev) |
           (sd & vol & p & pre & s1 & _ & Hpre & _ & _ & _ & Hrest)]];
      fold placed in Hr || fold placed in Hout, Hev || fold placed in Hrest.
    - rewrite Hr in Hin. destruct Hin.
    - split; [exact Hout |].
      rewrite Hev, (klines_first_filter _ _ _ _ Hpre) by reflexivity. simpl.
      now destruct (skip_is_no_call T ev0 Hskip) as (-> & _).
    - cbv zeta in Hrest. destruct Hrest as (Hout & _ & Hev).
      rewrite Hev in Hin |- *. rewrite Hout.
      apply (klines_first_In _ _ _ _ Hpre) in Hin; [| exact Hk1].
      rewrite (klines_first_filter _ _ _ _ Hpre) by reflexivity.
      destruct (confirm_and_place_cases T G env
                  (default true (confirm_order (global settings)))
                  (default 2%nat (price_precision cfg)) (symbol o) sd vol p s1)
        as (_ & asked & tail & Hasked & Hev' & Hend).
      cbv zeta in Hev', Hend. rewrite Hev' in Hin |- *.
      destruct Hin as [<- | Hin]; [discriminate Hk3 |].
      apply in_app_or in Hin. destruct Hin as [Hin | Hin].
      { exfalso. destruct Hasked as [-> | (reply & ->)]; simpl in Hin;
          [destruct Hin | destruct Hin as [<- | []]; discriminate Hk2]. }
      destruct Hend as [| | message | e Hother | e]; simpl in Hin.
      + split; [reflexivity |].
        destruct Hasked as [-> | (reply & ->)]; reflexivity.
      + exfalso. destruct Hin as [<- | [<- | []]];
          [discriminate Hk4 | destruct Hkind as [H | H]; discriminate H].
      + exfalso. destruct Hin as [<- | [<- | []]];
          [discriminate Hk4 | destruct Hkind as [H | H]; discriminate H].
      + exfalso. destruct Hin as [<- | []]. discriminate Hk4.
      + exfalso. destruct Hin as [<- | []]. discriminate Hk2. }
  destruct Hplaced as [Hout Hnone]. subst r.
  rewrite handle_fill_run. cbv zeta. fold placed. rewrite Hout.
  cbn [outcome final emitted List.filter is_create_order]. conjuncts.
  - reflexivity.
  - exact Hnone.
  - rewrite mark_order_filled_lookup, decide_True by reflexivity.
    subst placed. now rewrite place_opposite_order_ledger, Hrow.
Qed.

(** ** The reconciliation of a symbol *)

Lemma handle_fill_lookup (settings : Settings T) (cfg : SymbolConfig T) (sym : string)
    (o : Order T) (s : State) (id : Z) :
  ledger (final (handle_fill env settings cfg sym o s)) !! id = ledger s !! id \/
  (id = order_id o /\
   ledger (final (handle_fill env settings cfg sym o s)) !! id =
   with_status "FILLED" <$> ledger s !! id).
Proof.
  rewrite handle_fill_run. cbv zeta.
  pose proof (place_opposite_order_ledger T G env o settings cfg s) as Hl.
  destruct (outcome (place_opposite_order env o settings cfg s)); cbn [final].
  - left. now rewrite Hl.
  - rewrite mark_order_filled_lookup, Hl.
    destruct (decide (id = order_id o)); auto.
Qed.

(** The handling of fills changes a row in one way only: to FILLED. *)
Lemma process_fills_lookup (settings : Settings T) (cfg : SymbolConfig T)
    (sym : string) (ids : gset Z) (orders : list (Order T)) (s : State) (id : Z) :
  ledger (final (process_fills env settings cfg sym ids orders s)) !! id
  = ledger s !! id \/
  ((id ∉ ids) /\
   ledger (final (process_fills env settings cfg sym ids orders s)) !! id
   = with_status "FILLED" <$> ledger s !! id).
Proof.
  revert s. induction orders as [| o orders IH]; intros s; [now left |].
  unfold process_fills in *. cbn [for_each]. unfold bind.
  destruct (decide (order_id o ∈ ids)) as [Hopen | Hgone].
  - cbn [outcome final ret]. apply IH.
  - pose proof (handle_fill_lookup settings cfg sym o s id) as Hstep.
    destruct (outcome (handle_fill env settings cfg sym o s)); cbn [final].
    + destruct Hstep as [Hsame | [-> Hfilled]]; auto.
    + specialize (IH (final (handle_fill env settings cfg sym o s))).
      destruct IH as [H | [Hid H]], Hstep as [Hsame | [Heq Hfilled]].
      * left. congruence.
      * subst id. right. split; [exact Hgone | congruence].
      * right. split; [exact Hid | congruence].
      * right. split; [exact Hid |]. rewrite H, Hfilled.
        now destruct (ledger s !! id).
Qed.

(** The reconciliation once both fetches have returned, softly or not. *)
Lemma reconcile_symbol_run (settings : Settings T) (cfg : SymbolConfig T)
    (sym : string) (s : State) (current_price : option T)
    (live : list (LiveOrder T)) (existing : list (Order T)) :
  let priced := get_current_price env sym s in
  let fetched := get_open_orders env sym (final priced) in
  let saved := save_or_update_orders env live (final fetched) in
  let fills := process_fills env settings cfg sym
                 (list_to_set (map (@o_orderId T) live)) existing (final saved) in
  outcome priced = inr current_price ->
  outcome fetched = inr live ->
  outcome (get_filled_orders [sym] (final saved)) = inr existing ->
  reconcile_symbol env settings cfg sym s =
    mkResult
      (match outcome fills with
       | inl e => inl e
       | inr _ => inr (current_price, live)
       end)
      (final fills)
      (emitted priced ++ emitted fetched ++ emitted fills).
Proof.
  intros priced fetched saved fills Hprice Hfetch Hex.
  unfold reconcile_symbol.
  rewrite (bind_ok T G _ _ _ _ _ current_price Hprice). fold priced.
  rewrite (bind_ok T G _ _ (get_open_orders env sym) _ (final priced) live Hfetch).
  fold fetched. cbn [outcome final emitted].
  destruct (save_or_update_orders_run T G env live (final fetched)) as (Hso & Hse & _).
  rewrite (bind_ok T G _ _ (save_or_update_orders env live) _ (final fetched) tt Hso).
  fold saved. cbn [outcome final emitted]. fold saved in Hse. rewrite Hse.
  destruct (get_filled_orders_spec T G [sym] (final saved)) as (l & Hrun & _).
  rewrite Hrun in Hex. injection Hex as ->.
  unfold bind. rewrite Hrun. cbn [outcome final emitted]. fold fills.
  destruct (outcome fills); cbn [outcome final emitted ret app];
    rewrite ?app_nil_r; reflexivity.
Qed.

Lemma get_open_orders_ledger (sym : string) (s : State) :
  ledger (final (get_open_orders env sym s)) = ledger s.
Proof.
  unfold get_open_orders, try_except, bind, call_get_open_orders, log_error, emit.
  destruct (client_get_open_orders env sym (world s)) as [[e | live] g]; simpl;
    [destruct e |]; reflexivity.
Qed.

(** X12: an order the exchange still lists is not taken for filled. Once
    the price and the open orders are fetched, every order id in the list
    of open orders has status OPEN when the reconciliation ends, whether
    the handling of the other orders came to its end or raised. *)
Theorem live_orders_stay_open (settings : Settings T) (cfg : SymbolConfig T)
    (sym : string) (s : State) (current_price : option T)
    (live : list (LiveOrder T)) (id : Z) :
  outcome (get_current_price env sym s) = inr current_price ->
  outcome (get_open_orders env sym (final (get_current_price env sym s))) = inr live ->
  In id (map (@o_orderId T) live) ->
  status_of id (final (reconcile_symbol env settings cfg sym s)) = Some "OPEN".
Proof.
  intros Hprice Hfetch Hin.
  set (fetched := get_open_orders env sym (final (get_current_price env sym s))).
  set (saved := save_or_update_orders env live (final fetched)).
  destruct (get_filled_orders_spec T G [sym] (final saved)) as (existing & Hrun & _).
  assert (Hex : outcome (get_filled_orders [sym] (final saved)) = inr existing)
    by now rewrite Hrun.
  rewrite (reconcile_symbol_run settings cfg sym s current_price live existing
             Hprice Hfetch Hex).
  cbn [final]. fold fetched saved.
  destruct (save_or_update_orders_run T G env live (final fetched)) as (_ & _ & Hopen & _).
  specialize (Hopen id Hin). fold saved in Hopen.
  destruct (process_fills_lookup settings cfg sym
              (list_to_set (map (@o_orderId T) live)) existing (final saved) id)
    as [Hsame | [Hnot _]].
  - unfold status_of in *. now rewrite Hsame.
  - exfalso. apply Hnot. apply elem_of_list_to_set, list_elem_of_In. exact Hin.
Qed.

(** X13: fill detection. Once the price and the open orders are fetched
    and the handling of fills has come to its end, the reconciliation
    returns the price and the list as fetched; every order that was OPEN in
    the ledger for the symbol and is not in the list has been announced as
    executed and is FILLED; and the orders the ledger still holds OPEN for
    the symbol are all in the list. *)
Theorem vanished_orders_are_filled (settings : Settings T) (cfg : SymbolConfig T)
    (sym : string) (s : State) (current_price : option T)
    (live : list (LiveOrder T)) (fetched : option T * list (LiveOrder T)) :
  outcome (get_current_price env sym s) = inr current_price ->
  outcome (get_open_orders env sym (final (get_current_price env sym s))) = inr live ->
  outcome (reconcile_symbol env settings cfg sym s) = inr fetched ->
  let r := reconcile_symbol env settings cfg sym s in
  fetched = (current_price, live) /\
  (forall id row,
     ledger s !! id = Some row -> r_status row = "OPEN" -> r_symbol row = sym ->
     ~ In id (map (@o_orderId T) live) ->
     In (EvLogInfo (MsgOrderExecuted (r_side row) sym (r_volume row) (r_price row)))
        (emitted r) /\
     status_of id (final r) = Some "FILLED") /\
  (forall listed o,
     outcome (get_filled_orders [sym] (final r)) = inr listed -> In o listed ->
     In (order_id o) (map (@o_orderId T) live)).
Proof.
  intros Hprice Hfetch Hdone r. subst r.
  set (fetched' := get_open_orders env sym (final (get_current_price env sym s))) in *.
  set (saved := save_or_update_orders env live (final fetched')).
  set (ids := list_to_set (map (@o_orderId T) live) : gset Z).
  destruct (get_filled_orders_spec T G [sym] (final saved)) as (existing & Hrun & Hspec).
  assert (Hex : outcome (get_filled_orders [sym] (final saved)) = inr existing)
    by now rewrite Hrun.
  rewrite (reconcile_symbol_run settings cfg sym s current_price live existing
             Hprice Hfetch Hex) in *.
  fold fetched' saved ids in Hdone |- *. cbn [outcome final emitted] in *.
  set (fills := process_fills env settings cfg sym ids existing (final saved)) in *.
  assert (Hfills : outcome fills = inr tt).
  { destruct (outcome fills) as [e | []]; [discriminate Hdone | reflexivity]. }
  rewrite Hfills in Hdone. injection Hdone as <-.
  assert (Hledger : ledger (final fetched') = ledger s).
  { subst fetched'. now rewrite get_open_orders_ledger, get_current_price_ledger. }
  assert (Hids : forall id, id ∈ ids <-> In id (map (@o_orderId T) live)).
  { intros id. subst ids. now rewrite elem_of_list_to_set, list_elem_of_In. }
  destruct (save_or_update_orders_run T G env live (final fetched')) as (_ & _ & _ & Hsame).
  fold saved in Hsame.
  conjuncts; [reflexivity | |].
  - intros id row Hrow Hst Hsym Hgone.
    assert (Hin : In (load id row) existing).
    { apply Hspec. simpl. rewrite (Hsame id Hgone), Hledger, Hrow.
      rewrite Hst, Hsym. destruct row; simpl in *. subst. auto. }
    destruct (process_fills_marks T G env settings cfg sym ids existing (final saved)
                (load id row) Hfills Hin) as [Hev Hfilled].
    + rewrite Hids. exact Hgone.
    + simpl. rewrite (Hsame id Hgone), Hledger, Hrow. eauto.
    + split; [| exact Hfilled].
      apply in_or_app. right. apply in_or_app. right. exact Hev.
  - intros listed o Hlisted Hin.
    destruct (get_filled_orders_spec T G [sym] (final fills)) as (l & Hrun' & Hspec').
    rewrite Hrun' in Hlisted. injection Hlisted as ->.
    apply Hspec' in Hin. destruct Hin as (Hrow & Hst & Hsym).
    destruct (in_dec Z.eq_dec (order_id o) (map (@o_orderId T) live)) as [Hyes | Hno];
      [exact Hyes | exfalso].
    assert (Hnot : order_id o ∉ ids) by now rewrite Hids.
    assert (Hopen : status_of (order_id o) (final fills) = Some "OPEN").
    { unfold status_of. rewrite Hrow. simpl. now rewrite Hst. }
    destruct (process_fills_lookup settings cfg sym ids existing (final saved) (order_id o))
      as [Hsame' | [_ Hfilled]]; fold fills in Hsame' || fold fills in Hfilled.
    + assert (Hin : In o existing).
      { apply Hspec. rewrite <- Hsame', Hrow. auto. }
      destruct (process_fills_marks T G env settings cfg sym ids existing (final saved)
                  o Hfills Hin Hnot) as [_ Hf].
      * rewrite <- Hsame', Hrow. eauto.
      * fold fills in Hf. congruence.
    + unfold status_of in Hopen. rewrite Hfilled in Hopen.
      destruct (ledger (final saved) !! order_id o); discriminate Hopen.
Qed.

(** X20: the only exceptions that leave [place_opposite_order]. A run
    that raises is of one of three kinds. It has met a side that is
    neither BUY nor SELL, and raises [UnboundLocalError] at line 104 before
    anything was asked of anyone. Or its last act was the call of
    [create_order], which raised an exception that is no gateway error. Or
    the prompt was on and its last act was the call of [input], which
    raised, before any order was sent. In all three the ledger is as it
    was. A failure of the moving average never leaves the function, nor
    does a gateway error. *)
Theorem place_opposite_order_raises_only (o : Order T) (settings : Settings T)
    (cfg : SymbolConfig T) (s : State) (e : Exn) :
  outcome (place_opposite_order env o settings cfg s) = inl e ->
  let r := place_opposite_order env o settings cfg s in
  ledger (final r) = ledger s /\
  ((side o <> SIDE_BUY /\ side o <> SIDE_SELL /\
    e = UnboundLocalError "price" /\ emitted r = []) \/
   ((side o = SIDE_BUY \/ side o = SIDE_SELL) /\
    exists before,
      List.filter is_create_order before = [] /\
      ((exists req,
          emitted r = before ++ [EvCreateOrder req (inl e)] /\
          List.filter is_input before = List.filter is_input (emitted r) /\
          forall message, e <> BinanceAPIException message) \/
       (default true (confirm_order (global settings)) = true /\
        emitted r = before ++ [EvInput "Confirm order? [y/N]: " (inl e)] /\
        List.filter is_input before = [])))).
Proof.
  intros Hout r. subst r.
  split; [apply place_opposite_order_ledger |].
  destruct (place_opposite_order_shape o settings cfg s)
    as [(Hb & Hs & Hr) | [(pre & ev & _ & _ & Hok & _) |
         (sd & vol & p & pre & s1 & Hq & Hpre & _ & _ & _ & Hrest)]].
  { left. rewrite Hr in *. injection Hout as <-. now conjuncts. }
  { rewrite Hok in Hout. discriminate. }
  right. cbv zeta in Hrest. destruct Hrest as (Hsame & _ & Hev).
  assert (Hside : side o = SIDE_BUY \/ side o = SIDE_SELL).
  { unfold counter_quote in Hq.
    destruct (String.eqb (side o) SIDE_BUY) eqn:Hb;
      [left; now apply String.eqb_eq |].
    destruct (String.eqb (side o) SIDE_SELL) eqn:Hs; [| discriminate].
    right; now apply String.eqb_eq. }
  split; [exact Hside |].
  assert (Hpc : List.filter is_create_order pre = []).
  { destruct Hpre as [-> | (limit & resp & ->)]; reflexivity. }
  assert (Hpi : List.filter is_input pre = []).
  { destruct Hpre as [-> | (limit & resp & ->)]; reflexivity. }
  destruct (confirm_and_place_cases T G env
              (default true (confirm_order (global settings)))
              (default 2%nat (price_precision cfg)) (symbol o) sd vol p s1)
    as (_ & asked & tail & Hasked & Hev' & Hend).
  destruct (confirm_and_place_prompt
              (default true (confirm_order (global settings)))
              (default 2%nat (price_precision cfg)) (symbol o) sd vol p s1)
    as (Hfi & _).
  cbv zeta in Hev', Hend, Hfi. rewrite <- Hsame, Hout in Hend.
  rewrite Hev' in Hev, Hfi.
  assert (Hac : List.filter is_create_order asked = []).
  { destruct Hasked as [-> | (reply & ->)]; reflexivity. }
  inversion Hend as [| | | e' Hno | e']; subst.
  - exists (pre ++ EvLogInfo (MsgReadyToPlace sd (symbol o) vol
                     (mkFixedStr p (default 2%nat (price_precision cfg)))) :: asked).
    split.
    { rewrite List.filter_app, Hpc. cbn [List.filter is_create_order app]. exact Hac. }
    left. eexists. conjuncts; [| | exact Hno].
    + rewrite Hev, <- app_assoc. reflexivity.
    + rewrite Hev, !List.filter_app. cbn [List.filter is_input app].
      rewrite List.filter_app. cbn [List.filter is_input]. now rewrite app_nil_r.
  - cbn [List.filter is_input] in Hfi. rewrite List.filter_app in Hfi.
    cbn [List.filter is_input] in Hfi.
    destruct (default true (confirm_order (global settings))) eqn:Hon.
    2:{ destruct (List.filter is_input asked); discriminate Hfi. }
    assert (Hnone : asked = []).
    { destruct Hasked as [-> | (reply & ->)]; [reflexivity | discriminate Hfi]. }
    subst asked.
    exists (pre ++ [EvLogInfo (MsgReadyToPlace sd (symbol o) vol
                      (mkFixedStr p (default 2%nat (price_precision cfg))))]).
    split.
    { rewrite List.filter_app, Hpc. reflexivity. }
    right. conjuncts; [reflexivity | |].
    + rewrite Hev, <- app_assoc. reflexivity.
    + rewrite List.filter_app, Hpi. reflexivity.
Qed.

(** ** The events of a cycle *)

Lemma Forall_emitted_bind (A B : Type) (P : Event T -> Prop) (m : M T G A)
    (k : A -> M T G B) (s : State) :
  Forall P (emitted (m s)) ->
  (forall a, outcome (m s) = inr a -> Forall P (emitted (k a (final (m s))))) ->
  Forall P (emitted ((x <- m ;; k x) s)).
Proof.
  intros Hm Hk. unfold bind.
  destruct (outcome (m s)) as [e | a] eqn:Hout; cbn [emitted]; [exact Hm |].
  apply Forall_app. split; [exact Hm | now apply Hk].
Qed.

Lemma Forall_emitted_for_each (A : Type) (P : Event T -> Prop) (l : list A)
    (body : A -> M T G unit) :
  (forall x s, In x l -> Forall P (emitted (body x s))) ->
  forall s, Forall P (emitted (for_each l body s)).
Proof.
  induction l as [| x l IH]; intros Hbody s; [constructor |].
  cbn [for_each]. apply Forall_emitted_bind.
  - apply Hbody. now left.
  - intros _ _. apply IH. intros y s' Hin. apply Hbody. now right.
Qed.

Lemma about_symbol_log (sym : string) (ev : Event T) :
  is_call ev = false -> is_sleep ev = false -> is_clear_console ev = false ->
  about_symbol sym ev.
Proof.
  intros Hc Hs Hcl. unfold about_symbol. conjuncts; try assumption.
  intros sy Hsy. destruct ev; simpl in *; discriminate.
Qed.

(** The pricing engine speaks to the exchange about the symbol of the
    filled order only. *)
Lemma place_opposite_order_events (o : Order T) (settings : Settings T)
    (cfg : SymbolConfig T) (s : State) :
  Forall (about_symbol (symbol o)) (emitted (place_opposite_order env o settings cfg s)).
Proof.
  destruct (counter_quote_cases T o settings cfg) as [(sd & vol & p & Hq) | [Hb Hs]].
  2:{ rewrite place_after_other by assumption. constructor. }
  destruct (place_opposite_order_cases T G env o settings cfg s sd vol p Hq)
    as (_ & pre & Hpre & Hcases).
  cbv zeta in Hcases.
  assert (Hp : Forall (about_symbol (symbol o)) pre).
  { destruct Hpre as [-> | (limit & resp & ->)]; repeat constructor.
    simpl. now intros sy [= <-]. }
  destruct Hcases as [(ev & Hskip & _ & ->) | (asked & tail & Hasked & -> & Hend)].
  - apply Forall_app. split; [exact Hp |]. repeat constructor;
      destruct ev as [m | m | m | | | | | | |]; try discriminate Hskip;
      destruct m; try discriminate Hskip; try reflexivity;
      intros sy; discriminate.
  - apply Forall_app. split; [exact Hp |].
    constructor; [now apply about_symbol_log |].
    apply Forall_app. split.
    + destruct Hasked as [-> | (reply & ->)]; repeat constructor.
      intros sy; discriminate.
    + destruct Hend; repeat constructor; simpl;
        try (intros sy; discriminate); now intros sy [= <-].
Qed.

Lemma process_fills_events (settings : Settings T) (cfg : SymbolConfig T)
    (sym : string) (ids : gset Z) (orders : list (Order T)) :
  (forall o, In o orders -> symbol o = sym) ->
  forall s, Forall (about_symbol sym)
              (emitted (process_fills env settings cfg sym ids orders s)).
Proof.
  intros Hsym. unfold process_fills. apply Forall_emitted_for_each.
  intros o s Hin. destruct (decide (order_id o ∈ ids)); [constructor |].
  rewrite handle_fill_run. cbv zeta.
  assert (H : Forall (about_symbol sym)
                (EvLogInfo (MsgOrderExecuted (side o) sym (volume o) (price o))
                 :: emitted (place_opposite_order env o settings cfg s))).
  { constructor; [now apply about_symbol_log |].
    rewrite <- (Hsym o Hin). apply place_opposite_order_events. }
  destruct (outcome (place_opposite_order env o settings cfg s)); exact H.
Qed.

Lemma get_open_orders_events (sym : string) (s : State) :
  Forall (about_symbol sym) (emitted (get_open_orders env sym s)).
Proof.
  unfold get_open_orders, try_except, bind, call_get_open_orders, log_error, emit.
  destruct (client_get_open_orders env sym (world s)) as [[e | live] g]; simpl;
    [destruct e |]; repeat constructor; simpl;
    try (intros sy; discriminate); now intros sy [= <-].
Qed.

Lemma get_current_price_events (sym : string) (s : State) :
  Forall (about_symbol sym) (emitted (get_current_price env sym s)).
Proof.
  unfold get_current_price, try_except, bind, call_get_symbol_ticker, log_error, emit.
  destruct (client_get_symbol_ticker env sym (world s)) as [[e | p] g]; simpl;
    [destruct e |]; repeat constructor; simpl;
    try (intros sy; discriminate); now intros sy [= <-].
Qed.

(** Everything the cycle of a symbol does with the exchange is about that
    symbol; it neither clears the console nor sleeps. *)
Lemma symbol_cycle_events (settings : Settings T) (sym : string)
    (cfg : SymbolConfig T) (s : State) :
  Forall (about_symbol sym) (emitted (symbol_cycle env settings sym cfg s)).
Proof.
  unfold symbol_cycle. apply Forall_emitted_bind.
  - unfold reconcile_symbol. apply Forall_emitted_bind.
    { apply get_current_price_events. }
    intros cp _. apply Forall_emitted_bind.
    { apply get_open_orders_events. }
    intros live _. apply Forall_emitted_bind.
    { destruct (save_or_update_orders_run T G env live
                  (final (get_open_orders env sym (final (get_current_price env sym s)))))
        as (_ & -> & _). constructor. }
    intros _ _. apply Forall_emitted_bind; [constructor |].
    intros existing Hex. apply Forall_emitted_bind; [| intros; constructor].
    apply process_fills_events. intros o Hin.
    destruct (get_filled_orders_spec T G [sym]
                (final (save_or_update_orders env live
                   (final (get_open_orders env sym
                      (final (get_current_price env sym s)))))))
      as (l & Hrun & Hspec).
    rewrite Hrun in Hex. injection Hex as ->.
    apply Hspec in Hin. destruct Hin as (_ & _ & [Hs | []]). now symmetry.
  - intros fetched _. unfold render_symbol, call_clock.
    apply Forall_emitted_bind.
    { destruct (time_clock env _) as [now g]. constructor. }
    intros now _. apply Forall_emitted_bind.
    { destruct (fst fetched); repeat constructor. intros sy; discriminate. }
    intros _ _. apply Forall_emitted_bind.
    { apply Forall_emitted_for_each. intros order s' _.
      repeat constructor. intros sy; discriminate. }
    intros _ _. repeat constructor. intros sy; discriminate.
Qed.

(** ** The loop of [main] *)

Lemma lookup_symbol_In (sym : string) (l : list (string * SymbolConfig T)) :
  In sym (map fst l) -> exists cfg, lookup_symbol sym l = Some cfg.
Proof.
  induction l as [| [k cfg] l IH]; intros Hin; [destruct Hin |].
  cbn [lookup_symbol]. destruct (String.eqb k sym) eqn:Hk; [eauto |].
  destruct Hin as [Heq | Hin]; [| now apply IH].
  simpl in Heq. subst k. now rewrite String.eqb_refl in Hk.
Qed.

Lemma active_symbol_In (settings : Settings T) (sym : string) :
  In sym (map fst (List.filter (fun entry => default false (is_active (snd entry)))
                     (symbols settings))) ->
  exists cfg, In (sym, cfg) (symbols settings) /\ default false (is_active cfg) = true.
Proof.
  intros Hin. apply in_map_iff in Hin. destruct Hin as ([k cfg] & Hk & Hin).
  simpl in Hk. subst k. apply filter_In in Hin. destruct Hin as [Hin Hact].
  now exists cfg.
Qed.

Lemma poll_cycle_run (settings : Settings T) (active_symbols : list string)
    (poll_interval : T) (s : State) :
  let symbols_done :=
    for_each active_symbols (fun sym =>
      match lookup_symbol sym (symbols settings) with
      | Some cfg => symbol_cycle env settings sym cfg
      | None => raise (KeyError sym)
      end) s in
  poll_cycle env settings active_symbols poll_interval s =
    match outcome symbols_done with
    | inl e => mkResult (inl e) (final symbols_done) (EvClearConsole :: emitted symbols_done)
    | inr _ =>
        mkResult (inr tt) (final symbols_done)
          (EvClearConsole :: emitted symbols_done ++ [EvSleep poll_interval])
    end.
Proof.
  intros symbols_done. unfold poll_cycle, bind, emit. cbn [outcome final emitted].
  fold symbols_done. destruct (outcome symbols_done); reflexivity.
Qed.

Lemma symbols_loop_events (settings : Settings T) (active_symbols : list string)
    (s : State) :
  Forall (fun ev => exists sym, In sym active_symbols /\ about_symbol sym ev)
    (emitted (for_each active_symbols (fun sym =>
                match lookup_symbol sym (symbols settings) with
                | Some cfg => symbol_cycle env settings sym cfg
                | None => raise (KeyError sym)
                end) s)).
Proof.
  apply Forall_emitted_for_each. intros sym s' Hin.
  destruct (lookup_symbol sym (symbols settings)) as [cfg |]; [| constructor].
  eapply List.Forall_impl; [| apply symbol_cycle_events].
  intros ev Hev. now exists sym.
Qed.

Lemma filter_none (A : Type) (f : A -> bool) (l : list A) :
  Forall (fun x => f x = false) l -> List.filter f l = [].
Proof.
  induction 1 as [| x l Hx _ IH]; [reflexivity |]. simpl. now rewrite Hx.
Qed.

(** X14: [main] asks the exchange about active symbols only. Every call
    of a run of [main] (candles, open orders, ticker, order creation) names
    a symbol that the settings mark as active. *)
Theorem main_calls_name_active_symbols (settings : Settings T) (turns : nat)
    (s : State) :
  Forall (fun ev => forall sym, event_symbol ev = Some sym ->
            exists cfg, In (sym, cfg) (symbols settings) /\
              default false (is_active cfg) = true)
    (emitted (main env settings turns s)).
Proof.
  unfold main.
  pose proof (active_symbol_In settings) as Hactive.
  destruct (map fst _) as [| sym0 rest] eqn:Hact.
  { repeat constructor. intros sym; discriminate. }
  apply Forall_emitted_for_each. intros _ s' _.
  rewrite poll_cycle_run. cbv zeta.
  pose proof (symbols_loop_events settings (sym0 :: rest) s') as Hloop.
  assert (Hin : Forall (fun ev => forall sym, event_symbol ev = Some sym ->
                  exists cfg, In (sym, cfg) (symbols settings) /\
              default false (is_active cfg) = true)
                  (emitted (for_each (sym0 :: rest) (fun sym =>
                     match lookup_symbol sym (symbols settings) with
                     | Some cfg => symbol_cycle env settings sym cfg
                     | None => raise (KeyError sym)
                     end) s'))).
  { eapply List.Forall_impl; [| exact Hloop].
    intros ev (sym & Hsym & _ & _ & Hev) sy Hsy.
    apply Hev in Hsy. subst sy. now apply Hactive. }
  destruct (outcome _); cbn [emitted].
  - constructor; [intros sym; discriminate | exact Hin].
  - constructor; [intros sym; discriminate |].
    apply Forall_app. split; [exact Hin |]. repeat constructor. intros sym; discriminate.
Qed.

(** X15: one console clearing and one sleep per turn. With an active
    symbol, a run of [main] over [turns] turns that returns has cleared the
    console and slept [turns] times each; a run that an exception ends has
    slept fewer than [turns] times and cleared the console once more than
    it slept: the turn that raised was the last one started. *)
Theorem main_turns (settings : Settings T) (turns : nat) (s : State) :
  List.filter (fun entry => default false (is_active (snd entry))) (symbols settings) <> [] ->
  let r := main env settings turns s in
  let sleeps := length (List.filter is_sleep (emitted r)) in
  let clears := length (List.filter is_clear_console (emitted r)) in
  match outcome r with
  | inr _ => sleeps = turns /\ clears = turns
  | inl _ => (sleeps < turns)%nat /\ clears = S sleeps
  end.
Proof.
  intros Hact. cbv zeta. unfold main.
  destruct (List.filter _ (symbols settings)) as [| entry entries]; [now destruct Hact |].
  clear Hact. cbn [map]. generalize (fst entry :: map fst entries) as active.
  intros active. revert s.
  induction turns as [| n IH]; intros s; [split; reflexivity |].
  cbn [repeat for_each]. unfold bind at 1 2 3 4 5 6. rewrite poll_cycle_run. cbv zeta.
  pose proof (symbols_loop_events settings active s) as Hloop.
  set (done := for_each active _ s) in *.
  assert (Hs : List.filter is_sleep (emitted done) = []).
  { apply filter_none. eapply List.Forall_impl; [| exact Hloop].
    now intros ev (sym & _ & Hsl & _). }
  assert (Hc : List.filter is_clear_console (emitted done) = []).
  { apply filter_none. eapply List.Forall_impl; [| exact Hloop].
    now intros ev (sym & _ & _ & Hcl & _). }
  destruct (outcome done); cbn [outcome final emitted].
  - cbn [List.filter is_sleep is_clear_console]. rewrite Hs, Hc. simpl. lia.
  - specialize (IH (final done)).
    rewrite !List.filter_app. cbn [List.filter is_sleep is_clear_console app].
    rewrite !List.filter_app, Hs, Hc. cbn [List.filter is_sleep is_clear_console app length].
    destruct (outcome (for_each (repeat tt n) _ (final done))); lia.
Qed.

(** X16: with no active symbol [main] says so and returns: one line is
    printed, nothing is asked of the exchange, the ledger is untouched and
    no turn is started, whatever the number of turns allowed. *)
Theorem main_without_active_symbols (settings : Settings T) (turns : nat) (s : State) :
  (forall sym cfg, In (sym, cfg) (symbols settings) ->
     default false (is_active cfg) = false) ->
  main env settings turns s = mkResult (inr tt) s [EvPrint MsgNoActiveSymbols].
Proof.
  intros Hnone. unfold main.
  replace (List.filter _ (symbols settings)) with (@nil (string * SymbolConfig T));
    [reflexivity |].
  symmetry. apply filter_none. apply List.Forall_forall. intros [sym cfg] Hin.
  exact (Hnone sym cfg Hin).
Qed.

(** X17: a cycle returns exactly when its reconciliation returned with
    a price. It then adds to the reconciliation's output the status line
    with the price and the number of open orders, one line per open order
    and a blank line, and leaves the ledger as the reconciliation left
    it. *)
Theorem symbol_cycle_report (settings : Settings T) (sym : string)
    (cfg : SymbolConfig T) (s : State) :
  let reconciled := reconcile_symbol env settings cfg sym s in
  let r := symbol_cycle env settings sym cfg s in
  (outcome r = inr tt <->
   exists p open_orders, outcome reconciled = inr (Some p, open_orders)) /\
  (forall p open_orders,
     outcome reconciled = inr (Some p, open_orders) ->
     ledger (final r) = ledger (final reconciled) /\
     exists current_time,
       emitted r =
         emitted reconciled
         ++ EvPrint (MsgSymbolStatus sym p (length open_orders) (profit_percent cfg)
                       current_time)
         :: map (fun order =>
                   EvPrint (MsgOpenOrder (o_symbol order) (o_side order) (o_origQty order)
                              (default 1%nat (volume_precision cfg)) (o_price order)))
              open_orders
         ++ [EvPrint MsgBlank]).
Proof.
  intros reconciled r. subst r. unfold symbol_cycle, bind. fold reconciled.
  destruct (outcome reconciled) as [e | [[p |] open_orders]] eqn:Hrec.
  - split; [| discriminate]. split; [discriminate | now intros (p & l & Heq)].
  - unfold render_symbol, bind, call_clock. cbn [fst snd].
    destruct (time_clock env (world (final reconciled))) as [now g].
    cbn [outcome final emitted print_line emit].
    rewrite for_each_print. cbn [outcome final emitted ledger]. split.
    + split; [eauto | reflexivity].
    + intros p' l' [= <- <-]. split; [reflexivity |]. exists now.
      reflexivity.
  - unfold render_symbol, bind, call_clock. cbn [fst snd].
    destruct (time_clock env (world (final reconciled))) as [now g].
    cbn [outcome final emitted raise]. split; [| discriminate].
    split; [discriminate | now intros (p & l & Heq)].
Qed.

(** ** Rows are never deleted *)

Lemma status_step_refl (row : Row T) : status_step row row.
Proof. exists (r_status row). split; [now left | now rewrite with_status_same]. Qed.

Lemma status_step_trans (a b c : Row T) :
  status_step a b -> status_step b c -> status_step a c.
Proof.
  intros (st & Hst & ->) (st' & Hst' & ->). exists st'.
  rewrite with_status_twice. split; [| reflexivity].
  destruct Hst' as [-> | Hst']; [| now right].
  destruct a; simpl in *. exact Hst.
Qed.

Lemma rows_kept_refl (l : gmap Z (Row T)) : rows_kept l l.
Proof. intros id row H. exists row. split; [exact H | apply status_step_refl]. Qed.

Lemma rows_kept_trans (a b c : gmap Z (Row T)) :
  rows_kept a b -> rows_kept b c -> rows_kept a c.
Proof.
  intros Hab Hbc id row H. destruct (Hab id row H) as (row' & H' & Hs).
  destruct (Hbc id row' H') as (row'' & H'' & Hs').
  exists row''. split; [exact H'' | eapply status_step_trans; eassumption].
Qed.

Lemma rows_kept_bind (A B : Type) (m : M T G A) (k : A -> M T G B) :
  (forall s, rows_kept (ledger s) (ledger (final (m s)))) ->
  (forall a s, rows_kept (ledger s) (ledger (final (k a s)))) ->
  forall s, rows_kept (ledger s) (ledger (final ((x <- m ;; k x) s))).
Proof.
  intros Hm Hk s. unfold bind. destruct (outcome (m s)) as [e | a]; cbn [final].
  - apply Hm.
  - eapply rows_kept_trans; [apply Hm | apply Hk].
Qed.

Lemma rows_kept_for_each (A : Type) (l : list A) (body : A -> M T G unit) :
  (forall x s, rows_kept (ledger s) (ledger (final (body x s)))) ->
  forall s, rows_kept (ledger s) (ledger (final (for_each l body s))).
Proof.
  intros Hbody. induction l as [| x l IH]; intros s; [apply rows_kept_refl |].
  cbn [for_each]. apply rows_kept_bind; [apply Hbody | intros _; exact IH].
Qed.

Lemma rows_kept_eq (l l' : gmap Z (Row T)) : l' = l -> rows_kept l l'.
Proof. intros ->. apply rows_kept_refl. Qed.

Lemma symbol_cycle_keeps_rows (settings : Settings T) (sym : string)
    (cfg : SymbolConfig T) (s : State) :
  rows_kept (ledger s) (ledger (final (symbol_cycle env settings sym cfg s))).
Proof.
  revert s. unfold symbol_cycle. apply rows_kept_bind.
  2:{ intros fetched s. apply rows_kept_eq, render_symbol_ledger. }
  unfold reconcile_symbol. apply rows_kept_bind.
  { intros s. apply rows_kept_eq, get_current_price_ledger. }
  intros current_price. apply rows_kept_bind.
  { intros s. apply rows_kept_eq, get_open_orders_ledger. }
  intros live. apply rows_kept_bind.
  { intros s id row Hrow.
    destruct (save_or_update_orders_lookup T G env live s id) as [Hlook _].
    rewrite Hrow in Hlook. destruct (first_listed id live).
    - exists (with_status "OPEN" row). split; [exact Hlook |].
      exists "OPEN". split; [right; now left | reflexivity].
    - exists row. split; [exact Hlook | apply status_step_refl]. }
  intros _. apply rows_kept_bind.
  { intros s. apply rows_kept_refl. }
  intros existing. apply rows_kept_bind.
  2:{ intros _ s. apply rows_kept_refl. }
  intros s id row Hrow.
  destruct (process_fills_lookup settings cfg sym
              (list_to_set (map (@o_orderId T) live)) existing s id) as [Hsame | [_ Hfill]].
  - exists row. split; [now rewrite Hsame | apply status_step_refl].
  - exists (with_status "FILLED" row). split; [now rewrite Hfill, Hrow |].
    exists "FILLED". split; [right; now right | reflexivity].
Qed.

(** X18: [main] never deletes a row and never rewrites anything but the
    status. A row that is in the ledger before a run is there after it,
    however the run ended, equal to what it was except for its status,
    which is the old one, OPEN or FILLED. *)
Theorem main_keeps_rows (settings : Settings T) (turns : nat) (s : State)
    (id : Z) (row : Row T) :
  ledger s !! id = Some row ->
  exists st,
    (st = r_status row \/ st = "OPEN" \/ st = "FILLED") /\
    ledger (final (main env settings turns s)) !! id = Some (with_status st row).
Proof.
  intros Hrow.
  assert (Hkept : rows_kept (ledger s) (ledger (final (main env settings turns s)))).
  { unfold main. destruct (map fst _) as [| sym0 rest]; [apply rows_kept_refl |].
    clear Hrow. revert s. apply rows_kept_for_each. intros _.
    unfold poll_cycle. apply rows_kept_bind; [intros s; apply rows_kept_refl |].
    intros _. apply rows_kept_bind; [| intros _ s; apply rows_kept_refl].
    apply rows_kept_for_each. intros sym s.
    destruct (lookup_symbol sym (symbols settings)); [| apply rows_kept_refl].
    apply symbol_cycle_keeps_rows. }
  destruct (Hkept id row Hrow) as (row' & Hlook & st & Hst & ->).
  now exists st.
Qed.

End Engine.

(** ** The further theorems applied *)

(** The exchange lists order 7, which the ledger does not have: its row
    is made, with the reading of the clock. *)
Lemma upsert_rows_witness :
  Forall (fun o => sqlite_integer (o_orderId o)) [sample_live float64 7 "BUY" 100] /\
  ledger (final (save_or_update_orders (scripted (calm float64))
                   [sample_live float64 7 "BUY" 100] (state_of []))) !! 7
  = Some (mkRow "BTCUSDT" "BUY" (of_Z 100) (of_Z 1) "OPEN" 1700000000).
Proof.
  assert (Hrange : Forall (fun o => sqlite_integer (o_orderId o))
                     [sample_live float64 7 "BUY" 100]).
  { repeat constructor; vm_compute; discriminate. }
  split; [exact Hrange |].
  pose proof (upsert_rows float64 unit (scripted (calm float64))
                [sample_live float64 7 "BUY" 100] (state_of []) 7 Hrange) as H.
  cbv zeta in H. destruct H as (_ & _ & _ & _ & Hnew).
  exact (Hnew [] (sample_live float64 7 "BUY" 100) [] eq_refl eq_refl eq_refl eq_refl).
Defined.

(** Order 7 is OPEN; marked, it is FILLED. *)
Lemma mark_order_filled_rows_witness :
  sqlite_integer 7 /\
  ledger (final (mark_order_filled 7
                   (state_of [sample_order float64 7 "BUY" 100 "OPEN"]))) !! 7
  = Some (with_status "FILLED" (row_of (sample_order float64 7 "BUY" 100 "OPEN"))).
Proof.
  assert (Hrange : sqlite_integer 7) by (split; vm_compute; [discriminate | reflexivity]).
  split; [exact Hrange |].
  pose proof (mark_order_filled_rows float64 unit 7
                (state_of [sample_order float64 7 "BUY" 100 "OPEN"]) Hrange) as H.
  cbv zeta in H. destruct H as (_ & _ & _ & _ & Hrow & _).
  exact (Hrow _ eq_refl).
Defined.

(** Orders 7 and 8 are OPEN; once 7 is marked the list holds 8 only. *)
Lemma marked_order_is_not_listed_witness :
  exists before after,
    outcome (get_filled_orders ["BTCUSDT"]
               (state_of [sample_order float64 7 "BUY" 100 "OPEN";
                          sample_order float64 8 "SELL" 110 "OPEN"])) = inr before /\
    outcome (get_filled_orders ["BTCUSDT"]
               (final (mark_order_filled 7
                         (state_of [sample_order float64 7 "BUY" 100 "OPEN";
                                    sample_order float64 8 "SELL" 110 "OPEN"]))))
    = inr after /\
    (In (sample_order float64 8 "SELL" 110 "OPEN") after <->
     In (sample_order float64 8 "SELL" 110 "OPEN") before /\
     order_id (sample_order float64 8 "SELL" 110 "OPEN") <> 7).
Proof.
  eexists. eexists. split; [reflexivity |]. split; [reflexivity |].
  exact (marked_order_is_not_listed float64 unit ["BTCUSDT"]
           (state_of [sample_order float64 7 "BUY" 100 "OPEN";
                      sample_order float64 8 "SELL" 110 "OPEN"]) 7 _ _ eq_refl eq_refl
           (sample_order float64 8 "SELL" 110 "OPEN")).
Defined.

(** Order 7 is FILLED in the ledger and listed by the exchange: after the
    upsert it is among the orders the bot watches. *)
Lemma upserted_orders_are_listed_witness :
  exists listed,
    outcome (get_filled_orders ["BTCUSDT"]
               (final (save_or_update_orders (scripted (calm float64))
                         [sample_live float64 7 "BUY" 100]
                         (state_of [sample_order float64 7 "BUY" 100 "FILLED"]))))
    = inr listed /\
    In (sample_order float64 7 "BUY" 100 "OPEN") listed.
Proof.
  eexists. split; [reflexivity |].
  pose proof (upserted_orders_are_listed float64 unit (scripted (calm float64))
                [sample_live float64 7 "BUY" 100] ["BTCUSDT"]
                (state_of [sample_order float64 7 "BUY" 100 "FILLED"]) _ eq_refl) as H.
  destruct H as [Hold _].
  apply (Hold 7 (sample_live float64 7 "BUY" 100)
           (row_of (sample_order float64 7 "BUY" 100 "FILLED")));
    [reflexivity | reflexivity | now left].
Defined.

(** A BUY filled at 100: the SELL that is sent is not below the minimum of
    50. *)
Lemma sent_orders_passed_the_guards_witness :
  exists req,
    In (EvCreateOrder req (inr tt))
       (emitted (place_opposite_order (scripted (calm float64))
                   (sample_order float64 7 "BUY" 100 "OPEN") (sample_settings float64)
                   (sample_config float64) (state_of []))) /\
    req_symbol req = "BTCUSDT" /\
    (fs_value (req_price req) <! price_min (sample_config float64)) = false.
Proof.
  eexists.
  assert (Hin : In (EvCreateOrder
                      (limit_order "BTCUSDT" SIDE_SELL (of_Z 2) (decimal 1012 1) 2)
                      (inr tt))
                   (emitted (place_opposite_order (scripted (calm float64))
                               (sample_order float64 7 "BUY" 100 "OPEN")
                               (sample_settings float64) (sample_config float64)
                               (state_of [])))).
  { vm_compute. right. left. reflexivity. }
  split; [exact Hin |].
  pose proof (sent_orders_passed_the_guards float64 unit (scripted (calm float64))
                (sample_order float64 7 "BUY" 100 "OPEN") (sample_settings float64)
                (sample_config float64) (state_of []) _ _ Hin) as H.
  cbv zeta in H. destruct H as (_ & _ & Hsym & _ & _ & _ & Hmin & _).
  split; [exact Hsym | exact Hmin].
Defined.

(** A BUY filled at 10: the SELL would be below the minimum of 50, nothing
    is sent and the order is marked FILLED. *)
Lemma skipped_or_declined_fill_is_marked_witness :
  exists ev,
    ledger (state_of [sample_order float64 7 "BUY" 10 "OPEN"]) !! 7
    = Some (row_of (sample_order float64 7 "BUY" 10 "OPEN")) /\
    In ev (emitted (place_opposite_order (scripted (calm float64))
                      (sample_order float64 7 "BUY" 10 "OPEN") (sample_settings float64)
                      (sample_config float64)
                      (state_of [sample_order float64 7 "BUY" 10 "OPEN"]))) /\
    (is_skip ev = true \/ ev = EvPrint MsgOrderCancelled) /\
    ledger (final (handle_fill (scripted (calm float64)) (sample_settings float64)
                     (sample_config float64) "BTCUSDT"
                     (sample_order float64 7 "BUY" 10 "OPEN")
                     (state_of [sample_order float64 7 "BUY" 10 "OPEN"]))) !! 7
    = Some (with_status "FILLED" (row_of (sample_order float64 7 "BUY" 10 "OPEN"))).
Proof.
  eexists.
  assert (Hrow : ledger (state_of [sample_order float64 7 "BUY" 10 "OPEN"]) !! 7
                 = Some (row_of (sample_order float64 7 "BUY" 10 "OPEN")))
    by reflexivity.
  split; [exact Hrow |].
  assert (Hin : In (EvLogInfo (MsgSkippedBelowMin "BTCUSDT" "SELL"
                                 (price_after_buy (of_Z 10) (of_Z 1 /! of_Z 100) (of_Z 2)
                                    (decimal 1 1 /! of_Z 100))
                                 (of_Z 50)))
                   (emitted (place_opposite_order (scripted (calm float64))
                               (sample_order float64 7 "BUY" 10 "OPEN")
                               (sample_settings float64) (sample_config float64)
                               (state_of [sample_order float64 7 "BUY" 10 "OPEN"])))).
  { vm_compute. left. reflexivity. }
  split; [exact Hin |].
  assert (Hskip : is_skip (EvLogInfo (MsgSkippedBelowMin "BTCUSDT" "SELL"
                                 (price_after_buy (T := float64) (of_Z 10)
                                    (of_Z 1 /! of_Z 100) (of_Z 2)
                                    (decimal 1 1 /! of_Z 100))
                                 (of_Z 50))) = true \/
                  EvLogInfo (MsgSkippedBelowMin "BTCUSDT" "SELL"
                                 (price_after_buy (T := float64) (of_Z 10)
                                    (of_Z 1 /! of_Z 100) (of_Z 2)
                                    (decimal 1 1 /! of_Z 100))
                                 (of_Z 50)) = EvPrint MsgOrderCancelled)
    by (left; reflexivity).
  split; [exact Hskip |].
  pose proof (skipped_or_declined_fill_is_marked float64 unit (scripted (calm float64))
                (sample_settings float64) (sample_config float64) "BTCUSDT"
                (sample_order float64 7 "BUY" 10 "OPEN")
                (state_of [sample_order float64 7 "BUY" 10 "OPEN"]) _ _
                Hrow Hin Hskip) as H.
  cbv zeta in H. destruct H as (_ & _ & Hmark). exact Hmark.
Defined.

(** The exchange still lists order 7: it is OPEN after the
    reconciliation. *)
Lemma live_orders_stay_open_witness :
  outcome (get_current_price
             (scripted (with_open_orders (inr [sample_live float64 7 "BUY" 100])
                          (calm float64)))
             "BTCUSDT" (state_of [sample_order float64 7 "BUY" 100 "OPEN"]))
  = inr (Some (of_Z 100)) /\
  In 7 (map (@o_orderId float64) [sample_live float64 7 "BUY" 100]) /\
  status_of 7
    (final (reconcile_symbol
              (scripted (with_open_orders (inr [sample_live float64 7 "BUY" 100])
                           (calm float64)))
              (sample_settings float64) (sample_config float64) "BTCUSDT"
              (state_of [sample_order float64 7 "BUY" 100 "OPEN"])))
  = Some "OPEN".
Proof.
  split; [reflexivity |]. split; [now left |].
  apply (live_orders_stay_open float64 unit
           (scripted (with_open_orders (inr [sample_live float64 7 "BUY" 100])
                        (calm float64)))
           (sample_settings float64) (sample_config float64) "BTCUSDT"
           (state_of [sample_order float64 7 "BUY" 100 "OPEN"])
           (Some (of_Z 100)) [sample_live float64 7 "BUY" 100] 7);
    [reflexivity | reflexivity | now left].
Defined.

(** The exchange lists nothing and order 7 is OPEN in the ledger: it is
    announced, answered with a SELL and marked FILLED. *)
Lemma vanished_orders_are_filled_witness :
  outcome (reconcile_symbol (scripted (calm float64)) (sample_settings float64)
             (sample_config float64) "BTCUSDT"
             (state_of [sample_order float64 7 "BUY" 100 "OPEN"]))
  = inr (Some (of_Z 100), []) /\
  status_of 7
    (final (reconcile_symbol (scripted (calm float64)) (sample_settings float64)
              (sample_config float64) "BTCUSDT"
              (state_of [sample_order float64 7 "BUY" 100 "OPEN"])))
  = Some "FILLED".
Proof.
  assert (Hrun : outcome (reconcile_symbol (scripted (calm float64))
                            (sample_settings float64) (sample_config float64) "BTCUSDT"
                            (state_of [sample_order float64 7 "BUY" 100 "OPEN"]))
                 = inr (Some (of_Z 100), []))
    by (vm_compute; reflexivity).
  split; [exact Hrun |].
  pose proof (vanished_orders_are_filled float64 unit (scripted (calm float64))
                (sample_settings float64) (sample_config float64) "BTCUSDT"
                (state_of [sample_order float64 7 "BUY" 100 "OPEN"])
                (Some (of_Z 100)) [] _ eq_refl eq_refl Hrun) as H.
  cbv zeta in H. destruct H as (_ & Hgone & _).
  apply (Hgone 7 (row_of (sample_order float64 7 "BUY" 100 "OPEN")));
    [reflexivity | reflexivity | reflexivity | intros []].
Defined.

(** Two turns in the calm world: two sleeps. *)
Lemma main_turns_witness :
  List.filter (fun entry => default false (is_active (snd entry)))
    (symbols (sample_settings float64)) <> [] /\
  length (List.filter is_sleep
            (emitted (main (scripted (calm float64)) (sample_settings float64) 2
                        (state_of [])))) = 2%nat.
Proof.
  assert (Hact : List.filter (fun entry => default false (is_active (snd entry)))
                   (symbols (sample_settings float64)) <> [])
    by discriminate.
  split; [exact Hact |].
  pose proof (main_turns float64 unit (scripted (calm float64))
                (sample_settings float64) 2 (state_of []) Hact) as H.
  cbv zeta in H.
  assert (Hout : outcome (main (scripted (calm float64)) (sample_settings float64) 2
                            (state_of [])) = inr tt)
    by (vm_compute; reflexivity).
  rewrite Hout in H. exact (proj1 H).
Defined.

(** The one symbol of the settings is switched off: [main] prints its
    line and returns. *)
Lemma main_without_active_symbols_witness :
  main (scripted (calm float64))
    (mkSettings (sample_global float64)
       [("BTCUSDT", mkSymbolConfig (Some false) (of_Z 1) (of_Z 1) (of_Z 2) (of_Z 50)
                      (of_Z 150) None None None None)])
    3 (state_of [sample_order float64 7 "BUY" 100 "OPEN"])
  = mkResult (inr tt) (state_of [sample_order float64 7 "BUY" 100 "OPEN"])
      [EvPrint MsgNoActiveSymbols].
Proof.
  apply (main_without_active_symbols float64 unit (scripted (calm float64))).
  intros sym cfg [Heq | []]. injection Heq as _ <-. reflexivity.
Defined.

(** Order 7 is in the ledger before two turns of the loop and after
    them. *)
Lemma main_keeps_rows_witness :
  ledger (state_of [sample_order float64 7 "BUY" 100 "OPEN"]) !! 7
  = Some (row_of (sample_order float64 7 "BUY" 100 "OPEN")) /\
  exists st,
    (st = r_status (row_of (sample_order float64 7 "BUY" 100 "OPEN")) \/
     st = "OPEN" \/ st = "FILLED") /\
    ledger (final (main (scripted (calm float64)) (sample_settings float64) 2
                     (state_of [sample_order float64 7 "BUY" 100 "OPEN"]))) !! 7
    = Some (with_status st (row_of (sample_order float64 7 "BUY" 100 "OPEN"))).
Proof.
  split; [reflexivity |].
  exact (main_keeps_rows float64 unit (scripted (calm float64))
           (sample_settings float64) 2
           (state_of [sample_order float64 7 "BUY" 100 "OPEN"]) 7
           (row_of (sample_order float64 7 "BUY" 100 "OPEN")) eq_refl).
Defined.

(** The standard input is closed and the prompt is on: the run raises
    the [EOFError] of [input], and the ledger is as it was. *)
Lemma place_opposite_order_raises_only_witness :
  outcome (place_opposite_order (scripted (closed_stdin float64))
             (sample_order float64 7 "BUY" 100 "OPEN") (asking_settings float64)
             (sample_config float64)
             (state_of [sample_order float64 7 "BUY" 100 "OPEN"]))
  = inl (OtherException "EOFError") /\
  ledger (final (place_opposite_order (scripted (closed_stdin float64))
                   (sample_order float64 7 "BUY" 100 "OPEN") (asking_settings float64)
                   (sample_config float64)
                   (state_of [sample_order float64 7 "BUY" 100 "OPEN"])))
  = ledger (state_of [sample_order float64 7 "BUY" 100 "OPEN"]).
Proof.
  assert (Hout : outcome (place_opposite_order (scripted (closed_stdin float64))
                    (sample_order float64 7 "BUY" 100 "OPEN") (asking_settings float64)
                    (sample_config float64)
                    (state_of [sample_order float64 7 "BUY" 100 "OPEN"]))
                 = inl (OtherException "EOFError"))
    by (vm_compute; reflexivity).
  split; [exact Hout |].
  exact (proj1 (place_opposite_order_raises_only float64 unit
                  (scripted (closed_stdin float64))
                  (sample_order float64 7 "BUY" 100 "OPEN") (asking_settings float64)
                  (sample_config float64)
                  (state_of [sample_order float64 7 "BUY" 100 "OPEN"]) _ Hout)).
Defined.
